(** * Process_Manager: the sampling engine of [monitor.py] and [gpu_monitor.py]

    A shallow embedding of the two files that make up the sampling core
    (the [GPUMonitor] accessor and the [SystemMonitor] worker) and the
    properties of the specification checked against it.

    Conventions of the embedding.
    - Python [float] is IEEE 754 binary64: Rocq's primitive [float], whose
      operations are specified by [SpecFloat] through the standard library's
      float axioms.  Python [int] is [Z].
    - A Python exception is a value of [exn]; code that can raise returns
      [res A].  Code that talks to NVML or to the logger returns [eff A]:
      the events it performed, in order, and its outcome.
    - [pynvml], [psutil] and [time] are the environment: the answers they
      give during one call are an argument of the function that makes it. *)

From Stdlib Require Import ZArith Floats Lia.
From stdpp Require Import base option list strings gmap.

Local Open Scope Z_scope.

(** Decimal literals such as [1.3] denote the nearest binary64 number, as
    they do in Python. *)
#[local] Set Warnings "-inexact-float".

(** ** Python values and exceptions *)

Inductive exn :=
| NVMLError (msg : string)
| IndexError
| ZeroDivisionError
| OverflowError
| AttributeError
| TypeError.

Inductive res (A : Type) :=
| Ok (a : A)
| Raise (e : exn).
Arguments Ok {A} a.
Arguments Raise {A} e.

Definition res_bind {A B} (r : res A) (k : A -> res B) : res B :=
  match r with
  | Ok a => k a
  | Raise e => Raise e
  end.

Declare Scope res_scope.
Delimit Scope res_scope with res.
Notation "x <- r ;; k" := (res_bind r (fun x => k))
  (at level 100, r at next level, right associativity) : res_scope.

(** [for x in l: acc = f(acc, x)] when [f] can raise: the loop stops at
    the first exception. *)
Fixpoint res_fold {A B} (f : A -> B -> res A) (l : list B) (acc : A) : res A :=
  match l with
  | [] => Ok acc
  | x :: l' => (acc' <- f acc x ;; res_fold f l' acc')%res
  end.

(** A Python number that is either an [int] or a [float]: the type of the
    expressions [a and b or 0] and [x if c else 0] of the source. *)
Inductive pynum :=
| PyInt (z : Z)
| PyFloat (f : float).

(** ** Floats as Python uses them *)

Module Py.

(** [min(a, b)] and [max(a, b)] on two arguments: the first one is kept
    unless the second compares strictly below (above) it. *)
Definition min (a b : float) : float := if (b <? a)%float then b else a.
Definition max (a b : float) : float := if (a <? b)%float then b else a.

(** [x == 0] and the truth value of a float. *)
Definition is_zero (x : float) : bool := (x =? 0)%float.
Definition truthy (x : float) : bool := negb (is_zero x).

(** [a / b] on floats: [ZeroDivisionError] on a zero divisor, the IEEE
    quotient otherwise. *)
Definition float_div (a b : float) : res float :=
  if is_zero b then Raise ZeroDivisionError else Ok (a / b)%float.

(** The integer [z] as an exact, unrounded binary number. *)
Definition Z2SF (z : Z) : spec_float :=
  match z with
  | Z0 => S754_zero false
  | Zpos p => S754_finite false p 0
  | Zneg p => S754_finite true p 0
  end.

(** [a / b] on ints (true division): the quotient of the two integers
    rounded once to the nearest float, ties to even;
    [ZeroDivisionError] on a zero divisor and [OverflowError] when the
    rounded quotient is not finite. *)
Definition int_truediv (a b : Z) : res float :=
  if b =? 0 then Raise ZeroDivisionError
  else match SFdiv prec emax (Z2SF a) (Z2SF b) with
       | S754_infinity _ => Raise OverflowError
       | q => Ok (SF2Prim q)
       end.

End Py.

(** ** The two-sided bound used for percentages *)

(** [x] is a number (not NaN) between 0 and 100, both included. *)
Definition in_percent_range (x : float) : Prop :=
  (0 <=? x)%float = true /\ (x <=? 100)%float = true.

(** * monitor.py: the CPU delta computation *)

(** One entry of [psutil.cpu_times(percpu=True)]; the fields the code reads. *)
Record scputimes := {
  user : float;
  system : float;
  idle : float;
}.

(** The accumulators of the loop of [_calculate_cpu_percent]. *)
Record cpu_acc := {
  per_cpu_percent : list float;
  total_delta_user : float;
  total_delta_system : float;
  total_delta_idle : float;
  total_delta_all : float;
}.

Definition delta_user (current last : scputimes) : float :=
  (user current - user last)%float.
Definition delta_system (current last : scputimes) : float :=
  (system current - system last)%float.
Definition delta_idle (current last : scputimes) : float :=
  (idle current - idle last)%float.
Definition delta_all (current last : scputimes) : float :=
  (delta_user current last + delta_system current last + delta_idle current last)%float.

(** [max(0.0, min(100.0, percent))]. *)
Definition clamp_percent (percent : float) : float :=
  Py.max 0%float (Py.min 100%float percent).

(** [0.0] when [all == 0], else [busy / all * 100]; the division is the
    Python one, which raises on a zero divisor. *)
Definition percent_of (busy all : float) : res float :=
  if Py.is_zero all then Ok 0%float
  else (q <- Py.float_div busy all ;; Ok (q * 100)%float)%res.

(** The percentage of one core before clamping. *)
Definition core_percent (current last : scputimes) : res float :=
  percent_of (delta_user current last + delta_system current last)%float
             (delta_all current last).

(** One iteration of the [for i in range(len(current_times))] loop. *)
Definition cpu_loop_body (acc : cpu_acc) (current last : scputimes) : res cpu_acc :=
  (percent <- core_percent current last ;;
   Ok {| per_cpu_percent := per_cpu_percent acc ++ [clamp_percent percent];
         total_delta_user := (total_delta_user acc + delta_user current last)%float;
         total_delta_system := (total_delta_system acc + delta_system current last)%float;
         total_delta_idle := (total_delta_idle acc + delta_idle current last)%float;
         total_delta_all := (total_delta_all acc + delta_all current last)%float |})%res.

(** The loop itself.  The index [i] runs over [current_times]; reading
    [last_times[i]] past the end of [last_times] raises [IndexError].  The
    two lists are walked in step, which is the same thing. *)
Fixpoint cpu_loop (acc : cpu_acc) (current_times last_times : list scputimes)
  : res cpu_acc :=
  match current_times with
  | [] => Ok acc
  | current :: current_times' =>
      match last_times with
      | [] => Raise IndexError
      | last :: last_times' =>
          (acc' <- cpu_loop_body acc current last ;;
           cpu_loop acc' current_times' last_times')%res
      end
  end.

(** The integer accumulators start at [0]; the first [+=] with a float
    converts that [0] to [0.0]. *)
Definition cpu_acc_init : cpu_acc :=
  {| per_cpu_percent := [];
     total_delta_user := 0%float;
     total_delta_system := 0%float;
     total_delta_idle := 0%float;
     total_delta_all := 0%float |}.

(** The statements after the loop: the total over the summed deltas. *)
Definition total_percent_of (acc : cpu_acc) : res float :=
  (total_percent <- percent_of (total_delta_user acc + total_delta_system acc)%float
                               (total_delta_all acc) ;;
   Ok (clamp_percent total_percent))%res.

(** [_calculate_cpu_percent]: [current_times] is what
    [psutil.cpu_times(percpu=True)] answers, [last_times] the stored
    baseline.  The baseline is replaced before the loop runs, so the new
    baseline is [current_times] whether or not the loop raises. *)
Definition _calculate_cpu_percent (current_times last_times : list scputimes)
  : list scputimes * res (float * list float) :=
  (current_times,
   (acc <- cpu_loop cpu_acc_init current_times last_times ;;
    total <- total_percent_of acc ;;
    Ok (total, per_cpu_percent acc))%res).

(** * The data published by one tick *)

(** One entry of the list returned by [get_gpu_info]. *)
Record gpu_info := {
  gpu_name : string;
  gpu_uuid : string;
  gpu_total_memory : Z;
  gpu_used_memory : Z;
  gpu_memory_percent : pynum;
  gpu_utilization : Z;
}.

(** One entry of [processes_data]. *)
Record process_data := {
  pd_pid : Z;
  pd_name : string;
  pd_cpu_percent : float;
  pd_memory_bytes : Z;
  pd_memory_percent : pynum;
  pd_gpu_memory_bytes : Z;
  pd_command : string;
}.

(** The dictionary returned by [_collect_data], with its two nested
    dictionaries ["ram"] and ["cpu"]. *)
Record ram_data := {
  ram_total : Z;
  ram_used : Z;
  ram_percent : float;
}.

Record cpu_data := {
  cpu_total_percent : float;
  cpu_per_cpu_percent : list float;
  cpu_physical_cores : option Z;
  cpu_logical_cores : option Z;
}.

Record system_data := {
  ram : ram_data;
  cpu : cpu_data;
  gpu : list gpu_info;
  processes : list process_data;
}.

(** * Effects: NVML calls, log records, signals and sleeps *)

Inductive nvml_call :=
| nvmlInit_call
| nvmlDeviceGetCount_call
| nvmlDeviceGetHandleByIndex_call (i : Z)
| nvmlDeviceGetComputeRunningProcesses_call (handle : Z)
| nvmlDeviceGetName_call (handle : Z)
| nvmlDeviceGetMemoryInfo_call (handle : Z)
| nvmlDeviceGetUtilizationRates_call (handle : Z)
| nvmlDeviceGetUUID_call (handle : Z)
| nvmlShutdown_call.

Inductive log_level := INFO | WARNING | ERROR.

Inductive event :=
| Nvml (c : nvml_call)
| Log (level : log_level) (msg : string)
| Emit (data : system_data)
| Sleep (seconds : float).

(** A computation with effects: the events it performed and how it ended. *)
Definition eff (A : Type) : Type := list event * res A.

Definition eff_ret {A} (a : A) : eff A := ([], Ok a).

Definition eff_bind {A B} (c : eff A) (k : A -> eff B) : eff B :=
  match c with
  | (t, Ok a) => let '(t', r) := k a in (t ++ t', r)
  | (t, Raise e) => (t, Raise e)
  end.

Definition tell (e : event) : eff unit := ([e], Ok tt).
Definition lift_res {A} (r : res A) : eff A := ([], r).

Declare Scope eff_scope.
Delimit Scope eff_scope with eff.
Notation "x <- c ;; k" := (eff_bind c (fun x => k))
  (at level 100, c at next level, right associativity) : eff_scope.
Notation "c ;;; k" := (eff_bind c (fun _ => k))
  (at level 100, right associativity) : eff_scope.

(** [for x in l: acc = f acc x], stopping at the first exception. *)
Fixpoint eff_fold {A B} (f : A -> B -> eff A) (l : list B) (acc : A) : eff A :=
  match l with
  | [] => eff_ret acc
  | x :: l' => (acc' <- f acc x ;; eff_fold f l' acc')%eff
  end.

(** [try: body except pynvml.NVMLError as e: handler(e)]; any other
    exception passes through. *)
Definition try_except_NVMLError {A} (body : eff A) (handler : string -> eff A) : eff A :=
  match body with
  | (t, Raise (NVMLError msg)) => let '(t', r) := handler msg in (t ++ t', r)
  | other => other
  end.

(** The NVML calls of one computation, in order. *)
Definition nvml_calls (t : list event) : list nvml_call :=
  omap (fun e => match e with Nvml c => Some c | _ => None end) t.

(** The snapshots emitted, in order. *)
Definition emitted (t : list event) : list system_data :=
  omap (fun e => match e with Emit d => Some d | _ => None end) t.

(** The sleeps requested, in order. *)
Definition sleeps (t : list event) : list float :=
  omap (fun e => match e with Sleep d => Some d | _ => None end) t.

(** * gpu_monitor.py *)

(** ** The pynvml library as the environment *)

(** An entry of [nvmlDeviceGetComputeRunningProcesses].  pynvml stores
    [None] in [usedGpuMemory] when the driver does not report the figure. *)
Record nvml_process := {
  pid : Z;
  usedGpuMemory : option Z;
}.

(** The fields of [nvmlDeviceGetMemoryInfo] and of
    [nvmlDeviceGetUtilizationRates] the code reads. *)
Record nvml_memory := {
  total : Z;
  used : Z;
}.

Record nvml_utilization := {
  utilization_gpu : Z;
}.

(** What a call into NVML answers: a value, or an [NVMLError] with its text. *)
Inductive nvml_return (A : Type) :=
| NVML_SUCCESS (a : A)
| NVML_ERROR (msg : string).
Arguments NVML_SUCCESS {A} a.
Arguments NVML_ERROR {A} msg.

(** The answers of the library during one call of a [GPUMonitor] method.
    Device handles are opaque to the code; here they are integers. *)
Record pynvml := {
  nvmlInit : nvml_return unit;
  nvmlDeviceGetCount : nvml_return Z;
  nvmlDeviceGetHandleByIndex : Z -> nvml_return Z;
  nvmlDeviceGetComputeRunningProcesses : Z -> nvml_return (list nvml_process);
  nvmlDeviceGetName : Z -> nvml_return string;
  nvmlDeviceGetMemoryInfo : Z -> nvml_return nvml_memory;
  nvmlDeviceGetUtilizationRates : Z -> nvml_return nvml_utilization;
  nvmlDeviceGetUUID : Z -> nvml_return string;
  nvmlShutdown : nvml_return unit;
}.

(** Performing a call: the call is recorded, and an error answer is raised. *)
Definition call {A} (c : nvml_call) (answer : nvml_return A) : eff A :=
  ([Nvml c],
   match answer with
   | NVML_SUCCESS a => Ok a
   | NVML_ERROR msg => Raise (NVMLError msg)
   end).

Definition log (level : log_level) (msg : string) : eff unit := tell (Log level msg).

(** [range(n)] for an integer [n]: empty when [n <= 0]. *)
Definition range (n : Z) : list Z := Z.of_nat <$> seq 0 (Z.to_nat n).

(** ** The accessor *)

Record GPUMonitor := {
  is_available : bool;
  pid_gpu_memory_map : gmap Z Z;
}.

(** [GPUMonitor.__init__].  [PYNXML_AVAILABLE] says whether the import of
    pynvml succeeded; [lib] is only consulted when it did. *)
Definition GPUMonitor_init (PYNXML_AVAILABLE : bool) (lib : pynvml) : eff GPUMonitor :=
  let self := {| is_available := false; pid_gpu_memory_map := ∅ |} in
  if PYNXML_AVAILABLE then
    try_except_NVMLError
      (call nvmlInit_call (nvmlInit lib) ;;;
       log INFO "nvidia-ml-py (pynvml) initialized successfully. GPU monitoring enabled." ;;;
       eff_ret {| is_available := true; pid_gpu_memory_map := pid_gpu_memory_map self |})%eff
      (fun e =>
         log WARNING ("Failed to initialize pynvml. GPU monitoring disabled. Error: " +:+ e) ;;;
         eff_ret {| is_available := false; pid_gpu_memory_map := pid_gpu_memory_map self |})%eff
  else
    (log INFO "nvidia-ml-py library not found. GPU monitoring is disabled." ;;;
     eff_ret self)%eff.

(** [m[p.pid] = m.get(p.pid, 0) + p.usedGpuMemory]: the sum is computed
    first, and adding [None] to an [int] raises [TypeError]. *)
Definition add_process (m : gmap Z Z) (p : nvml_process) : res (gmap Z Z) :=
  match usedGpuMemory p with
  | Some used_memory => Ok (<[pid p := default 0 (m !! pid p) + used_memory]> m)
  | None => Raise TypeError
  end.

(** The body of the [try] of [_map_pids_to_gpus], from the freshly reset map. *)
Definition map_pids_body (lib : pynvml) : eff (gmap Z Z) :=
  (device_count <- call nvmlDeviceGetCount_call (nvmlDeviceGetCount lib) ;;
   eff_fold
     (fun m i =>
        handle <- call (nvmlDeviceGetHandleByIndex_call i) (nvmlDeviceGetHandleByIndex lib i) ;;
        procs <- call (nvmlDeviceGetComputeRunningProcesses_call handle)
                      (nvmlDeviceGetComputeRunningProcesses lib handle) ;;
        lift_res (res_fold add_process procs m))
     (range device_count) ∅)%eff.

(** [_map_pids_to_gpus]. *)
Definition _map_pids_to_gpus (lib : pynvml) (self : GPUMonitor) : eff GPUMonitor :=
  if negb (is_available self) then eff_ret self
  else
    try_except_NVMLError
      (m <- map_pids_body lib ;;
       eff_ret {| is_available := is_available self; pid_gpu_memory_map := m |})%eff
      (fun e =>
         log ERROR ("Error fetching GPU process info: " +:+ e) ;;;
         eff_ret {| is_available := is_available self; pid_gpu_memory_map := ∅ |})%eff.

(** [(used / total * 100) if total > 0 else 0]. *)
Definition gpu_memory_percent_of (mem_info : nvml_memory) : res pynum :=
  if 0 <? total mem_info
  then (q <- Py.int_truediv (used mem_info) (total mem_info) ;;
        Ok (PyFloat (q * 100)%float))%res
  else Ok (PyInt 0).

(** The body of the [try] of [get_gpu_info]. *)
Definition gpu_info_body (lib : pynvml) : eff (list gpu_info) :=
  (device_count <- call nvmlDeviceGetCount_call (nvmlDeviceGetCount lib) ;;
   eff_fold
     (fun gpu_info_list i =>
        handle <- call (nvmlDeviceGetHandleByIndex_call i) (nvmlDeviceGetHandleByIndex lib i) ;;
        gpu_name <- call (nvmlDeviceGetName_call handle) (nvmlDeviceGetName lib handle) ;;
        mem_info <- call (nvmlDeviceGetMemoryInfo_call handle) (nvmlDeviceGetMemoryInfo lib handle) ;;
        util_rates <- call (nvmlDeviceGetUtilizationRates_call handle)
                           (nvmlDeviceGetUtilizationRates lib handle) ;;
        uuid <- call (nvmlDeviceGetUUID_call handle) (nvmlDeviceGetUUID lib handle) ;;
        memory_percent <- lift_res (gpu_memory_percent_of mem_info) ;;
        eff_ret (gpu_info_list ++
                 [{| gpu_name := gpu_name;
                     gpu_uuid := uuid;
                     gpu_total_memory := total mem_info;
                     gpu_used_memory := used mem_info;
                     gpu_memory_percent := memory_percent;
                     gpu_utilization := utilization_gpu util_rates |}]))
     (range device_count) [])%eff.

(** [get_gpu_info]: the new state of the accessor and the list returned. *)
Definition get_gpu_info (lib : pynvml) (self : GPUMonitor)
  : eff (GPUMonitor * list gpu_info) :=
  if negb (is_available self) then eff_ret (self, [])
  else
    try_except_NVMLError
      (gpu_info_list <- gpu_info_body lib ;;
       eff_ret (self, gpu_info_list))%eff
      (fun e =>
         log ERROR ("Could not retrieve GPU info during update. Disabling monitoring. Error: " +:+ e) ;;;
         eff_ret ({| is_available := false;
                     pid_gpu_memory_map := pid_gpu_memory_map self |}, []))%eff.

(** [get_process_gpu_memory]: [self.pid_gpu_memory_map.get(pid, 0)]. *)
Definition get_process_gpu_memory (self : GPUMonitor) (pid : Z) : Z :=
  default 0 (pid_gpu_memory_map self !! pid).

(** [shutdown]. *)
Definition shutdown (lib : pynvml) (self : GPUMonitor) : eff unit :=
  if is_available self then
    try_except_NVMLError
      (call nvmlShutdown_call (nvmlShutdown lib) ;;;
       log INFO "pynvml shut down successfully.")%eff
      (fun e => log ERROR ("Error during pynvml shutdown: " +:+ e))
  else eff_ret tt.

(** * monitor.py *)

(** ** psutil and the clock as the environment *)

(** The fields of [psutil.virtual_memory()] the code reads. *)
Record svmem := {
  vm_total : Z;
  vm_used : Z;
  vm_percent : float;
}.

(** [pinfo['memory_info']]. *)
Record pmem := {
  rss : Z;
}.

(** [proc.info].  psutil stores [None] for an attribute it was denied
    access to; the code reads an attribute of ['memory_info'] and tests
    ['cmdline'], so these two are optional here. *)
Record pinfo := {
  info_pid : Z;
  info_name : string;
  info_cpu_percent : float;
  info_memory_info : option pmem;
  info_cmdline : option (list string);
}.

Inductive psutil_error := NoSuchProcess | AccessDenied | ZombieProcess.

(** An element of [psutil.process_iter(...)]: inspecting it gives its
    [info] or raises one of the three psutil exceptions. *)
Inductive proc :=
| Proc (info : pinfo)
| Vanished (e : psutil_error).

(** What the environment answers during one step of the worker thread.
    [sleep_fits seconds] is the answer of [time.sleep(seconds)] to a
    positive duration: the interpreter counts the duration in nanoseconds
    on 64 bits, and the call raises [OverflowError] instead of sleeping
    when the duration does not fit (an infinite duration, or one of more
    than about 9.2e9 seconds). *)
Record world := {
  time : float;
  sleep_fits : float -> bool;
  lib : pynvml;
  virtual_memory : svmem;
  cpu_times : list scputimes;
  process_iter : list proc;
  cpu_count_physical : option Z;
  cpu_count_logical : option Z;
}.

(** ** The worker object *)

Record SystemMonitor := {
  _refresh_interval : float;
  _is_running : bool;
  gpu_monitor : GPUMonitor;
  _last_cpu_times : list scputimes;
}.

(** [SystemMonitor.__init__]. *)
Definition SystemMonitor_init (refresh_interval : float) (PYNXML_AVAILABLE : bool)
    (w : world) : eff SystemMonitor :=
  (g <- GPUMonitor_init PYNXML_AVAILABLE (lib w) ;;
   eff_ret {| _refresh_interval := refresh_interval;
              _is_running := true;
              gpu_monitor := g;
              _last_cpu_times := cpu_times w |})%eff.

(** [stop]: the write of the flag.  The mutex it takes is taken by no
    reader, so the write is the whole effect. *)
Definition stop (self : SystemMonitor) : SystemMonitor :=
  {| _refresh_interval := _refresh_interval self;
     _is_running := false;
     gpu_monitor := gpu_monitor self;
     _last_cpu_times := _last_cpu_times self |}.

(** [ram.total and (rss / ram.total * 100) or 0]. *)
Definition memory_percent (ram_total rss : Z) : res pynum :=
  if ram_total =? 0 then Ok (PyInt 0)
  else (q <- Py.int_truediv rss ram_total ;;
        let x := (q * 100)%float in
        Ok (if Py.truthy x then PyFloat x else PyInt 0))%res.

(** [' '.join(l)]. *)
Fixpoint join_space (l : list string) : string :=
  match l with
  | [] => ""
  | [s] => s
  | s :: l' => s +:+ " " +:+ join_space l'
  end.

(** [' '.join(pinfo['cmdline']) if pinfo['cmdline'] else '']. *)
Definition command_of (cmdline : option (list string)) : string :=
  match cmdline with
  | Some (s :: l) => join_space (s :: l)
  | _ => ""
  end.

(** The dictionary built for one process, in the order the source
    evaluates its values. *)
Definition process_record (ram_total : Z) (g : GPUMonitor) (pinfo : pinfo)
  : res process_data :=
  let cmd := command_of (info_cmdline pinfo) in
  (mem <- match info_memory_info pinfo with
          | Some m => Ok m
          | None => Raise AttributeError
          end ;;
   percent <- memory_percent ram_total (rss mem) ;;
   Ok {| pd_pid := info_pid pinfo;
         pd_name := info_name pinfo;
         pd_cpu_percent := info_cpu_percent pinfo;
         pd_memory_bytes := rss mem;
         pd_memory_percent := percent;
         pd_gpu_memory_bytes := get_process_gpu_memory g (info_pid pinfo);
         pd_command := cmd |})%res.

(** The loop over [psutil.process_iter(...)]: a process whose inspection
    raises one of the psutil exceptions is skipped. *)
Fixpoint collect_processes (ram_total : Z) (g : GPUMonitor) (procs : list proc)
    (processes_data : list process_data) : res (list process_data) :=
  match procs with
  | [] => Ok processes_data
  | Vanished _ :: procs' => collect_processes ram_total g procs' processes_data
  | Proc pinfo :: procs' =>
      (d <- process_record ram_total g pinfo ;;
       collect_processes ram_total g procs' (processes_data ++ [d]))%res
  end.

(** [_collect_data]: the new state of the worker and the dictionary. *)
Definition _collect_data (w : world) (self : SystemMonitor)
  : eff (SystemMonitor * system_data) :=
  let ram := virtual_memory w in
  let '(last', cpu_result) := _calculate_cpu_percent (cpu_times w) (_last_cpu_times self) in
  (cpu_percent <- lift_res cpu_result ;;
   let '(total_cpu_percent, per_cpu) := cpu_percent in
   processes_data <-
     lift_res (collect_processes (vm_total ram) (gpu_monitor self) (process_iter w) []) ;;
   gpu_result <- get_gpu_info (lib w) (gpu_monitor self) ;;
   let '(g', gpu_list) := gpu_result in
   eff_ret ({| _refresh_interval := _refresh_interval self;
               _is_running := _is_running self;
               gpu_monitor := g';
               _last_cpu_times := last' |},
            {| ram := {| ram_total := vm_total ram;
                         ram_used := vm_used ram;
                         ram_percent := vm_percent ram |};
               cpu := {| cpu_total_percent := total_cpu_percent;
                         cpu_per_cpu_percent := per_cpu;
                         cpu_physical_cores := cpu_count_physical w;
                         cpu_logical_cores := cpu_count_logical w |};
               gpu := gpu_list;
               processes := processes_data |}))%eff.

(** ** [run], one step at a time *)

(** Where the worker thread stands in [run], with the local variables that
    are live there.  The flag [_is_running] is read at [AtWhile] and at
    [AtEmit] and nowhere else.  [AtEmit] is the test [if self._is_running:]
    that follows the collection; [AtSignal] is the statement
    [self.data_updated.emit(system_data)] that the test guards.  The two
    are separate statements and [run] holds no lock, so another thread can
    call [stop] between them. *)
Inductive pc :=
| AtStart
| AtWhile
| AtRefresh (start_time : float)
| AtCollect (start_time : float)
| AtEmit (start_time : float) (system_data : system_data)
| AtSignal (start_time : float) (system_data : system_data)
| AtSleep (start_time : float)
| Stopped
| Crashed (e : exn).

Record thread := {
  self : SystemMonitor;
  at_pc : pc;
  trace : list event;
}.

Definition with_gpu_monitor (s : SystemMonitor) (g : GPUMonitor) : SystemMonitor :=
  {| _refresh_interval := _refresh_interval s;
     _is_running := _is_running s;
     gpu_monitor := g;
     _last_cpu_times := _last_cpu_times s |}.

(** The end of a tick: [elapsed_time], [sleep_time] and the optional
    [time.sleep(sleep_time)]. *)
Definition sleep_time (refresh_interval start_time now : float) : float :=
  let elapsed_time := (now - start_time)%float in
  (refresh_interval - elapsed_time)%float.

(** [time.sleep(seconds)]: the call is recorded; it returns or raises
    [OverflowError]. *)
Definition time_sleep (w : world) (seconds : float) : eff unit :=
  ([Sleep seconds], if sleep_fits w seconds then Ok tt else Raise OverflowError).

Definition end_of_tick (w : world) (refresh_interval start_time : float) : eff unit :=
  let sleep_time := sleep_time refresh_interval start_time (time w) in
  if (0 <? sleep_time)%float then time_sleep w sleep_time else eff_ret tt.

(** One step of the worker thread in the environment [w]: the code from
    one program point to the next.  An exception that nothing catches ends
    [run]: the thread is at [Crashed] for good.  Its worker is then kept as
    it was when the step began: what the unfinished statement had already
    written (the new CPU baseline, a partly filled map) is dropped, and
    nothing reads it, since no statement of [run] runs after the exception
    and [stop] only writes the flag. *)
Definition step (w : world) (th : thread) : thread :=
  let s := self th in
  match at_pc th with
  | AtStart =>
      {| self := s; at_pc := AtWhile;
         trace := trace th ++ [Log INFO "System monitor thread started."] |}
  | AtWhile =>
      if _is_running s then
        {| self := s; at_pc := AtRefresh (time w); trace := trace th |}
      else
        match shutdown (lib w) (gpu_monitor s) with
        | (t, Ok _) =>
            {| self := s; at_pc := Stopped;
               trace := trace th ++ t ++ [Log INFO "System monitor thread stopped."] |}
        | (t, Raise e) =>
            {| self := s; at_pc := Crashed e; trace := trace th ++ t |}
        end
  | AtRefresh start_time =>
      match _map_pids_to_gpus (lib w) (gpu_monitor s) with
      | (t, Ok g) =>
          {| self := with_gpu_monitor s g; at_pc := AtCollect start_time;
             trace := trace th ++ t |}
      | (t, Raise e) =>
          {| self := s; at_pc := Crashed e; trace := trace th ++ t |}
      end
  | AtCollect start_time =>
      match _collect_data w s with
      | (t, Ok (s', system_data)) =>
          {| self := s'; at_pc := AtEmit start_time system_data;
             trace := trace th ++ t |}
      | (t, Raise e) =>
          {| self := s; at_pc := Crashed e; trace := trace th ++ t |}
      end
  | AtEmit start_time system_data =>
      if _is_running s then
        {| self := s; at_pc := AtSignal start_time system_data; trace := trace th |}
      else
        {| self := s; at_pc := AtSleep start_time; trace := trace th |}
  | AtSignal start_time system_data =>
      {| self := s; at_pc := AtSleep start_time;
         trace := trace th ++ [Emit system_data] |}
  | AtSleep start_time =>
      match end_of_tick w (_refresh_interval s) start_time with
      | (t, Ok _) =>
          {| self := s; at_pc := AtWhile; trace := trace th ++ t |}
      | (t, Raise e) =>
          {| self := s; at_pc := Crashed e; trace := trace th ++ t |}
      end
  | Stopped => th
  | Crashed e => th
  end.

(** What happens next: the worker thread takes a step, or another thread
    calls [stop]. *)
Inductive action :=
| Run (w : world)
| Stop.

Definition perform (th : thread) (a : action) : thread :=
  match a with
  | Run w => step w th
  | Stop => {| self := stop (self th); at_pc := at_pc th; trace := trace th |}
  end.

(** A schedule is an interleaving of steps of the worker and calls of
    [stop]; [exec] runs it from [th]. *)
Definition exec (schedule : list action) (th : thread) : thread :=
  foldl perform th schedule.

(** The thread right after [SystemMonitor(refresh_interval)] was built
    and before [run] starts. *)
Definition spawn (s : SystemMonitor) : thread :=
  {| self := s; at_pc := AtStart; trace := [] |}.

(** [run] when no other thread interferes: the worker takes its steps one
    after the other, in the environments [worlds]. *)
Definition run (worlds : list world) (s : SystemMonitor) : thread :=
  exec (Run <$> worlds) (spawn s).

(** * Vocabulary of the statements *)

(** ** Binary64 *)

(** [r] is NaN or carries the sign [s]. *)
Definition SF_sign_is (s : bool) (r : spec_float) : Prop :=
  match r with
  | S754_finite s' _ _ | S754_infinity s' | S754_zero s' => s' = s
  | S754_nan => True
  end.

(** ** CPU percentages *)

(** The sum of a list of floats, accumulated from the left as the
    [+=] of the loop does. *)
Definition float_sum (l : list float) : float := foldl PrimFloat.add 0%float l.

(** The per-core deltas of one kind, core by core. *)
Definition deltas (delta : scputimes -> scputimes -> float)
    (current_times last_times : list scputimes) : list float :=
  zip_with delta current_times last_times.

(** [busy / all * 100] guarded by [all == 0], as a plain float. *)
Definition percent_value (busy all : float) : float :=
  if Py.is_zero all then 0%float else (busy / all * 100)%float.

(** The clamped percentage of one core. *)
Definition core_value (current last : scputimes) : float :=
  clamp_percent
    (percent_value (delta_user current last + delta_system current last)%float
                   (delta_all current last)).

(** The formula of the total over the aggregated sums of the deltas. *)
Definition aggregated_percent (current_times last_times : list scputimes) : float :=
  clamp_percent
    (percent_value
       (float_sum (deltas delta_user current_times last_times)
        + float_sum (deltas delta_system current_times last_times))%float
       (float_sum (deltas delta_all current_times last_times))).

(** The other candidate: the mean of the per-core percentages. *)
Definition mean_percent (per_cpu : list float) : float :=
  (float_sum per_cpu / of_uint63 (Uint63.of_Z (Z.of_nat (length per_cpu))))%float.

(** Two cores whose summed deltas differ. *)
Definition unequal_delta_totals (current_times last_times : list scputimes) : Prop :=
  exists i j a b,
    deltas delta_all current_times last_times !! i = Some a /\
    deltas delta_all current_times last_times !! j = Some b /\
    (a =? b)%float = false.

(** Sample inputs: counters start at zero; the second sample is given. *)
Definition cputimes (u s i : float) : scputimes :=
  {| user := u; system := s; idle := i |}.

Definition idle_start : list scputimes :=
  [cputimes 0 0 0; cputimes 0 0 0].

(** Both cores half busy, over 2 and over 4 seconds. *)
Definition both_half_busy : list scputimes :=
  [cputimes 1 0 1; cputimes 2 0 2].

(** One core fully busy for 1 second, the other idle for 3. *)
Definition one_busy_one_idle : list scputimes :=
  [cputimes 1 0 0; cputimes 0 0 3].

(** ** The GPU accessor *)

(** The entry carries a memory figure. *)
Definition reports_memory (p : nvml_process) : Prop := is_Some (usedGpuMemory p).

(** The figure of an entry, 0 when it carries none. *)
Definition reported_memory (p : nvml_process) : Z := default 0 (usedGpuMemory p).

(** The GPU memory that the entries of [procs] attribute to [pid0]. *)
Definition memory_of (pid0 : Z) (procs : list nvml_process) : Z :=
  foldr Z.add 0 (reported_memory <$> filter (fun p => pid p = pid0) procs).

(** The same, summed over the devices [0 .. device_count - 1], where
    [procs_of i] is what device [i] reports. *)
Definition memory_on_all_devices (pid0 : Z) (device_count : Z)
    (procs_of : Z -> list nvml_process) : Z :=
  foldr Z.add 0 ((fun i => memory_of pid0 (procs_of i)) <$> range device_count).

(** The operations a client can perform on the accessor after it was
    built, each with the answers NVML gives while it runs. *)
Inductive gpu_op :=
| Refresh (lib : pynvml)
| ListDevices (lib : pynvml)
| ProcessMemory (pid : Z)
| Shutdown (lib : pynvml).

Inductive gpu_result :=
| Nothing
| Devices (l : list gpu_info)
| Memory (bytes : Z).

Definition perform_op (g : GPUMonitor) (op : gpu_op) : eff (GPUMonitor * gpu_result) :=
  match op with
  | Refresh lib => (g' <- _map_pids_to_gpus lib g ;; eff_ret (g', Nothing))%eff
  | ListDevices lib =>
      (r <- get_gpu_info lib g ;; eff_ret (fst r, Devices (snd r)))%eff
  | ProcessMemory pid => eff_ret (g, Memory (get_process_gpu_memory g pid))
  | Shutdown lib => (shutdown lib g ;;; eff_ret (g, Nothing))%eff
  end.

(** A sequence of operations, threaded through the accessor; the results
    are collected in order. *)
Definition run_ops (ops : list gpu_op) (g : GPUMonitor)
  : eff (GPUMonitor * list gpu_result) :=
  eff_fold
    (fun acc op =>
       r <- perform_op (fst acc) op ;;
       eff_ret (fst r, snd acc ++ [snd r]))%eff
    ops (g, []).

(** A whole life of the accessor: construction, then operations. *)
Definition gpu_session (PYNXML_AVAILABLE : bool) (lib0 : pynvml) (ops : list gpu_op)
  : eff (GPUMonitor * list gpu_result) :=
  (g <- GPUMonitor_init PYNXML_AVAILABLE lib0 ;; run_ops ops g)%eff.

(** The result an operation gives on a disabled accessor [g]: nothing for
    a refresh or a shutdown, no device for a listing, and for a lookup
    whatever the map of [g] holds. *)
Definition disabled_result (g : GPUMonitor) (op : gpu_op) : gpu_result :=
  match op with
  | Refresh _ | Shutdown _ => Nothing
  | ListDevices _ => Devices []
  | ProcessMemory pid => Memory (get_process_gpu_memory g pid)
  end.

(** An empty result: no value, no device, zero bytes. *)
Definition empty_result (r : gpu_result) : Prop :=
  match r with
  | Nothing => True
  | Devices l => l = []
  | Memory bytes => bytes = 0
  end.

(** *** Sample libraries *)

Definition MB : Z := 1048576.

(** A library in which every query fails. *)
Definition failing_lib : pynvml :=
  {| nvmlInit := NVML_ERROR "Driver Not Loaded";
     nvmlDeviceGetCount := NVML_ERROR "Unknown Error";
     nvmlDeviceGetHandleByIndex := fun _ => NVML_ERROR "Unknown Error";
     nvmlDeviceGetComputeRunningProcesses := fun _ => NVML_ERROR "Unknown Error";
     nvmlDeviceGetName := fun _ => NVML_ERROR "Unknown Error";
     nvmlDeviceGetMemoryInfo := fun _ => NVML_ERROR "Unknown Error";
     nvmlDeviceGetUtilizationRates := fun _ => NVML_ERROR "Unknown Error";
     nvmlDeviceGetUUID := fun _ => NVML_ERROR "Unknown Error";
     nvmlShutdown := NVML_ERROR "Unknown Error" |}.

(** Two devices with handles 10 and 11.  Process 7 uses 100MB on the
    first and 50MB on the second, process 8 uses 1MB on the second. *)
Definition two_gpus : pynvml :=
  {| nvmlInit := NVML_SUCCESS tt;
     nvmlDeviceGetCount := NVML_SUCCESS 2;
     nvmlDeviceGetHandleByIndex := fun i => NVML_SUCCESS (10 + i);
     nvmlDeviceGetComputeRunningProcesses := fun h =>
       NVML_SUCCESS
         (if h =? 10 then [{| pid := 7; usedGpuMemory := Some (100 * MB) |}]
          else [{| pid := 7; usedGpuMemory := Some (50 * MB) |};
                {| pid := 8; usedGpuMemory := Some (1 * MB) |}]);
     nvmlDeviceGetName := fun h => NVML_SUCCESS "GPU";
     nvmlDeviceGetMemoryInfo := fun h => NVML_SUCCESS {| total := 1024 * MB; used := 256 * MB |};
     nvmlDeviceGetUtilizationRates := fun h => NVML_SUCCESS {| utilization_gpu := 30 |};
     nvmlDeviceGetUUID := fun h => NVML_SUCCESS "GPU-0000";
     nvmlShutdown := NVML_SUCCESS tt |}.

(** The same two devices, but the name of the second cannot be read. *)
Definition name_query_fails : pynvml :=
  {| nvmlInit := nvmlInit two_gpus;
     nvmlDeviceGetCount := nvmlDeviceGetCount two_gpus;
     nvmlDeviceGetHandleByIndex := nvmlDeviceGetHandleByIndex two_gpus;
     nvmlDeviceGetComputeRunningProcesses := nvmlDeviceGetComputeRunningProcesses two_gpus;
     nvmlDeviceGetName := fun h =>
       if h =? 11 then NVML_ERROR "GPU is lost" else nvmlDeviceGetName two_gpus h;
     nvmlDeviceGetMemoryInfo := nvmlDeviceGetMemoryInfo two_gpus;
     nvmlDeviceGetUtilizationRates := nvmlDeviceGetUtilizationRates two_gpus;
     nvmlDeviceGetUUID := nvmlDeviceGetUUID two_gpus;
     nvmlShutdown := nvmlShutdown two_gpus |}.

(** The same two devices, but the processes of the second cannot be listed. *)
Definition process_query_fails : pynvml :=
  {| nvmlInit := nvmlInit two_gpus;
     nvmlDeviceGetCount := nvmlDeviceGetCount two_gpus;
     nvmlDeviceGetHandleByIndex := nvmlDeviceGetHandleByIndex two_gpus;
     nvmlDeviceGetComputeRunningProcesses := fun h =>
       if h =? 11 then NVML_ERROR "GPU is lost"
       else nvmlDeviceGetComputeRunningProcesses two_gpus h;
     nvmlDeviceGetName := nvmlDeviceGetName two_gpus;
     nvmlDeviceGetMemoryInfo := nvmlDeviceGetMemoryInfo two_gpus;
     nvmlDeviceGetUtilizationRates := nvmlDeviceGetUtilizationRates two_gpus;
     nvmlDeviceGetUUID := nvmlDeviceGetUUID two_gpus;
     nvmlShutdown := nvmlShutdown two_gpus |}.

(** An accessor that is enabled and has seen no process yet. *)
Definition enabled_gpu : GPUMonitor :=
  {| is_available := true; pid_gpu_memory_map := ∅ |}.

(** No event of [t] is a call of [nvmlInit]. *)
Definition no_init (t : list event) : Prop :=
  Forall (fun e => e <> Nvml nvmlInit_call) t.

(** An event of the accessor: an NVML call or a log record. *)
Definition quiet (e : event) : Prop :=
  match e with
  | Nvml _ | Log _ _ => True
  | Emit _ | Sleep _ => False
  end.

(** The texts the accessor logs when a query fails. *)
Definition listing_failed (msg : string) : event :=
  Log ERROR ("Could not retrieve GPU info during update. Disabling monitoring. Error: " +:+ msg).
Definition refresh_failed (msg : string) : event :=
  Log ERROR ("Error fetching GPU process info: " +:+ msg).
Definition shutdown_failed (msg : string) : event :=
  Log ERROR ("Error during pynvml shutdown: " +:+ msg).

(** A life of the accessor on which the release is missing: the library
    initialises, a device listing fails, the accessor is shut down. *)
Definition listing_fails_then_shutdown : list gpu_op :=
  [ListDevices name_query_fails; Shutdown two_gpus].

(** A life of the accessor on which a stale value is served: a refresh
    finds process 7, a device listing fails, the map is refreshed and
    process 7 is looked up. *)
Definition lookup_after_disable : list gpu_op :=
  [Refresh two_gpus; ListDevices name_query_fails; Refresh two_gpus; ProcessMemory 7].

(** The operation is a device listing whose [try] block raises an NVML error. *)
Definition listing_fails (op : gpu_op) : Prop :=
  match op with
  | ListDevices lib => exists t msg, gpu_info_body lib = (t, Raise (NVMLError msg))
  | _ => False
  end.

(** ** The worker thread *)

(** The schedule [schedule] with a call of [stop] placed after its first
    [n] steps. *)
Definition stop_inserted (n : nat) (schedule : list action) : list action :=
  take n schedule ++ Stop :: drop n schedule.

(** The snapshot the next step of the worker publishes, if any: only the
    statement that emits the signal publishes one. *)
Definition emitted_by (th : thread) : list system_data :=
  match at_pc th with
  | AtSignal _ system_data => [system_data]
  | _ => []
  end.

(** The sleep that ends a tick is refused: a positive duration is passed
    to [time.sleep] and does not fit. *)
Definition sleep_refused (w : world) (refresh_interval start_time : float) : bool :=
  let sleep_time := sleep_time refresh_interval start_time (time w) in
  (0 <? sleep_time)%float && negb (sleep_fits w sleep_time).

(** The clock reading that a thread inside a tick carries as [start_time]. *)
Definition start_of_tick (p : pc) : option float :=
  match p with
  | AtRefresh start_time | AtCollect start_time | AtEmit start_time _
  | AtSignal start_time _ | AtSleep start_time => Some start_time
  | _ => None
  end.

(** The least number of steps the worker needs to get past the sleep of
    the tick it is in. *)
Definition steps_to_end_of_tick (p : pc) : nat :=
  match p with
  | AtRefresh _ => 4
  | AtCollect _ => 3
  | AtEmit _ _ | AtSignal _ _ => 2
  | AtSleep _ => 1
  | _ => 0
  end.

(** The number of steps of the worker in a schedule. *)
Fixpoint worker_steps (schedule : list action) : nat :=
  match schedule with
  | [] => 0
  | Run _ :: schedule' => S (worker_steps schedule')
  | Stop :: schedule' => worker_steps schedule'
  end.

(** [run] has returned or raised. *)
Definition halted (p : pc) : Prop :=
  match p with
  | Stopped | Crashed _ => True
  | _ => False
  end.

(** With [n] steps of the worker to go, the thread is still in the tick
    that began at [t0], or it has left that tick with its last step or by
    ending [run]. *)
Definition in_tick_of (t0 : float) (n : nat) (th : thread) : Prop :=
  (start_of_tick (at_pc th) = Some t0 /\ (n <= steps_to_end_of_tick (at_pc th))%nat) \/
  (start_of_tick (at_pc th) = None /\ (n = 0%nat \/ halted (at_pc th))).

(** The flag is not read at this program point. *)
Definition flag_not_read (p : pc) : Prop :=
  match p with
  | AtWhile | AtEmit _ _ => False
  | _ => True
  end.

(** A snapshot without GPU data: no device, and no GPU memory attributed
    to any process. *)
Definition no_gpu_data (d : system_data) : Prop :=
  gpu d = [] /\ Forall (fun p => pd_gpu_memory_bytes p = 0) (processes d).

(** The accessor that a failed construction leaves behind. *)
Definition disabled_gpu : GPUMonitor :=
  {| is_available := false; pid_gpu_memory_map := ∅ |}.

(** What holds all along a run whose accessor was built disabled: the
    accessor is as it was built, no NVML call was made, and neither a
    published snapshot nor the one waiting at the test of [emit] carries
    GPU data. *)
Definition runs_without_gpu (th : thread) : Prop :=
  gpu_monitor (self th) = disabled_gpu /\
  nvml_calls (trace th) = [] /\
  Forall no_gpu_data (emitted (trace th)) /\
  match at_pc th with
  | AtEmit _ system_data | AtSignal _ system_data => no_gpu_data system_data
  | _ => True
  end.

(** *** A sample machine *)

Definition python_process : pinfo :=
  {| info_pid := 7;
     info_name := "python";
     info_cpu_percent := 12.5;
     info_memory_info := Some {| rss := 512 * MB |};
     info_cmdline := Some ["python"; "train.py"] |}.

(** The durations [time.sleep] accepts on the sample machine: those that
    make fewer than [2 ^ 63] nanoseconds. *)
Definition fits_nanoseconds (seconds : float) : bool :=
  (seconds * 1000000000 <? 9223372036854775808)%float.

(** The machine at time [now]: two cores, 16GB of RAM, two GPUs, one
    python process and one process that vanishes when inspected. *)
Definition machine (now : float) (cpu : list scputimes) : world :=
  {| time := now;
     sleep_fits := fits_nanoseconds;
     lib := two_gpus;
     virtual_memory := {| vm_total := 16384 * MB; vm_used := 4096 * MB; vm_percent := 25 |};
     cpu_times := cpu;
     process_iter := [Proc python_process; Vanished NoSuchProcess];
     cpu_count_physical := Some 2;
     cpu_count_logical := Some 2 |}.

(** A worker with a refresh interval of [interval] seconds on that machine,
    built at time 0 with the GPU library working. *)
Definition worker (interval : float) : SystemMonitor :=
  {| _refresh_interval := interval;
     _is_running := true;
     gpu_monitor := enabled_gpu;
     _last_cpu_times := idle_start |}.

(** The worker that has just entered a tick at time 10: [run] has logged
    its start and the test of the [while] has passed. *)
Definition in_tick (interval : float) : thread :=
  exec [Run (machine 10 idle_start); Run (machine 10 idle_start)] (spawn (worker interval)).

(** The same worker after the refresh, the collection, the test of the
    flag and the emission of that tick. *)
Definition at_end_of_tick (interval : float) : thread :=
  exec [Run (machine 10 idle_start); Run (machine 10 one_busy_one_idle);
        Run (machine 10 one_busy_one_idle); Run (machine 10 one_busy_one_idle)]
       (in_tick interval).

(** A process that holds no resident memory. *)
Definition swapped_out_process : pinfo :=
  {| info_pid := 8;
     info_name := "idle";
     info_cpu_percent := 0;
     info_memory_info := Some {| rss := 0 |};
     info_cmdline := None |}.

(** ** Whole runs of the worker *)

(** A call that asks NVML about devices: any call but [nvmlInit] and
    [nvmlShutdown]. *)
Definition is_query (c : nvml_call) : Prop :=
  match c with
  | nvmlInit_call | nvmlShutdown_call => False
  | _ => True
  end.

(** A device query or a log record. *)
Definition query_or_log (e : event) : Prop :=
  match e with
  | Nvml c => is_query c
  | Log _ _ => True
  | Emit _ | Sleep _ => False
  end.

(** The steps the worker still takes from a program point once the flag
    is cleared, when nothing raises. *)
Definition steps_to_exit (p : pc) : nat :=
  match p with
  | AtStart => 2
  | AtWhile => 1
  | AtRefresh _ => 5
  | AtCollect _ => 4
  | AtEmit _ _ => 3
  | AtSignal _ _ => 3
  | AtSleep _ => 2
  | Stopped | Crashed _ => 0
  end.

(** The snapshot that waits at the test guarding [emit] or at the
    [emit] itself, if any. *)
Definition pending (th : thread) : list system_data :=
  match at_pc th with
  | AtEmit _ system_data | AtSignal _ system_data => [system_data]
  | _ => []
  end.

(** All the snapshots a run has collected: the published ones and the
    pending one. *)
Definition snapshots (th : thread) : list system_data :=
  emitted (trace th) ++ pending th.

(** The CPU figures of a snapshot are percentages. *)
Definition cpu_in_range (d : system_data) : Prop :=
  in_percent_range (cpu_total_percent (cpu d)) /\
  Forall in_percent_range (cpu_per_cpu_percent (cpu d)).

(** The GPU part of a snapshot taken on the disabled accessor [g]: no
    device, and for every process the value the map of [g] holds. *)
Definition frozen_gpu_data (g : GPUMonitor) (d : system_data) : Prop :=
  gpu d = [] /\
  Forall (fun p => pd_gpu_memory_bytes p = get_process_gpu_memory g (pd_pid p)) (processes d).

(** A program point from which a stopped worker leaves [run] without
    having to finish a collection first. *)
Definition outside_collection (p : pc) : Prop :=
  match p with
  | AtStart | AtWhile | AtEmit _ _ | AtSignal _ _ | AtSleep _ | Stopped => True
  | AtRefresh _ | AtCollect _ | Crashed _ => False
  end.

(** A program point before the first statement of a tick, or after
    [run] has returned. *)
Definition before_tick (p : pc) : Prop :=
  match p with
  | AtStart | AtWhile | Stopped => True
  | _ => False
  end.

(** The NVML calls of a run are well formed: device queries only, or
    device queries and then, the worker having left the loop, one call of
    [nvmlShutdown] at the very end. *)
Definition queries_then_release (th : thread) : Prop :=
  exists queries,
    Forall is_query queries /\
    (nvml_calls (trace th) = queries \/
     (at_pc th = Stopped /\ nvml_calls (trace th) = queries ++ [nvmlShutdown_call])).

(** A positive number of seconds (so not NaN either). *)
Definition positive (seconds : float) : Prop := (0 <? seconds)%float = true.

(** [I] holds of the worker, and the snapshots published since the trace
    held the snapshots [old], as well as the pending one, satisfy [Q]. *)
Definition since_then (I : SystemMonitor -> Prop) (Q : system_data -> Prop)
    (old : list system_data) (th : thread) : Prop :=
  I (self th) /\
  (exists new, emitted (trace th) = old ++ new /\ Forall Q new) /\
  Forall Q (pending th).

(** ** Process records *)

(** The processes of an enumeration that could be inspected, in order. *)
Definition inspected (procs : list proc) : list pinfo :=
  omap (fun p => match p with Proc info => Some info | Vanished _ => None end) procs.

(** The record [d] was built from [info] with the accessor [g]. *)
Definition record_of (g : GPUMonitor) (info : pinfo) (d : process_data) : Prop :=
  pd_pid d = info_pid info /\
  pd_name d = info_name info /\
  pd_cpu_percent d = info_cpu_percent info /\
  Some (pd_memory_bytes d) = rss <$> info_memory_info info /\
  pd_gpu_memory_bytes d = get_process_gpu_memory g (info_pid info) /\
  pd_command d = command_of (info_cmdline info).

(** The sample machine at a moment when the name of its second GPU cannot
    be read. *)
Definition machine_losing_gpu (now : float) (cpu : list scputimes) : world :=
  {| time := now;
     sleep_fits := fits_nanoseconds;
     lib := name_query_fails;
     virtual_memory := virtual_memory (machine now cpu);
     cpu_times := cpu;
     process_iter := process_iter (machine now cpu);
     cpu_count_physical := Some 2;
     cpu_count_logical := Some 2 |}.

(** The sample machine after a third core came online. *)
Definition machine_with_new_core (now : float) : world :=
  {| time := now;
     sleep_fits := fits_nanoseconds;
     lib := two_gpus;
     virtual_memory := virtual_memory (machine now one_busy_one_idle);
     cpu_times := one_busy_one_idle ++ [cputimes 1 1 1];
     process_iter := process_iter (machine now one_busy_one_idle);
     cpu_count_physical := Some 3;
     cpu_count_logical := Some 3 |}.

(** A process whose memory figures psutil was denied. *)
Definition protected_process : pinfo :=
  {| info_pid := 4;
     info_name := "System";
     info_cpu_percent := 0;
     info_memory_info := None;
     info_cmdline := None |}.

(** The sample machine with that process in its enumeration. *)
Definition machine_with_protected_process (now : float) : world :=
  {| time := now;
     sleep_fits := fits_nanoseconds;
     lib := two_gpus;
     virtual_memory := virtual_memory (machine now one_busy_one_idle);
     cpu_times := one_busy_one_idle;
     process_iter := [Proc python_process; Proc protected_process];
     cpu_count_physical := Some 2;
     cpu_count_logical := Some 2 |}.

(** ** Counters that are numbers *)

(** The three counters of a core are finite: neither NaN nor infinite. *)
Definition finite_times (c : scputimes) : Prop :=
  is_finite (user c) = true /\ is_finite (system c) = true /\ is_finite (idle c) = true.

(** What the collection of a tick writes under ["cpu"] when the sample is
    [current_times] and the baseline [last_times]. *)
Definition measured_against (current_times last_times : list scputimes)
    (d : system_data) : Prop :=
  cpu_total_percent (cpu d) = aggregated_percent current_times last_times /\
  cpu_per_cpu_percent (cpu d) = zip_with core_value current_times last_times.

(** The steps of the worker from the end of the collection of one tick
    to the collection of the next: test of the flag, emission, sleep,
    test of the [while], refresh. *)
Definition to_next_collection (w_e w_g w_s w_w w_r : world) : list action :=
  [Run w_e; Run w_g; Run w_s; Run w_w; Run w_r].

(** ** Exceptions that escape *)

(** The computation [c] raises nothing but exceptions in [P]. *)
Definition raises_only {A} (P : exn -> Prop) (c : eff A) : Prop :=
  match snd c with
  | Raise e => P e
  | Ok _ => True
  end.

Definition is_NVMLError (e : exn) : Prop := exists msg, e = NVMLError msg.

(** The exceptions of the collection that no handler of the two files
    catches. *)
Definition uncaught (e : exn) : Prop :=
  e = IndexError \/ e = AttributeError \/ e = OverflowError.

(** The exceptions a step of [run] can end on, by the statement that
    raises: the refresh ([None] added to an [int]), the collection, and
    [time.sleep]. *)
Definition raised_at (p : pc) (e : exn) : Prop :=
  match p with
  | AtRefresh _ => e = TypeError
  | AtCollect _ => uncaught e
  | AtSleep _ => e = OverflowError
  | _ => False
  end.

(** The exceptions that end [run]. *)
Definition ends_run (e : exn) : Prop :=
  e = TypeError \/ uncaught e.

(** The two devices of [two_gpus] at a moment when the driver does not
    report the memory of process 8. *)
Definition figure_missing : pynvml :=
  {| nvmlInit := nvmlInit two_gpus;
     nvmlDeviceGetCount := nvmlDeviceGetCount two_gpus;
     nvmlDeviceGetHandleByIndex := nvmlDeviceGetHandleByIndex two_gpus;
     nvmlDeviceGetComputeRunningProcesses := fun h =>
       NVML_SUCCESS
         (if h =? 10 then [{| pid := 7; usedGpuMemory := Some (100 * MB) |}]
          else [{| pid := 7; usedGpuMemory := Some (50 * MB) |};
                {| pid := 8; usedGpuMemory := None |}]);
     nvmlDeviceGetName := nvmlDeviceGetName two_gpus;
     nvmlDeviceGetMemoryInfo := nvmlDeviceGetMemoryInfo two_gpus;
     nvmlDeviceGetUtilizationRates := nvmlDeviceGetUtilizationRates two_gpus;
     nvmlDeviceGetUUID := nvmlDeviceGetUUID two_gpus;
     nvmlShutdown := nvmlShutdown two_gpus |}.

(** The sample machine at that moment. *)
Definition machine_without_figure (now : float) (cpu : list scputimes) : world :=
  {| time := now;
     sleep_fits := fits_nanoseconds;
     lib := figure_missing;
     virtual_memory := virtual_memory (machine now cpu);
     cpu_times := cpu;
     process_iter := process_iter (machine now cpu);
     cpu_count_physical := Some 2;
     cpu_count_logical := Some 2 |}.

(** Every list of processes the library answers carries the memory
    figure of each entry. *)
Definition reports_all_figures (lib : pynvml) : Prop :=
  forall handle procs,
    nvmlDeviceGetComputeRunningProcesses lib handle = NVML_SUCCESS procs ->
    Forall reports_memory procs.

(** A later sample of the machine: since [one_busy_one_idle] the first
    core was busy for one more second and idle for one, the second idle
    for two. *)
Definition next_sample : list scputimes :=
  [cputimes 2 0 1; cputimes 0 0 5].

(** ** The listing of the devices *)

(** What the library answers about one device. *)
Record device_answers := {
  da_handle : Z;
  da_name : string;
  da_memory : nvml_memory;
  da_utilization : nvml_utilization;
  da_uuid : string;
}.

(** Every query of a listing succeeds: there are [device_count] devices
    and [device i] is what the library answers about the device of index
    [i]. *)
Definition answers_listing (lib : pynvml) (device_count : Z)
    (device : Z -> device_answers) : Prop :=
  nvmlDeviceGetCount lib = NVML_SUCCESS device_count /\
  forall i, 0 <= i < device_count ->
    nvmlDeviceGetHandleByIndex lib i = NVML_SUCCESS (da_handle (device i)) /\
    nvmlDeviceGetName lib (da_handle (device i)) = NVML_SUCCESS (da_name (device i)) /\
    nvmlDeviceGetMemoryInfo lib (da_handle (device i)) = NVML_SUCCESS (da_memory (device i)) /\
    nvmlDeviceGetUtilizationRates lib (da_handle (device i))
    = NVML_SUCCESS (da_utilization (device i)) /\
    nvmlDeviceGetUUID lib (da_handle (device i)) = NVML_SUCCESS (da_uuid (device i)).

(** The entry of the listing for a device with these answers. *)
Definition describes (a : device_answers) (entry : gpu_info) : Prop :=
  gpu_name entry = da_name a /\
  gpu_uuid entry = da_uuid a /\
  gpu_total_memory entry = total (da_memory a) /\
  gpu_used_memory entry = used (da_memory a) /\
  gpu_utilization entry = utilization_gpu (da_utilization a) /\
  gpu_memory_percent_of (da_memory a) = Ok (gpu_memory_percent entry) /\
  (total (da_memory a) <= 0 -> gpu_memory_percent entry = PyInt 0).

(** The two devices of [two_gpus]. *)
Definition two_gpus_device (i : Z) : device_answers :=
  {| da_handle := 10 + i;
     da_name := "GPU";
     da_memory := {| total := 1024 * MB; used := 256 * MB |};
     da_utilization := {| utilization_gpu := 30 |};
     da_uuid := "GPU-0000" |}.

(** * Facts about binary64 *)

Section SpecFloatFacts.

Lemma SFltb_SFleb x y : SFltb x y = true -> SFleb x y = true.
Proof. unfold SFltb, SFleb. destruct (SFcompare x y) as [[]|]; easy. Qed.

Lemma SFcompare_refl x : x <> S754_nan -> SFcompare x x = Some Eq.
Proof.
  destruct x as [s|s| |s m e]; intros Hx; try congruence; cbn.
  - reflexivity.
  - destruct s; reflexivity.
  - rewrite Z.compare_refl, Pos.compare_cont_refl. destruct s; reflexivity.
Qed.

Lemma SFleb_not_nan x y : SFleb x y = true -> y <> S754_nan.
Proof. intros H ->. destruct x; discriminate. Qed.

Lemma digits2_pos_bounds m :
  2 ^ (Zpos (digits2_pos m) - 1) <= Zpos m < 2 ^ Zpos (digits2_pos m).
Proof.
  induction m as [p IH|p IH|]; cbn [digits2_pos].
  - rewrite Pos2Z.inj_succ.
    replace (Z.succ (Zpos (digits2_pos p)) - 1) with (Z.succ (Zpos (digits2_pos p) - 1)) by lia.
    rewrite !Z.pow_succ_r by lia. lia.
  - rewrite Pos2Z.inj_succ.
    replace (Z.succ (Zpos (digits2_pos p)) - 1) with (Z.succ (Zpos (digits2_pos p) - 1)) by lia.
    rewrite !Z.pow_succ_r by lia. lia.
  - cbn. lia.
Qed.

Lemma shl_align_fst mx ex ez :
  ez <= ex -> Zpos (fst (shl_align mx ex ez)) = Zpos mx * 2 ^ (ex - ez).
Proof.
  intros Hle. unfold shl_align.
  destruct (ez - ex) as [|d|d] eqn:Hd; cbn [fst].
  - replace (ex - ez) with 0 by lia. lia.
  - lia.
  - replace (ex - ez) with (Zpos d) by lia.
    change (Pos.iter xO mx d) with (shift_pos d mx).
    rewrite shift_pos_correct, Z.pow_pos_fold. lia.
Qed.

(** Of two canonical binary64 numbers, the one with the smaller exponent
    has the smaller magnitude. *)
Lemma bounded_exponent_lt m1 e1 m2 e2 :
  bounded prec emax m1 e1 = true -> bounded prec emax m2 e2 = true ->
  e1 < e2 -> Zpos m1 < Zpos m2 * 2 ^ (e2 - e1).
Proof.
  unfold bounded, canonical_mantissa, fexp, emin.
  intros [H1 _]%andb_prop [H2 _]%andb_prop Hlt.
  apply Z.eqb_eq in H1, H2.
  pose proof (digits2_pos_bounds m1) as [_ Hm1].
  pose proof (digits2_pos_bounds m2) as [Hm2 _].
  set (d1 := Zpos (digits2_pos m1)) in *.
  set (d2 := Zpos (digits2_pos m2)) in *.
  unfold prec, emax in *.
  assert (d2 = 53) as -> by lia.
  assert (d1 <= 53) by lia.
  assert (2 ^ d1 <= 2 ^ 53) by (apply Z.pow_le_mono_r; lia).
  assert (2 ^ 1 <= 2 ^ (e2 - e1)) by (apply Z.pow_le_mono_r; lia).
  change (2 ^ (53 - 1)) with 4503599627370496 in Hm2.
  change (2 ^ 53) with 9007199254740992 in *.
  change (2 ^ 1) with 2 in *.
  nia.
Qed.

(** The sign a rounding starts with is the sign it ends with. *)
Lemma binary_round_aux_sign sx mx ex lx :
  SF_sign_is sx (binary_round_aux prec emax sx mx ex lx).
Proof.
  unfold binary_round_aux.
  destruct (shr_fexp prec emax mx ex lx) as [mrs' e'].
  destruct (shr_fexp prec emax _ e' loc_Exact) as [mrs'' e''].
  destruct (shr_m mrs''); [reflexivity| |exact I].
  destruct (e'' <=? emax - prec); reflexivity.
Qed.

Lemma binary_round_sign sx mx ex :
  SF_sign_is sx (binary_round prec emax sx mx ex).
Proof.
  unfold binary_round. destruct (shl_align _ _ _) as [mz ez].
  apply binary_round_aux_sign.
Qed.

Lemma SFltb_zero_negative r :
  SF_sign_is true r -> SFltb (S754_zero false) r = false.
Proof. destruct r as [s|s| |s m e]; cbn [SF_sign_is]; intros H; subst; reflexivity. Qed.

Lemma binary_normalize_nonpos m e :
  m <= 0 -> SFltb (S754_zero false) (binary_normalize prec emax m e false) = false.
Proof.
  destruct m as [|p|p]; intros Hm; [reflexivity|lia|].
  apply SFltb_zero_negative, binary_round_sign.
Qed.

(** On canonical numbers, comparing exponents and then mantissas is
    comparing the mantissas brought to the smaller exponent. *)
Lemma SFcompare_aligned m1 e1 m2 e2 :
  bounded prec emax m1 e1 = true -> bounded prec emax m2 e2 = true ->
  match (e1 ?= e2) with
  | Lt => Lt
  | Gt => Gt
  | Eq => Pos.compare_cont Eq m1 m2
  end
  = (Zpos (fst (shl_align m1 e1 (Z.min e1 e2)))
     ?= Zpos (fst (shl_align m2 e2 (Z.min e1 e2)))).
Proof.
  intros H1 H2.
  rewrite !shl_align_fst by lia.
  destruct (Z.compare_spec e1 e2) as [->|Hlt|Hgt].
  - rewrite Z.min_id, Z.sub_diag, !Z.mul_1_r. reflexivity.
  - rewrite Z.min_l, Z.sub_diag, Z.mul_1_r by lia.
    symmetry. apply Z.compare_lt_iff. now apply bounded_exponent_lt.
  - rewrite Z.min_r, Z.sub_diag, Z.mul_1_r by lia.
    symmetry. apply Z.compare_gt_iff. apply bounded_exponent_lt; [assumption..|lia].
Qed.

(** [x - y] is not positive when [x <= y]. *)
Lemma SFsub_nonpos x y :
  valid_binary x = true -> valid_binary y = true ->
  SFleb x y = true ->
  SFltb (S754_zero false) (SFsub prec emax x y) = false.
Proof.
  intros Hx Hy.
  destruct x as [sx|sx| |sx mx ex], y as [sy|sy| |sy my ey];
    try (destruct sx; try destruct sy; cbn; congruence);
    try (destruct sy; cbn; congruence);
    try (cbn; congruence).
  cbn [valid_binary] in Hx, Hy.
  unfold SFleb. cbn [SFcompare SFsub].
  pose proof (SFcompare_aligned mx ex my ey Hx Hy) as Hcmp.
  set (ax := Zpos (fst (shl_align mx ex (Z.min ex ey)))) in *.
  set (ay := Zpos (fst (shl_align my ey (Z.min ex ey)))) in *.
  intros Hle. apply binary_normalize_nonpos.
  assert (0 < ax /\ 0 < ay) as [Hax Hay] by (split; apply Pos2Z.is_pos).
  clearbody ax ay. symmetry in Hcmp.
  destruct sx, sy; cbn [cond_Zopp]; try discriminate; try lia;
    destruct (ex ?= ey), (Pos.compare_cont Eq mx my);
    cbn in Hle; try discriminate;
    pose proof (Z.compare_spec ax ay) as Hs; rewrite Hcmp in Hs;
    inversion Hs; lia.
Qed.

End SpecFloatFacts.

Section FloatFacts.

Lemma Prim2SF_zero : Prim2SF 0 = S754_zero false.
Proof. reflexivity. Qed.

Lemma ltb_leb (x y : float) : (x <? y)%float = true -> (x <=? y)%float = true.
Proof. rewrite FloatAxioms.ltb_spec, FloatAxioms.leb_spec. apply SFltb_SFleb. Qed.

Lemma leb_not_nan (x y : float) : (x <=? y)%float = true -> is_nan y = false.
Proof.
  rewrite FloatAxioms.leb_spec. intros H%SFleb_not_nan.
  unfold is_nan. rewrite FloatAxioms.eqb_spec. unfold SFeqb.
  now rewrite (SFcompare_refl _ H).
Qed.

Lemma sub_not_positive (x y : float) :
  (x <=? y)%float = true -> (0 <? x - y)%float = false.
Proof.
  rewrite FloatAxioms.leb_spec, FloatAxioms.ltb_spec, FloatAxioms.sub_spec, Prim2SF_zero.
  apply SFsub_nonpos; apply Prim2SF_valid.
Qed.

Lemma float_neq (x y : float) : (x =? x)%float = true -> (x =? y)%float = false -> x <> y.
Proof. intros Hx Hy ->. congruence. Qed.

End FloatFacts.

(** ** Rounding a bounded quotient does not overflow *)

Section NoOverflow.

Lemma iter_pos_nat {A} (f : A -> A) p x :
  SpecFloat.iter_pos f p x = Nat.iter (Pos.to_nat p) f x.
Proof.
  revert x. induction p as [p IH|p IH|]; intros x; cbn [SpecFloat.iter_pos].
  - rewrite !IH, Pos2Nat.inj_xI, <- Nat.iter_succ_r.
    replace (S (2 * Pos.to_nat p)) with (Pos.to_nat p + S (Pos.to_nat p))%nat by lia.
    now rewrite Nat.iter_add.
  - rewrite !IH, Pos2Nat.inj_xO.
    replace (2 * Pos.to_nat p)%nat with (Pos.to_nat p + Pos.to_nat p)%nat by lia.
    now rewrite Nat.iter_add.
  - reflexivity.
Qed.

Lemma shr_1_halves mrs :
  0 <= shr_m mrs -> 0 <= shr_m (shr_1 mrs) /\ 2 * shr_m (shr_1 mrs) <= shr_m mrs.
Proof.
  destruct mrs as [m r s]. cbn [shr_m shr_1].
  destruct m as [|[p|p|]|p]; cbn [shr_m]; lia.
Qed.

Lemma iter_shr_1_bound n mrs :
  0 <= shr_m mrs ->
  0 <= shr_m (Nat.iter n shr_1 mrs) /\
  shr_m (Nat.iter n shr_1 mrs) * 2 ^ Z.of_nat n <= shr_m mrs.
Proof.
  intros Hm. induction n as [|n [IH0 IH]].
  - cbn. lia.
  - rewrite Nat.iter_succ. destruct (shr_1_halves _ IH0) as [H0 H2].
    split; [assumption|].
    rewrite Nat2Z.inj_succ, Z.pow_succ_r by lia.
    assert (0 < 2 ^ Z.of_nat n) by (apply Z.pow_pos_nonneg; lia).
    assert (2 * shr_m (shr_1 (Nat.iter n shr_1 mrs)) * 2 ^ Z.of_nat n
            <= shr_m (Nat.iter n shr_1 mrs) * 2 ^ Z.of_nat n)
      by (apply Z.mul_le_mono_nonneg_r; lia).
    replace (shr_m (shr_1 (Nat.iter n shr_1 mrs)) * (2 * 2 ^ Z.of_nat n))
      with (2 * shr_m (shr_1 (Nat.iter n shr_1 mrs)) * 2 ^ Z.of_nat n) by ring.
    lia.
Qed.

Lemma shr_record_of_loc_m m l : shr_m (shr_record_of_loc m l) = m.
Proof. destruct l as [|[]]; reflexivity. Qed.

(** The exponent and the mantissa after the shift of [shr_fexp]. *)
Lemma shr_fexp_bound m e l :
  0 <= m ->
  let e' := snd (shr_fexp prec emax m e l) in
  let m' := shr_m (fst (shr_fexp prec emax m e l)) in
  e' = Z.max e (fexp prec emax (Zdigits2 m + e)) /\
  0 <= m' /\ m' * 2 ^ (e' - e) <= m.
Proof.
  intros Hm. unfold shr_fexp, shr.
  destruct (fexp prec emax (Zdigits2 m + e) - e) as [|p|p] eqn:Hn; cbn [fst snd].
  - rewrite shr_record_of_loc_m. replace (Z.max e _) with e by lia.
    rewrite Z.sub_diag. cbn. lia.
  - rewrite iter_pos_nat.
    destruct (iter_shr_1_bound (Pos.to_nat p) (shr_record_of_loc m l)) as [H0 H1];
      [now rewrite shr_record_of_loc_m|].
    rewrite shr_record_of_loc_m, positive_nat_Z in H1.
    replace (e + Zpos p - e) with (Zpos p) by lia.
    split; [lia|]. split; assumption.
  - rewrite shr_record_of_loc_m. replace (Z.max e _) with e by lia.
    rewrite Z.sub_diag. cbn. lia.
Qed.

Lemma round_nearest_even_bound m l :
  m <= round_nearest_even m l <= m + 1.
Proof.
  unfold round_nearest_even. destruct l as [|[]]; try lia.
  destruct (Z.even m); lia.
Qed.

Lemma Zdigits2_le m k : 0 <= k -> 0 <= m < 2 ^ k -> Zdigits2 m <= k.
Proof.
  intros Hk [Hm0 Hm]. destruct m as [|p|p]; cbn [Zdigits2]; try lia.
  pose proof (digits2_pos_bounds p) as [Hlo _].
  destruct (Z.le_gt_cases (Zpos (digits2_pos p)) k) as [|Hgt]; [assumption|].
  assert (2 ^ k <= 2 ^ (Zpos (digits2_pos p) - 1)) by (apply Z.pow_le_mono_r; lia).
  lia.
Qed.

Lemma fexp_mono x y : x <= y -> fexp prec emax x <= fexp prec emax y.
Proof. unfold fexp. lia. Qed.

(** A number below [2 ^ 1023] is rounded to a finite float. *)
Lemma binary_round_aux_finite sx mx ex lx K s :
  0 <= mx -> ex <= 0 -> 1 <= K <= 1023 -> mx < 2 ^ (K - ex) ->
  binary_round_aux prec emax sx mx ex lx <> S754_infinity s.
Proof.
  intros Hmx Hex HK Hbound. unfold binary_round_aux.
  pose proof (shr_fexp_bound mx ex lx Hmx) as (He1 & Hm1_0 & Hm1).
  destruct (shr_fexp prec emax mx ex lx) as [mrs1 e1]. cbn [fst snd] in *.
  pose proof (round_nearest_even_bound (shr_m mrs1) (loc_of_shr_record mrs1)) as Hround.
  set (m1 := round_nearest_even (shr_m mrs1) (loc_of_shr_record mrs1)) in *.
  pose proof (shr_fexp_bound m1 e1 loc_Exact ltac:(lia)) as (He2 & _ & _).
  destruct (shr_fexp prec emax m1 e1 loc_Exact) as [mrs2 e2]. cbn [fst snd] in *.
  destruct (shr_m mrs2); try discriminate.
  destruct (e2 <=? emax - prec) eqn:Hle; [discriminate|].
  exfalso. apply Z.leb_gt in Hle.
  (* the exponent after the first shift *)
  assert (Zdigits2 mx <= K - ex) as Hd by (apply Zdigits2_le; lia).
  pose proof (fexp_mono (Zdigits2 mx + ex) K ltac:(lia)) as Hf1.
  assert (ex <= e1 < K) as He1' by (unfold fexp, emin, prec, emax in *; lia).
  (* the mantissa after the first shift *)
  assert (shr_m mrs1 < 2 ^ (K - e1)) as Hm1'.
  { assert (0 < 2 ^ (e1 - ex)) by (apply Z.pow_pos_nonneg; lia).
    assert (2 ^ (K - ex) = 2 ^ (K - e1) * 2 ^ (e1 - ex)) as Hsplit
        by (rewrite <- Z.pow_add_r by lia; f_equal; lia).
    rewrite Hsplit in Hbound.
    apply (Z.mul_lt_mono_pos_r (2 ^ (e1 - ex))); lia. }
  assert (Zdigits2 m1 <= K - e1 + 1) as Hd1.
  { apply Zdigits2_le; [lia|]. split; [lia|].
    rewrite Z.pow_add_r by lia. change (2 ^ 1) with 2. lia. }
  pose proof (fexp_mono (Zdigits2 m1 + e1) (K + 1) ltac:(lia)) as Hf2.
  unfold fexp, emin, prec, emax in *. lia.
Qed.

Lemma SFdiv_integers_finite sa pa sb pb s :
  Zpos pa < 2 ^ 1023 ->
  SFdiv prec emax (S754_finite sa pa 0) (S754_finite sb pb 0) <> S754_infinity s.
Proof.
  intros Ha. cbn [SFdiv]. unfold SFdiv_core_binary.
  set (K := Zdigits2 (Zpos pa)).
  assert (1 <= K <= 1023) as HK.
  { split; [|apply Zdigits2_le; lia].
    unfold K. cbn [Zdigits2]. pose proof (Pos2Z.is_pos (digits2_pos pa)). lia. }
  assert (Zpos pa < 2 ^ K) as Hhi by apply digits2_pos_bounds.
  clearbody K.
  set (e_c := Z.min (fexp prec emax (K + 0 - (Zdigits2 (Zpos pb) + 0))) (0 - 0)).
  assert (e_c <= 0) as He by (unfold e_c; lia).
  clearbody e_c.
  set (m' := match 0 - 0 - e_c with
             | Zpos _ => Z.shiftl (Zpos pa) (0 - 0 - e_c)
             | Z0 => Zpos pa
             | Zneg _ => 0
             end).
  assert (0 <= m' < 2 ^ (K - e_c)) as Hm'.
  { unfold m'. destruct (0 - 0 - e_c) as [|p|p] eqn:Hs; try lia.
    - replace (K - e_c) with K by lia. lia.
    - rewrite Z.shiftl_mul_pow2 by lia.
      replace (K - e_c) with (K + Zpos p) by lia. rewrite Z.pow_add_r by lia.
      assert (0 < 2 ^ Zpos p) by (apply Z.pow_pos_nonneg; lia).
      split; [lia|]. apply Z.mul_lt_mono_pos_r; lia. }
  clearbody m'.
  pose proof (Z_div_mod m' (Zpos pb) ltac:(lia)) as Hdiv.
  destruct (Z.div_eucl m' (Zpos pb)) as [q r]. destruct Hdiv as [Hq Hr].
  apply (binary_round_aux_finite _ _ _ _ K); try assumption; nia.
Qed.

(** The true division of integers raises nothing when the divisor is not
    zero and the dividend is below [2 ^ 1023] in magnitude. *)
Lemma int_truediv_ok a b :
  b <> 0 -> Z.abs a < 2 ^ 1023 -> exists q, Py.int_truediv a b = Ok q.
Proof.
  intros Hb Ha. unfold Py.int_truediv.
  destruct (Z.eqb_spec b 0) as [->|_]; [contradiction|].
  destruct a as [|pa|pa], b as [|pb|pb]; try contradiction; cbn [Py.Z2SF];
    try (cbn; eauto; fail);
    match goal with
    | |- context [SFdiv prec emax (S754_finite ?sa pa 0) (S754_finite ?sb pb 0)] =>
        pose proof (fun s => SFdiv_integers_finite sa pa sb pb s ltac:(lia)) as Hfin;
        destruct (SFdiv prec emax (S754_finite sa pa 0) (S754_finite sb pb 0)) as [s|s| |s m e];
        eauto; exfalso; now apply (Hfin s)
    end.
Qed.

End NoOverflow.

(** * The CPU delta computation *)

Section CpuPercent.

Lemma clamp_percent_in_range p : in_percent_range (clamp_percent p).
Proof.
  unfold clamp_percent, Py.min, Py.max, in_percent_range.
  destruct (p <? 100)%float eqn:Hhi.
  - destruct (0 <? p)%float eqn:Hlo.
    + split; now apply ltb_leb.
    + split; reflexivity.
  - change (0 <? 100)%float with true. split; reflexivity.
Qed.

Lemma clamp_percent_zero : clamp_percent 0 = 0%float.
Proof. reflexivity. Qed.

Lemma in_percent_range_not_nan x : in_percent_range x -> is_nan x = false.
Proof. intros [H _]. exact (leb_not_nan _ _ H). Qed.

(** The guard [all == 0] is the test the division itself makes: the
    division of [percent_of] never raises. *)
Lemma percent_of_ok busy all : percent_of busy all = Ok (percent_value busy all).
Proof.
  unfold percent_of, percent_value, Py.float_div.
  destruct (Py.is_zero all); reflexivity.
Qed.

Lemma percent_value_zero busy all : Py.is_zero all = true -> percent_value busy all = 0%float.
Proof. unfold percent_value. now intros ->. Qed.

Lemma cpu_loop_raise current_times last_times acc :
  (length last_times < length current_times)%nat ->
  cpu_loop acc current_times last_times = Raise IndexError.
Proof.
  revert last_times acc.
  induction current_times as [|c cs IH]; intros [|l ls] acc Hlen; cbn in *;
    try lia; try reflexivity.
  unfold cpu_loop_body, core_percent. rewrite percent_of_ok. cbn.
  apply IH. lia.
Qed.

Lemma cpu_loop_ok current_times last_times acc :
  (length current_times <= length last_times)%nat ->
  cpu_loop acc current_times last_times =
  Ok {| per_cpu_percent :=
          per_cpu_percent acc ++ zip_with core_value current_times last_times;
        total_delta_user :=
          foldl PrimFloat.add (total_delta_user acc)
                (deltas delta_user current_times last_times);
        total_delta_system :=
          foldl PrimFloat.add (total_delta_system acc)
                (deltas delta_system current_times last_times);
        total_delta_idle :=
          foldl PrimFloat.add (total_delta_idle acc)
                (deltas delta_idle current_times last_times);
        total_delta_all :=
          foldl PrimFloat.add (total_delta_all acc)
                (deltas delta_all current_times last_times) |}.
Proof.
  revert last_times acc.
  induction current_times as [|c cs IH]; intros ls acc Hlen.
  - destruct acc; cbn. now rewrite app_nil_r.
  - destruct ls as [|l ls]; cbn in Hlen; [lia|].
    cbn [cpu_loop]. unfold cpu_loop_body, core_percent.
    rewrite percent_of_ok. cbn [res_bind].
    rewrite IH by lia. cbn. now rewrite <- app_assoc.
Qed.

(** The whole computation, when the baseline has an entry for every core. *)
Lemma calculate_cpu_percent_ok current_times last_times :
  (length current_times <= length last_times)%nat ->
  _calculate_cpu_percent current_times last_times =
  (current_times,
   Ok (aggregated_percent current_times last_times,
       zip_with core_value current_times last_times)).
Proof.
  intros Hlen. unfold _calculate_cpu_percent.
  rewrite cpu_loop_ok by assumption. cbn [res_bind].
  unfold total_percent_of. rewrite percent_of_ok. reflexivity.
Qed.

Lemma calculate_cpu_percent_raise current_times last_times :
  (length last_times < length current_times)%nat ->
  _calculate_cpu_percent current_times last_times = (current_times, Raise IndexError).
Proof.
  intros Hlen. unfold _calculate_cpu_percent. now rewrite cpu_loop_raise.
Qed.

Lemma core_values_in_range current_times last_times :
  Forall in_percent_range (zip_with core_value current_times last_times).
Proof.
  revert last_times. induction current_times as [|c cs IH]; intros [|l ls]; cbn;
    constructor; [apply clamp_percent_in_range | apply IH].
Qed.

Lemma core_values_lookup current_times last_times i cur lst :
  current_times !! i = Some cur -> last_times !! i = Some lst ->
  zip_with core_value current_times last_times !! i = Some (core_value cur lst).
Proof.
  intros Hc Hl. rewrite lookup_zip_with, Hc. cbn. now rewrite Hl.
Qed.

End CpuPercent.

(** C5. For every pair of samples, whatever the counters hold, the
    computation either returns or stops on the index error of a baseline
    shorter than the sample, never on a division.  When it returns, the
    total and every per-core percent are numbers between 0 and 100 (so not
    NaN and not negative), there is one percent per core, a core whose
    summed delta is zero has percent exactly 0, and the total is exactly 0
    when the aggregated delta is zero. *)
Theorem cpu_percent_clamped_and_zero_safe (current_times last_times : list scputimes) :
  match snd (_calculate_cpu_percent current_times last_times) with
  | Ok (total_percent, per_cpu) =>
      in_percent_range total_percent /\
      Forall in_percent_range per_cpu /\
      is_nan total_percent = false /\
      Forall (fun p => is_nan p = false) per_cpu /\
      length per_cpu = length current_times /\
      (forall i cur lst,
          current_times !! i = Some cur -> last_times !! i = Some lst ->
          Py.is_zero (delta_all cur lst) = true ->
          per_cpu !! i = Some 0%float) /\
      (Py.is_zero (float_sum (deltas delta_all current_times last_times)) = true ->
       total_percent = 0%float)
  | Raise e =>
      e = IndexError /\ (length last_times < length current_times)%nat
  end.
Proof.
  destruct (Nat.le_gt_cases (length current_times) (length last_times)) as [Hle|Hgt].
  - rewrite calculate_cpu_percent_ok by assumption. cbn [snd].
    pose proof (core_values_in_range current_times last_times) as Hper.
    repeat split.
    + apply clamp_percent_in_range.
    + apply clamp_percent_in_range.
    + exact Hper.
    + apply in_percent_range_not_nan, clamp_percent_in_range.
    + eapply Forall_impl; [exact Hper|]. intros p. apply in_percent_range_not_nan.
    + rewrite length_zip_with. lia.
    + intros i cur lst Hc Hl Hz.
      rewrite (core_values_lookup _ _ _ _ _ Hc Hl). unfold core_value.
      now rewrite percent_value_zero.
    + intros Hz. unfold aggregated_percent. now rewrite percent_value_zero.
  - rewrite calculate_cpu_percent_raise by assumption. cbn. split; [reflexivity|lia].
Qed.

(** The two sample inputs, evaluated. *)
Example both_half_busy_result :
  snd (_calculate_cpu_percent both_half_busy idle_start) = Ok (50%float, [50%float; 50%float]).
Proof. reflexivity. Qed.

Example one_busy_one_idle_result :
  snd (_calculate_cpu_percent one_busy_one_idle idle_start) = Ok (25%float, [100%float; 0%float]).
Proof. reflexivity. Qed.

(** C6, as stated, fails: two cores that are both half busy over unequal
    delta totals (2 and 4 seconds) give a total of 50, which is the mean of
    the per-core values 50 and 50. *)
Lemma unequal_delta_totals_may_agree_with_mean :
  ~ (forall current_times last_times total_percent per_cpu,
        snd (_calculate_cpu_percent current_times last_times) = Ok (total_percent, per_cpu) ->
        unequal_delta_totals current_times last_times ->
        total_percent <> mean_percent per_cpu).
Proof.
  intros H.
  apply (H both_half_busy idle_start 50%float [50%float; 50%float]).
  - reflexivity.
  - exists 0%nat, 1%nat, 2%float, 4%float. repeat split; reflexivity.
  - reflexivity.
Qed.

(** C6 (amended). Whenever the computation returns, the total is the
    formula [(sum_user + sum_system) / sum_all * 100] (0 when [sum_all] is
    0, then clamped) applied to the sums of the per-core deltas, not an
    average of the per-core percentages; and there are inputs with unequal
    delta totals on which the total differs from the mean of the per-core
    values: one core busy for 1 second and one idle for 3 give 25, not 50. *)
Theorem total_percent_is_aggregated :
  (forall current_times last_times,
      match snd (_calculate_cpu_percent current_times last_times) with
      | Ok (total_percent, _) =>
          total_percent = aggregated_percent current_times last_times
      | Raise _ => (length last_times < length current_times)%nat
      end) /\
  (exists current_times last_times total_percent per_cpu,
      snd (_calculate_cpu_percent current_times last_times) = Ok (total_percent, per_cpu) /\
      unequal_delta_totals current_times last_times /\
      total_percent = 25%float /\
      mean_percent per_cpu = 50%float /\
      total_percent <> mean_percent per_cpu).
Proof.
  split.
  - intros current_times last_times.
    destruct (Nat.le_gt_cases (length current_times) (length last_times)) as [Hle|Hgt].
    + now rewrite calculate_cpu_percent_ok.
    + now rewrite calculate_cpu_percent_raise.
  - exists one_busy_one_idle, idle_start, 25%float, [100%float; 0%float].
    split; [reflexivity|]. split.
    + exists 0%nat, 1%nat, 1%float, 3%float. repeat split; reflexivity.
    + split; [reflexivity|]. split; [reflexivity|].
      apply float_neq; reflexivity.
Qed.

(** * The GPU accessor *)

Section Effects.
Context {A B : Type}.

Lemma eff_bind_ok (t : list event) (a : A) (k : A -> eff B) :
  eff_bind (t, Ok a) k = (t ++ fst (k a), snd (k a)).
Proof. cbn. now destruct (k a). Qed.

Lemma eff_bind_raise (t : list event) (e : exn) (k : A -> eff B) :
  eff_bind (t, Raise e) k = (t, Raise e).
Proof. reflexivity. Qed.

(** A loop whose every iteration succeeds is a pure fold. *)
Lemma eff_fold_ok (f : A -> B -> eff A) (g : A -> B -> A) (l : list B) :
  (forall acc x, x ∈ l -> exists t, f acc x = (t, Ok (g acc x))) ->
  forall acc, exists t, eff_fold f l acc = (t, Ok (foldl g acc l)).
Proof.
  induction l as [|x l IH]; intros Hf acc; cbn.
  - now exists [].
  - destruct (Hf acc x) as [t Ht]; [left|].
    destruct (IH (fun acc y Hy => Hf acc y (list_elem_of_further _ _ _ Hy)) (g acc x))
      as [t' Ht'].
    exists (t ++ t'). rewrite Ht. cbn. now rewrite Ht'.
Qed.

End Effects.

Section PidMap.

Lemma range_elem_of i n : i ∈ range n <-> 0 <= i < n.
Proof.
  unfold range. rewrite list_elem_of_fmap. split.
  - intros (k & -> & Hk). apply elem_of_seq in Hk. lia.
  - intros Hi. exists (Z.to_nat i). split; [lia|]. apply elem_of_seq. lia.
Qed.

Lemma add_process_lookup m p m' k :
  add_process m p = Ok m' ->
  default 0 (m' !! k)
  = default 0 (m !! k) + (if decide (pid p = k) then reported_memory p else 0).
Proof.
  unfold add_process, reported_memory.
  destruct (usedGpuMemory p) as [used_memory|]; [|discriminate].
  intros [= <-]. cbn. destruct (decide (pid p = k)) as [->|Hne].
  - now rewrite lookup_insert_eq.
  - rewrite lookup_insert_ne by assumption. lia.
Qed.

(** The loop over the entries of one device, when it ends, has added to
    each pid what the entries report for it. *)
Lemma res_fold_add_process_lookup procs m m' k :
  res_fold add_process procs m = Ok m' ->
  default 0 (m' !! k) = default 0 (m !! k) + memory_of k procs.
Proof.
  revert m. induction procs as [|p procs IH]; intros m; cbn [res_fold].
  - intros [= <-]. unfold memory_of. cbn. lia.
  - destruct (add_process m p) as [m1|e] eqn:Hadd; cbn [res_bind]; [|discriminate].
    intros Hfold. rewrite (IH _ Hfold), (add_process_lookup _ _ _ _ Hadd).
    unfold memory_of. rewrite filter_cons. destruct (decide (pid p = k)); cbn; lia.
Qed.

(** It ends when every entry carries a figure, and on [TypeError]
    otherwise. *)
Lemma res_fold_add_process_ok procs m :
  Forall reports_memory procs -> exists m', res_fold add_process procs m = Ok m'.
Proof.
  intros Hprocs. revert m. induction Hprocs as [|p procs [used_memory Hp] _ IH]; intros m.
  - now exists m.
  - cbn [res_fold]. unfold add_process at 1. rewrite Hp. cbn [res_bind]. apply IH.
Qed.

Lemma res_fold_add_process_raise procs m e :
  res_fold add_process procs m = Raise e -> e = TypeError /\ ~ Forall reports_memory procs.
Proof.
  revert m. induction procs as [|p procs IH]; intros m; cbn [res_fold]; [discriminate|].
  unfold add_process at 1. destruct (usedGpuMemory p) as [used_memory|] eqn:Hp; cbn [res_bind].
  - intros [-> Hnot]%IH. split; [reflexivity|]. intros Hall. apply Hnot.
    now apply Forall_cons in Hall as [_ Hall].
  - intros [= <-]. split; [reflexivity|]. intros Hall.
    apply Forall_cons in Hall as [[used_memory Hsome] _]. congruence.
Qed.

(** Folding the devices one after the other adds up what each reports. *)
Lemma res_fold_devices_lookup (procs_of : Z -> list nvml_process) l m m' k :
  res_fold (fun m i => res_fold add_process (procs_of i) m) l m = Ok m' ->
  default 0 (m' !! k)
  = default 0 (m !! k) + foldr Z.add 0 ((fun i => memory_of k (procs_of i)) <$> l).
Proof.
  revert m. induction l as [|i l IH]; intros m; cbn [res_fold].
  - intros [= <-]. cbn. lia.
  - destruct (res_fold add_process (procs_of i) m) as [m1|e] eqn:Hdev; cbn [res_bind];
      [|discriminate].
    intros Hfold. rewrite (IH _ Hfold), (res_fold_add_process_lookup _ _ _ _ Hdev).
    cbn. lia.
Qed.

Lemma res_fold_devices_ok (procs_of : Z -> list nvml_process) l m :
  (forall i, i ∈ l -> Forall reports_memory (procs_of i)) ->
  exists m', res_fold (fun m i => res_fold add_process (procs_of i) m) l m = Ok m'.
Proof.
  revert m. induction l as [|i l IH]; intros m Hl; cbn [res_fold].
  - now exists m.
  - destruct (res_fold_add_process_ok (procs_of i) m) as [m1 ->]; [apply Hl; left|].
    cbn [res_bind]. apply IH. intros j Hj. apply Hl. now right.
Qed.

Lemma res_fold_devices_raise (procs_of : Z -> list nvml_process) l m e :
  res_fold (fun m i => res_fold add_process (procs_of i) m) l m = Raise e ->
  e = TypeError /\ exists i, i ∈ l /\ ~ Forall reports_memory (procs_of i).
Proof.
  revert m. induction l as [|i l IH]; intros m; cbn [res_fold]; [discriminate|].
  destruct (res_fold add_process (procs_of i) m) as [m1|e1] eqn:Hdev; cbn [res_bind].
  - intros (-> & j & Hj & Hnot)%IH. split; [reflexivity|]. exists j. split; [now right|assumption].
  - intros [= <-]. destruct (res_fold_add_process_raise _ _ _ Hdev) as [-> Hnot].
    split; [reflexivity|]. exists i. split; [now left|assumption].
Qed.

(** A loop of queries each of which is answered. *)
Lemma eff_fold_answered {A B} (f : A -> B -> eff A) (g : A -> B -> res A) (l : list B) :
  (forall acc x, x ∈ l -> exists t, f acc x = (t, g acc x)) ->
  forall acc, exists t, eff_fold f l acc = (t, res_fold g l acc).
Proof.
  induction l as [|x l IH]; intros Hf acc; cbn.
  - now exists [].
  - destruct (Hf acc x) as [t Ht]; [left|]. rewrite Ht.
    destruct (g acc x) as [acc'|e]; cbn; [|eauto].
    destruct (IH (fun acc y Hy => Hf acc y (list_elem_of_further _ _ _ Hy)) acc')
      as [t' Ht'].
    exists (t ++ t'). now rewrite Ht'.
Qed.

(** The body of the refresh when every query is answered: the two nested
    loops over the answers. *)
Lemma map_pids_body_answered lib device_count handle_of procs_of :
  nvmlDeviceGetCount lib = NVML_SUCCESS device_count ->
  (forall i, 0 <= i < device_count ->
             nvmlDeviceGetHandleByIndex lib i = NVML_SUCCESS (handle_of i)) ->
  (forall i, 0 <= i < device_count ->
             nvmlDeviceGetComputeRunningProcesses lib (handle_of i)
             = NVML_SUCCESS (procs_of i)) ->
  exists t,
    map_pids_body lib
    = (t, res_fold (fun m i => res_fold add_process (procs_of i) m) (range device_count) ∅).
Proof.
  intros Hcount Hhandle Hprocs. unfold map_pids_body, call. rewrite Hcount.
  rewrite eff_bind_ok.
  match goal with |- context [eff_fold ?f ?l ?a] =>
    destruct (eff_fold_answered f (fun m i => res_fold add_process (procs_of i) m) l)
      with (acc := a) as [t Ht]
  end.
  - intros acc i Hi%range_elem_of.
    rewrite (Hhandle i Hi). cbn. rewrite (Hprocs i Hi). cbn.
    destruct (res_fold add_process (procs_of i) acc); eauto.
  - rewrite Ht. cbn. eauto.
Qed.

End PidMap.

(** C4. A lookup of a pid that is absent from the map built last gives 0.
    After a refresh during which every query succeeded and every entry
    carried its memory figure, the lookup of a pid gives the sum of the
    memory that all the devices report for it. *)
Theorem process_memory_is_sum_over_devices
    (lib : pynvml) (self : GPUMonitor) (device_count : Z)
    (handle_of : Z -> Z) (procs_of : Z -> list nvml_process) :
  is_available self = true ->
  nvmlDeviceGetCount lib = NVML_SUCCESS device_count ->
  (forall i, 0 <= i < device_count ->
             nvmlDeviceGetHandleByIndex lib i = NVML_SUCCESS (handle_of i)) ->
  (forall i, 0 <= i < device_count ->
             nvmlDeviceGetComputeRunningProcesses lib (handle_of i)
             = NVML_SUCCESS (procs_of i)) ->
  (forall i, 0 <= i < device_count -> Forall reports_memory (procs_of i)) ->
  (forall pid0, pid_gpu_memory_map self !! pid0 = None ->
                get_process_gpu_memory self pid0 = 0) /\
  exists t self',
    _map_pids_to_gpus lib self = (t, Ok self') /\
    (forall pid0, pid_gpu_memory_map self' !! pid0 = None ->
                  get_process_gpu_memory self' pid0 = 0) /\
    (forall pid0, get_process_gpu_memory self' pid0
                  = memory_on_all_devices pid0 device_count procs_of).
Proof.
  intros Havail Hcount Hhandle Hprocs Hfigures.
  assert (forall g pid0, pid_gpu_memory_map g !! pid0 = None ->
                         get_process_gpu_memory g pid0 = 0) as Habsent.
  { intros g pid0 Hnone. unfold get_process_gpu_memory. now rewrite Hnone. }
  split; [apply Habsent|].
  destruct (map_pids_body_answered lib device_count handle_of procs_of Hcount Hhandle Hprocs)
    as [t Ht].
  destruct (res_fold_devices_ok procs_of (range device_count) ∅) as [m Hm].
  { intros i Hi%range_elem_of. now apply Hfigures. }
  rewrite Hm in Ht.
  unfold _map_pids_to_gpus. rewrite Havail. cbn [negb]. rewrite Ht.
  eexists _, _. split; [reflexivity|]. split; [apply Habsent|].
  intros pid0. unfold get_process_gpu_memory, memory_on_all_devices. cbn.
  rewrite (res_fold_devices_lookup _ _ _ _ _ Hm), lookup_empty. cbn. lia.
Qed.

(** The scenario of the specification: 100MB on one device and 50MB on
    another for pid 7 give 150MB; pid 9 is on no device and gives 0. *)
Lemma process_memory_is_sum_over_devices_witness :
  (forall pid0, pid_gpu_memory_map enabled_gpu !! pid0 = None ->
                get_process_gpu_memory enabled_gpu pid0 = 0) /\
  exists t self',
    _map_pids_to_gpus two_gpus enabled_gpu = (t, Ok self') /\
    (forall pid0, pid_gpu_memory_map self' !! pid0 = None ->
                  get_process_gpu_memory self' pid0 = 0) /\
    (forall pid0, get_process_gpu_memory self' pid0
                  = memory_on_all_devices pid0 2
                      (fun i => if i =? 0
                                then [{| pid := 7; usedGpuMemory := Some (100 * MB) |}]
                                else [{| pid := 7; usedGpuMemory := Some (50 * MB) |};
                                      {| pid := 8; usedGpuMemory := Some (1 * MB) |}])).
Proof.
  apply (process_memory_is_sum_over_devices two_gpus enabled_gpu 2 (fun i => 10 + i)).
  - reflexivity.
  - reflexivity.
  - intros i Hi. reflexivity.
  - intros i Hi. cbn.
    assert (i = 0 \/ i = 1) as [-> | ->] by lia; reflexivity.
  - intros i Hi. destruct (i =? 0); repeat constructor; now eexists.
Defined.

Example two_devices_150MB :
  exists t self',
    _map_pids_to_gpus two_gpus enabled_gpu = (t, Ok self') /\
    get_process_gpu_memory self' 7 = 150 * MB /\
    get_process_gpu_memory self' 8 = 1 * MB /\
    get_process_gpu_memory self' 9 = 0.
Proof. eexists _, _. split; [reflexivity|]. repeat split; vm_compute; reflexivity. Qed.

Section Accessor.

(** *** The two guarded methods, case by case *)

Lemma map_pids_to_gpus_disabled lib g :
  is_available g = false -> _map_pids_to_gpus lib g = ([], Ok g).
Proof. unfold _map_pids_to_gpus. now intros ->. Qed.

Lemma map_pids_to_gpus_enabled lib g :
  is_available g = true ->
  _map_pids_to_gpus lib g =
  match map_pids_body lib with
  | (t, Ok m) => (t, Ok {| is_available := true; pid_gpu_memory_map := m |})
  | (t, Raise (NVMLError msg)) =>
      (t ++ [refresh_failed msg],
       Ok {| is_available := true; pid_gpu_memory_map := ∅ |})
  | (t, Raise e) => (t, Raise e)
  end.
Proof.
  unfold _map_pids_to_gpus. intros ->. cbn [negb].
  destruct (map_pids_body lib) as [t [m|[]]]; cbn; rewrite ?app_nil_r; reflexivity.
Qed.

Lemma get_gpu_info_disabled lib g :
  is_available g = false -> get_gpu_info lib g = ([], Ok (g, [])).
Proof. unfold get_gpu_info. now intros ->. Qed.

Lemma get_gpu_info_enabled lib g :
  is_available g = true ->
  get_gpu_info lib g =
  match gpu_info_body lib with
  | (t, Ok l) => (t, Ok (g, l))
  | (t, Raise (NVMLError msg)) =>
      (t ++ [listing_failed msg],
       Ok ({| is_available := false; pid_gpu_memory_map := pid_gpu_memory_map g |}, []))
  | (t, Raise e) => (t, Raise e)
  end.
Proof.
  unfold get_gpu_info. intros ->. cbn [negb].
  destruct (gpu_info_body lib) as [t [l|[]]]; cbn; rewrite ?app_nil_r; reflexivity.
Qed.

Lemma shutdown_cases lib g :
  shutdown lib g =
  if is_available g then
    match nvmlShutdown lib with
    | NVML_SUCCESS _ =>
        ([Nvml nvmlShutdown_call; Log INFO "pynvml shut down successfully."], Ok tt)
    | NVML_ERROR msg => ([Nvml nvmlShutdown_call; shutdown_failed msg], Ok tt)
    end
  else ([], Ok tt).
Proof.
  unfold shutdown, call. destruct (is_available g); [|reflexivity].
  destruct (nvmlShutdown lib) as [[]|msg]; reflexivity.
Qed.

(** *** A disabled accessor stays as it is *)

Lemma perform_op_disabled g op :
  is_available g = false ->
  perform_op g op = ([], Ok (g, disabled_result g op)).
Proof.
  intros Hg. destruct op as [lib|lib|pid0|lib]; cbn [perform_op disabled_result].
  - now rewrite map_pids_to_gpus_disabled.
  - now rewrite get_gpu_info_disabled.
  - reflexivity.
  - rewrite shutdown_cases, Hg. reflexivity.
Qed.

Lemma run_ops_from_disabled ops g rs :
  is_available g = false ->
  eff_fold
    (fun acc op => r <- perform_op (fst acc) op ;; eff_ret (fst r, snd acc ++ [snd r]))%eff
    ops (g, rs)
  = ([], Ok (g, rs ++ (disabled_result g <$> ops))).
Proof.
  intros Hg. revert rs. induction ops as [|op ops IH]; intros rs; cbn [eff_fold].
  - cbn. now rewrite app_nil_r.
  - cbn [fst snd]. rewrite (perform_op_disabled g op Hg). cbn -[eff_fold].
    rewrite IH. cbn. now rewrite <- app_assoc.
Qed.

Lemma run_ops_disabled ops g :
  is_available g = false ->
  run_ops ops g = ([], Ok (g, disabled_result g <$> ops)).
Proof. intros Hg. unfold run_ops. now rewrite run_ops_from_disabled. Qed.

(** *** The flag never goes from false to true *)

Lemma perform_op_monotone g op t g' r :
  perform_op g op = (t, Ok (g', r)) ->
  is_available g' = true -> is_available g = true.
Proof.
  destruct (is_available g) eqn:Hg; [reflexivity|].
  rewrite (perform_op_disabled g op Hg). intros [= <- <- <-]. congruence.
Qed.

Lemma run_ops_monotone ops g t g' rs :
  run_ops ops g = (t, Ok (g', rs)) ->
  is_available g' = true -> is_available g = true.
Proof.
  destruct (is_available g) eqn:Hg; [reflexivity|].
  rewrite (run_ops_disabled ops g Hg). intros [= <- <- <-]. congruence.
Qed.

End Accessor.

(** *** The shape of the traces *)

(** Every event of the traces below is a log record or one of the NVML
    calls allowed by [P]. *)
Section TraceShape.

Variable P : event -> Prop.
Hypothesis P_log : forall level msg, P (Log level msg).

Lemma eff_ret_all {A} (a : A) : Forall P (fst (eff_ret a)).
Proof. constructor. Qed.

Lemma log_all level msg : Forall P (fst (log level msg)).
Proof. repeat constructor. apply P_log. Qed.

Lemma lift_res_all {A} (r : res A) : Forall P (fst (lift_res r)).
Proof. constructor. Qed.

Lemma call_all {A} c (answer : nvml_return A) :
  P (Nvml c) -> Forall P (fst (call c answer)).
Proof. intros Hc. repeat constructor. exact Hc. Qed.

Lemma eff_bind_all {A B} (c : eff A) (k : A -> eff B) :
  Forall P (fst c) -> (forall a, Forall P (fst (k a))) -> Forall P (fst (eff_bind c k)).
Proof.
  destruct c as [t [a|e]]; cbn; intros Ht Hk; [|assumption].
  specialize (Hk a). destruct (k a) as [t' r]. cbn in *. now apply Forall_app.
Qed.

Lemma eff_fold_all {A B} (f : A -> B -> eff A) l acc :
  (forall acc x, Forall P (fst (f acc x))) -> Forall P (fst (eff_fold f l acc)).
Proof.
  intros Hf. revert acc. induction l as [|x l IH]; intros acc; cbn [eff_fold].
  - constructor.
  - apply eff_bind_all; auto.
Qed.

Lemma try_except_all {A} (body : eff A) handler :
  Forall P (fst body) -> (forall msg, Forall P (fst (handler msg))) ->
  Forall P (fst (try_except_NVMLError body handler)).
Proof.
  destruct body as [t [a|[msg| | | | |]]]; cbn; intros Ht Hh; try assumption.
  specialize (Hh msg). destruct (handler msg) as [t' r]. cbn in *. now apply Forall_app.
Qed.

(** The calls made after construction. *)
Hypothesis P_query : forall c, c <> nvmlInit_call -> P (Nvml c).

Ltac trace_shape :=
  repeat first
    [ apply eff_ret_all | apply log_all | apply lift_res_all
    | apply call_all; apply P_query; discriminate
    | apply try_except_all; [|intros ?]
    | apply eff_fold_all; intros ? ?
    | apply eff_bind_all; [|intros ?] ].

Lemma map_pids_to_gpus_all lib g : Forall P (fst (_map_pids_to_gpus lib g)).
Proof.
  unfold _map_pids_to_gpus, map_pids_body. destruct (negb (is_available g)); trace_shape.
Qed.

Lemma get_gpu_info_all lib g : Forall P (fst (get_gpu_info lib g)).
Proof.
  unfold get_gpu_info, gpu_info_body. destruct (negb (is_available g)); trace_shape.
Qed.

Lemma shutdown_all lib g : Forall P (fst (shutdown lib g)).
Proof. unfold shutdown. destruct (is_available g); trace_shape. Qed.

Lemma perform_op_all g op : Forall P (fst (perform_op g op)).
Proof.
  destruct op; cbn [perform_op]; trace_shape;
    auto using map_pids_to_gpus_all, get_gpu_info_all, shutdown_all.
Qed.

Lemma run_ops_all ops g : Forall P (fst (run_ops ops g)).
Proof. unfold run_ops. trace_shape. apply perform_op_all. Qed.

End TraceShape.

(** *** Only the constructor calls [nvmlInit] *)

Lemma run_ops_no_init ops g : no_init (fst (run_ops ops g)).
Proof. apply run_ops_all; [discriminate|]. intros c Hc [= ->]. now apply Hc. Qed.

Lemma no_init_calls t : no_init t -> nvmlInit_call ∉ nvml_calls t.
Proof.
  unfold no_init, nvml_calls. intros Ht Hin.
  apply list_elem_of_omap in Hin as (e & He & Hc).
  rewrite Forall_forall in Ht. specialize (Ht e He).
  destruct e; try discriminate. congruence.
Qed.

(** *** The accessor emits no signal and does not sleep *)

Lemma quiet_emitted t : Forall quiet t -> emitted t = [].
Proof.
  induction 1 as [|e t He _ IH]; [reflexivity|].
  destruct e; cbn in *; try contradiction; exact IH.
Qed.

Lemma quiet_sleeps t : Forall quiet t -> sleeps t = [].
Proof.
  induction 1 as [|e t He _ IH]; [reflexivity|].
  destruct e; cbn in *; try contradiction; exact IH.
Qed.

(** C3. The two failure policies.  When the [try] block of the device
    listing raises an NVML error, the listing logs it, returns the empty
    list and clears the flag, and from then on every listing returns the
    empty list without a query, whatever the library would answer.  When
    the [try] block of the refresh raises an NVML error, the refresh logs
    it and leaves an empty map with the flag still set, and the next
    refresh queries the library again. *)
Theorem listing_failure_disables_refresh_failure_resets
    (lib_l lib_r : pynvml) (g : GPUMonitor) (t_l t_r : list event) (msg_l msg_r : string) :
  is_available g = true ->
  gpu_info_body lib_l = (t_l, Raise (NVMLError msg_l)) ->
  map_pids_body lib_r = (t_r, Raise (NVMLError msg_r)) ->
  (exists g',
      get_gpu_info lib_l g = (t_l ++ [listing_failed msg_l], Ok (g', [])) /\
      is_available g' = false /\
      (forall lib', get_gpu_info lib' g' = ([], Ok (g', []))) /\
      (forall ops, run_ops ops g' = ([], Ok (g', disabled_result g' <$> ops)))) /\
  (exists g',
      _map_pids_to_gpus lib_r g = (t_r ++ [refresh_failed msg_r], Ok g') /\
      pid_gpu_memory_map g' = ∅ /\
      is_available g' = true /\
      (forall pid0, get_process_gpu_memory g' pid0 = 0) /\
      (forall lib', exists t' r,
          _map_pids_to_gpus lib' g' = (Nvml nvmlDeviceGetCount_call :: t', r))).
Proof.
  intros Hg Hl Hr. split.
  - eexists. rewrite (get_gpu_info_enabled _ _ Hg), Hl.
    split; [reflexivity|]. split; [reflexivity|]. split.
    + intros lib'. now apply get_gpu_info_disabled.
    + intros ops. now apply run_ops_disabled.
  - eexists. rewrite (map_pids_to_gpus_enabled _ _ Hg), Hr.
    split; [reflexivity|]. split; [reflexivity|]. split; [reflexivity|]. split.
    + intros pid0. reflexivity.
    + intros lib'. rewrite map_pids_to_gpus_enabled by reflexivity.
      unfold map_pids_body, call.
      destruct (nvmlDeviceGetCount lib') as [n|msg]; cbn -[eff_fold].
      * destruct (eff_fold _ _ _) as [t' [m|[]]]; cbn; eauto.
      * eauto.
Qed.

(** The name of the second device cannot be read during a listing; the
    processes of the second device cannot be listed during a refresh. *)
Lemma listing_failure_disables_refresh_failure_resets_witness :
  (exists g',
      get_gpu_info name_query_fails enabled_gpu
      = ([Nvml nvmlDeviceGetCount_call;
          Nvml (nvmlDeviceGetHandleByIndex_call 0);
          Nvml (nvmlDeviceGetName_call 10);
          Nvml (nvmlDeviceGetMemoryInfo_call 10);
          Nvml (nvmlDeviceGetUtilizationRates_call 10);
          Nvml (nvmlDeviceGetUUID_call 10);
          Nvml (nvmlDeviceGetHandleByIndex_call 1);
          Nvml (nvmlDeviceGetName_call 11)] ++ [listing_failed "GPU is lost"],
         Ok (g', [])) /\
      is_available g' = false /\
      (forall lib', get_gpu_info lib' g' = ([], Ok (g', []))) /\
      (forall ops, run_ops ops g' = ([], Ok (g', disabled_result g' <$> ops)))) /\
  (exists g',
      _map_pids_to_gpus process_query_fails enabled_gpu
      = ([Nvml nvmlDeviceGetCount_call;
          Nvml (nvmlDeviceGetHandleByIndex_call 0);
          Nvml (nvmlDeviceGetComputeRunningProcesses_call 10);
          Nvml (nvmlDeviceGetHandleByIndex_call 1);
          Nvml (nvmlDeviceGetComputeRunningProcesses_call 11)] ++ [refresh_failed "GPU is lost"],
         Ok g') /\
      pid_gpu_memory_map g' = ∅ /\
      is_available g' = true /\
      (forall pid0, get_process_gpu_memory g' pid0 = 0) /\
      (forall lib', exists t' r,
          _map_pids_to_gpus lib' g' = (Nvml nvmlDeviceGetCount_call :: t', r))).
Proof.
  apply (listing_failure_disables_refresh_failure_resets
           name_query_fails process_query_fails enabled_gpu);
    reflexivity.
Defined.

(** *** Operations that keep the accessor enabled *)

Section KeepsAvailable.

Lemma eff_bind_Ok_inv {A B} (c : eff A) (k : A -> eff B) t b :
  eff_bind c k = (t, Ok b) ->
  exists t1 a t2, c = (t1, Ok a) /\ k a = (t2, Ok b) /\ t = t1 ++ t2.
Proof.
  destruct c as [t1 [a|e]]; cbn; [|discriminate].
  destruct (k a) as [t2 r] eqn:Hk. intros [= <- ->]. eauto 6.
Qed.

Lemma perform_op_keeps_available g op t g' r :
  perform_op g op = (t, Ok (g', r)) ->
  is_available g = true -> ~ listing_fails op ->
  is_available g' = true.
Proof.
  intros Hop Hg Hfail. destruct op as [lib|lib|pid0|lib]; cbn [perform_op] in Hop.
  - rewrite (map_pids_to_gpus_enabled _ _ Hg) in Hop.
    destruct (map_pids_body lib) as [t0 [m|[]]]; cbn in Hop; try discriminate;
      injection Hop as <- <- <-; reflexivity.
  - rewrite (get_gpu_info_enabled _ _ Hg) in Hop.
    destruct (gpu_info_body lib) as [t0 [l|[msg| | | | |]]] eqn:Hbody; cbn in Hop;
      try discriminate.
    + injection Hop as <- <- <-. assumption.
    + exfalso. apply Hfail. cbn. eauto.
  - injection Hop as <- <- <-. assumption.
  - rewrite shutdown_cases, Hg in Hop.
    destruct (nvmlShutdown lib); cbn in Hop; injection Hop as <- <- <-; assumption.
Qed.

Lemma run_ops_from_keeps_available ops g rs0 t g' rs :
  eff_fold
    (fun acc op => r <- perform_op (fst acc) op ;; eff_ret (fst r, snd acc ++ [snd r]))%eff
    ops (g, rs0)
  = (t, Ok (g', rs)) ->
  is_available g = true -> Forall (fun op => ~ listing_fails op) ops ->
  is_available g' = true.
Proof.
  revert g rs0 t. induction ops as [|op ops IH]; intros g rs0 t Hrun Hg Hops.
  - cbn in Hrun. now injection Hrun as <- <- <-.
  - cbn [eff_fold] in Hrun. inversion Hops as [|? ? Hop Hops']; subst.
    apply eff_bind_Ok_inv in Hrun as (t1 & [g1 rs1] & t2 & Hstep & Hrest & ->).
    apply eff_bind_Ok_inv in Hstep as (t3 & [g2 r2] & t4 & Hperf & Hret & ->).
    cbn in Hperf, Hret. injection Hret as <- <- <-.
    apply (IH _ _ _ Hrest); [|assumption].
    now apply (perform_op_keeps_available _ _ _ _ _ Hperf).
Qed.

Lemma run_ops_keeps_available ops g t g' rs :
  run_ops ops g = (t, Ok (g', rs)) ->
  is_available g = true -> Forall (fun op => ~ listing_fails op) ops ->
  is_available g' = true.
Proof. apply run_ops_from_keeps_available. Qed.

Lemma GPUMonitor_init_cases PYNXML_AVAILABLE lib0 :
  exists t g,
    GPUMonitor_init PYNXML_AVAILABLE lib0 = (t, Ok g) /\
    pid_gpu_memory_map g = ∅ /\
    is_available g
    = (PYNXML_AVAILABLE && match nvmlInit lib0 with NVML_SUCCESS _ => true | _ => false end) /\
    nvml_calls t = (if PYNXML_AVAILABLE then [nvmlInit_call] else []).
Proof.
  unfold GPUMonitor_init, call. destruct PYNXML_AVAILABLE; [|cbn; eauto 8].
  destruct (nvmlInit lib0) as [[]|msg]; cbn; eauto 8.
Qed.

End KeepsAvailable.

(** C2, as stated, fails on the lookup: the library initialises, a refresh
    finds process 7 on two devices, then a device listing fails and clears
    the flag; the flag is cleared and the lookup of pid 7 is not 0. *)
Lemma stale_lookup_after_disable :
  ~ (forall PYNXML_AVAILABLE lib0 ops t g rs,
        gpu_session PYNXML_AVAILABLE lib0 ops = (t, Ok (g, rs)) ->
        is_available g = false ->
        forall pid0, get_process_gpu_memory g pid0 = 0).
Proof.
  intros H.
  specialize (H true two_gpus [Refresh two_gpus; ListDevices name_query_fails]
                _ _ _ eq_refl eq_refl 7).
  vm_compute in H. discriminate.
Qed.

(** The stale value survives the next refresh, which is skipped: the
    results of the last two operations are nothing and 150MB. *)
Example lookup_after_disable_results :
  exists t g,
    gpu_session true two_gpus lookup_after_disable
    = (t, Ok (g, [Nothing; Devices []; Nothing; Memory (150 * MB)])) /\
    is_available g = false.
Proof. eexists _, _. split; vm_compute; reflexivity. Qed.

(** C2 (amended). The flag is set by the constructor only, when the
    library is present and [nvmlInit] succeeds.  No later operation makes
    it true again or calls [nvmlInit].  Once it is false, no operation
    queries the library or changes the accessor: a listing returns the
    empty list, a refresh and a shutdown do nothing, and a lookup keeps
    returning what the map built last holds for the pid (0 when the pid
    is absent from it). *)
Theorem availability_flag_never_set_again :
  (forall PYNXML_AVAILABLE lib0, exists t g,
      GPUMonitor_init PYNXML_AVAILABLE lib0 = (t, Ok g) /\
      pid_gpu_memory_map g = ∅ /\
      is_available g
      = (PYNXML_AVAILABLE && match nvmlInit lib0 with NVML_SUCCESS _ => true | _ => false end) /\
      nvml_calls t = (if PYNXML_AVAILABLE then [nvmlInit_call] else [])) /\
  (forall ops g t g' rs,
      run_ops ops g = (t, Ok (g', rs)) ->
      is_available g' = true -> is_available g = true) /\
  (forall ops g, nvmlInit_call ∉ nvml_calls (fst (run_ops ops g))) /\
  (forall ops g,
      is_available g = false ->
      run_ops ops g = ([], Ok (g, disabled_result g <$> ops))) /\
  (forall g pid0,
      pid_gpu_memory_map g !! pid0 = None -> get_process_gpu_memory g pid0 = 0).
Proof.
  split; [exact GPUMonitor_init_cases|].
  split; [exact run_ops_monotone|].
  split; [intros ops g; apply no_init_calls, run_ops_no_init|].
  split; [exact run_ops_disabled|].
  intros g pid0 Hnone. unfold get_process_gpu_memory. now rewrite Hnone.
Qed.

(** C8, as stated, fails: the library initialises, a device listing fails
    and clears the flag, and the shutdown that follows makes no call to
    [nvmlShutdown]. *)
Lemma no_release_after_listing_failure :
  ~ (forall lib0 ops lib_s t g rs,
        nvmlInit lib0 = NVML_SUCCESS tt ->
        gpu_session true lib0 ops = (t, Ok (g, rs)) ->
        nvmlShutdown_call ∈ nvml_calls (fst (shutdown lib_s g))).
Proof.
  intros H.
  specialize (H two_gpus [ListDevices name_query_fails] two_gpus _ _ _ eq_refl eq_refl).
  vm_compute in H. inversion H.
Qed.

Example listing_fails_then_shutdown_calls :
  nvml_calls (fst (gpu_session true two_gpus listing_fails_then_shutdown))
  = [nvmlInit_call;
     nvmlDeviceGetCount_call;
     nvmlDeviceGetHandleByIndex_call 0;
     nvmlDeviceGetName_call 10;
     nvmlDeviceGetMemoryInfo_call 10;
     nvmlDeviceGetUtilizationRates_call 10;
     nvmlDeviceGetUUID_call 10;
     nvmlDeviceGetHandleByIndex_call 1;
     nvmlDeviceGetName_call 11].
Proof. vm_compute. reflexivity. Qed.

(** C8 (amended). [shutdown] calls [nvmlShutdown] exactly when the
    accessor is still available: after an initialisation that succeeded
    and operations among which no device listing failed, it makes the
    call; on an accessor whose flag is false it makes none.  It never
    raises: a failure of the release is logged at level ERROR and the
    method returns. *)
Theorem shutdown_releases_while_available
    (lib0 lib_s : pynvml) (ops : list gpu_op) (t : list event) (g : GPUMonitor)
    (rs : list gpu_result) :
  nvmlInit lib0 = NVML_SUCCESS tt ->
  gpu_session true lib0 ops = (t, Ok (g, rs)) ->
  exists t_s,
    shutdown lib_s g = (t_s, Ok tt) /\
    nvml_calls t_s = (if is_available g then [nvmlShutdown_call] else []) /\
    (Forall (fun op => ~ listing_fails op) ops -> nvml_calls t_s = [nvmlShutdown_call]) /\
    (is_available g = false -> t_s = []) /\
    (forall msg,
        is_available g = true -> nvmlShutdown lib_s = NVML_ERROR msg ->
        t_s = [Nvml nvmlShutdown_call; shutdown_failed msg]).
Proof.
  intros Hinit Hsession.
  assert (Forall (fun op => ~ listing_fails op) ops -> is_available g = true) as Hkeep.
  { intros Hops. unfold gpu_session in Hsession.
    apply eff_bind_Ok_inv in Hsession as (t1 & g0 & t2 & Hg0 & Hrun & ->).
    apply (run_ops_keeps_available _ _ _ _ _ Hrun); [|assumption].
    unfold GPUMonitor_init, call in Hg0. rewrite Hinit in Hg0. cbn in Hg0.
    now injection Hg0 as <- <-. }
  rewrite shutdown_cases.
  destruct (is_available g) eqn:Hg.
  - destruct (nvmlShutdown lib_s) as [[]|msg] eqn:Hs; eexists; (split; [reflexivity|]);
      repeat split; try reflexivity; try discriminate.
    intros msg' _ [= ->]. reflexivity.
  - eexists. split; [reflexivity|]. split; [reflexivity|]. split.
    + intros Hops. specialize (Hkeep Hops). discriminate.
    + split; [reflexivity|]. intros msg Hfalse. discriminate.
Qed.

(** A refresh fails and a listing succeeds, so the accessor is still
    enabled; the release itself then fails, which is logged. *)
Lemma shutdown_releases_while_available_witness :
  exists t_s,
    shutdown failing_lib enabled_gpu = (t_s, Ok tt) /\
    nvml_calls t_s = (if is_available enabled_gpu then [nvmlShutdown_call] else []) /\
    (Forall (fun op => ~ listing_fails op)
            [Refresh process_query_fails; ListDevices two_gpus; ProcessMemory 7] ->
     nvml_calls t_s = [nvmlShutdown_call]) /\
    (is_available enabled_gpu = false -> t_s = []) /\
    (forall msg,
        is_available enabled_gpu = true -> nvmlShutdown failing_lib = NVML_ERROR msg ->
        t_s = [Nvml nvmlShutdown_call; shutdown_failed msg]).
Proof.
  refine (shutdown_releases_while_available two_gpus failing_lib
            [Refresh process_query_fails; ListDevices two_gpus; ProcessMemory 7]
            _ enabled_gpu _ eq_refl _).
  vm_compute. reflexivity.
Defined.

(** * The worker thread *)

Section Thread.

Lemma emitted_app t1 t2 : emitted (t1 ++ t2) = emitted t1 ++ emitted t2.
Proof. apply omap_app. Qed.

Lemma sleeps_app t1 t2 : sleeps (t1 ++ t2) = sleeps t1 ++ sleeps t2.
Proof. apply omap_app. Qed.

Lemma collect_data_quiet w s : Forall quiet (fst (_collect_data w s)).
Proof.
  unfold _collect_data.
  destruct (_calculate_cpu_percent _ _) as [last' cpu_result].
  apply eff_bind_all; [apply lift_res_all|]. intros [total per].
  apply eff_bind_all; [apply lift_res_all|]. intros processes_data.
  apply eff_bind_all.
  - apply get_gpu_info_all; [intros; exact I|]. intros c _. exact I.
  - intros [g' gpu_list]. apply eff_ret_all.
Qed.

Lemma map_pids_to_gpus_quiet lib g : Forall quiet (fst (_map_pids_to_gpus lib g)).
Proof. apply map_pids_to_gpus_all; [intros; exact I|]. intros c _. exact I. Qed.

Lemma shutdown_quiet lib g : Forall quiet (fst (shutdown lib g)).
Proof. apply shutdown_all; [intros; exact I|]. intros c _. exact I. Qed.

(** The end of a tick, case by case. *)
Lemma end_of_tick_cases w interval start :
  end_of_tick w interval start
  = if (0 <? sleep_time interval start (time w))%float
    then ([Sleep (sleep_time interval start (time w))],
          if sleep_fits w (sleep_time interval start (time w))
          then Ok tt else Raise OverflowError)
    else ([], Ok tt).
Proof. reflexivity. Qed.

Lemma end_of_tick_emitted w interval start :
  emitted (fst (end_of_tick w interval start)) = [].
Proof. rewrite end_of_tick_cases. now destruct (0 <? _)%float. Qed.

(** A snapshot is emitted by the step that stands at the [emit], and by
    no other step. *)
Lemma step_emitted w th :
  emitted (trace (step w th)) = emitted (trace th) ++ emitted_by th.
Proof.
  unfold step, emitted_by.
  destruct (at_pc th) as [| |start|start|start d|start d|start| |e]; cbn [trace];
    rewrite ?emitted_app, ?app_nil_r; try reflexivity.
  - destruct (_is_running (self th)); cbn [trace]; [reflexivity|].
    pose proof (shutdown_quiet (lib w) (gpu_monitor (self th))) as Hq.
    destruct (shutdown _ _) as [t [[]|e]]; cbn [trace fst] in *;
      rewrite ?emitted_app, (quiet_emitted _ Hq); cbn; now rewrite ?app_nil_r.
  - pose proof (map_pids_to_gpus_quiet (lib w) (gpu_monitor (self th))) as Hq.
    destruct (_map_pids_to_gpus _ _) as [t [g|e]]; cbn [trace fst] in *;
      now rewrite emitted_app, (quiet_emitted _ Hq), ?app_nil_r.
  - pose proof (collect_data_quiet w (self th)) as Hq.
    destruct (_collect_data _ _) as [t [[s' d]|e]]; cbn [trace fst] in *;
      now rewrite emitted_app, (quiet_emitted _ Hq), ?app_nil_r.
  - destruct (_is_running (self th)); reflexivity.
  - pose proof (end_of_tick_emitted w (_refresh_interval (self th)) start) as Hq.
    destruct (end_of_tick _ _ _) as [t [[]|e]]; cbn [trace fst] in *;
      now rewrite emitted_app, Hq, ?app_nil_r.
Qed.

(** [_collect_data] does not read the flag: it only carries it along. *)
Lemma collect_data_stop w s :
  _collect_data w (stop s) =
  match _collect_data w s with
  | (t, Ok (s', system_data)) => (t, Ok (stop s', system_data))
  | (t, Raise e) => (t, Raise e)
  end.
Proof.
  unfold _collect_data. cbn [stop _last_cpu_times gpu_monitor _refresh_interval _is_running].
  destruct (_calculate_cpu_percent _ _) as [last' [[total per]|e]]; [|reflexivity].
  cbn -[get_gpu_info collect_processes].
  destruct (collect_processes _ _ _ _) as [processes_data|e]; [|reflexivity].
  cbn -[get_gpu_info].
  destruct (get_gpu_info _ _) as [t [[g' gpu_list]|e]]; reflexivity.
Qed.

(** Away from the two tests of the flag, a call of [stop] and a step of
    the worker can be swapped. *)
Lemma step_stop_commute w th :
  flag_not_read (at_pc th) ->
  step w (perform th Stop) = perform (step w th) Stop.
Proof.
  destruct th as [s p t].
  destruct p as [| |start|start|start d|start d|start| |e]; cbn [flag_not_read at_pc];
    try contradiction; intros _; unfold step, perform; cbn [at_pc self trace];
    try reflexivity.
  - cbn [stop gpu_monitor].
    destruct (_map_pids_to_gpus _ _) as [t' [g|e]]; reflexivity.
  - rewrite collect_data_stop.
    destruct (_collect_data _ _) as [t' [[s' d]|e]]; reflexivity.
  - cbn [stop _refresh_interval].
    destruct (end_of_tick _ _ _) as [t' [[]|e]]; reflexivity.
Qed.

(** The step after [AtRefresh] stands at [AtCollect] or has crashed. *)
Lemma after_refresh_flag_not_read w th start :
  at_pc th = AtRefresh start -> flag_not_read (at_pc (step w th)).
Proof.
  intros Hpc. unfold step. rewrite Hpc.
  destruct (_map_pids_to_gpus _ _) as [t' [g|e]]; exact I.
Qed.

(** A call of [stop] anywhere inside the collection of a tick has the
    effect of a call right after it. *)
Lemma stop_inside_collection th start w_r w_c n :
  at_pc th = AtRefresh start -> (n <= 2)%nat ->
  exec (stop_inserted n [Run w_r; Run w_c]) th
  = perform (exec [Run w_r; Run w_c] th) Stop.
Proof.
  intros Hpc Hn. unfold exec, stop_inserted.
  assert (flag_not_read (at_pc th)) as H0 by now rewrite Hpc.
  pose proof (after_refresh_flag_not_read w_r th start Hpc) as H1.
  destruct n as [|[|[|n]]]; try lia; cbn [take drop app foldl].
  - change (step w_c (step w_r (perform th Stop)) = perform (step w_c (step w_r th)) Stop).
    now rewrite (step_stop_commute w_r th H0), (step_stop_commute w_c _ H1).
  - change (step w_c (perform (step w_r th) Stop) = perform (step w_c (step w_r th)) Stop).
    now rewrite (step_stop_commute w_c _ H1).
  - reflexivity.
Qed.

End Thread.

Section Tick.

Lemma exec_app s1 s2 th : exec (s1 ++ s2) th = exec s2 (exec s1 th).
Proof. apply foldl_app. Qed.

Lemma collect_data_flag w s t s' d :
  _collect_data w s = (t, Ok (s', d)) -> _is_running s' = _is_running s.
Proof.
  unfold _collect_data.
  destruct (_calculate_cpu_percent _ _) as [last' [[total per]|e]]; [|discriminate].
  cbn -[get_gpu_info collect_processes].
  destruct (collect_processes _ _ _ _) as [processes_data|e]; [|discriminate].
  cbn -[get_gpu_info].
  destruct (get_gpu_info _ _) as [t' [[g' gpu_list]|e]]; [|discriminate].
  cbn. intros [= <- <- <-]. reflexivity.
Qed.

(** No step of the worker writes the flag. *)
Lemma step_flag w th : _is_running (self (step w th)) = _is_running (self th).
Proof.
  unfold step.
  destruct (at_pc th) as [| |start|start|start d|start d|start| |e]; cbn [self];
    try reflexivity.
  - destruct (_is_running (self th)) eqn:Hflag; [exact Hflag|].
    destruct (shutdown _ _) as [t [[]|e]]; exact Hflag.
  - destruct (_map_pids_to_gpus _ _) as [t [g|e]]; reflexivity.
  - destruct (_collect_data _ _) as [t [[s' d]|e]] eqn:Hc; cbn [self]; [|reflexivity].
    exact (collect_data_flag _ _ _ _ _ Hc).
  - destruct (_is_running (self th)) eqn:Hflag; exact Hflag.
  - now destruct (end_of_tick _ _ _) as [t [[]|e]].
Qed.

Lemma collect_data_interval w s t s' d :
  _collect_data w s = (t, Ok (s', d)) -> _refresh_interval s' = _refresh_interval s.
Proof.
  unfold _collect_data.
  destruct (_calculate_cpu_percent _ _) as [last' [[total per]|e]]; [|discriminate].
  cbn -[get_gpu_info collect_processes].
  destruct (collect_processes _ _ _ _) as [processes_data|e]; [|discriminate].
  cbn -[get_gpu_info].
  destruct (get_gpu_info _ _) as [t' [[g' gpu_list]|e]]; [|discriminate].
  cbn. intros [= <- <- <-]. reflexivity.
Qed.

(** Nothing writes the refresh interval. *)
Lemma perform_interval a th :
  _refresh_interval (self (perform th a)) = _refresh_interval (self th).
Proof.
  destruct a as [w|]; [|reflexivity]. cbn [perform]. unfold step.
  destruct (at_pc th) as [| |start|start|start d|start d|start| |e]; cbn [self];
    try reflexivity.
  - destruct (_is_running (self th)); [reflexivity|].
    now destruct (shutdown _ _) as [t [[]|e]].
  - destruct (_map_pids_to_gpus _ _) as [t [g|e]]; reflexivity.
  - destruct (_collect_data _ _) as [t [[s' d]|e]] eqn:Hc; cbn [self]; [|reflexivity].
    exact (collect_data_interval _ _ _ _ _ Hc).
  - now destruct (_is_running (self th)).
  - now destruct (end_of_tick _ _ _) as [t [[]|e]].
Qed.

Lemma exec_interval schedule th :
  _refresh_interval (self (exec schedule th)) = _refresh_interval (self th).
Proof.
  revert th. induction schedule as [|a schedule IH]; intros th; [reflexivity|].
  change (exec (a :: schedule) th) with (exec schedule (perform th a)).
  now rewrite IH, perform_interval.
Qed.

(** The test of the [while] on a cleared flag ends [run]. *)
Lemma step_while_stopped w th :
  at_pc th = AtWhile -> _is_running (self th) = false ->
  at_pc (step w th) = Stopped /\
  nvml_calls (trace (step w th))
  = nvml_calls (trace th)
    ++ (if is_available (gpu_monitor (self th)) then [nvmlShutdown_call] else []).
Proof.
  intros Hpc Hflag. unfold step. rewrite Hpc, Hflag, shutdown_cases.
  destruct (is_available _); [destruct (nvmlShutdown _)|]; cbn [at_pc trace];
    (split; [reflexivity|]); unfold nvml_calls; rewrite !omap_app; cbn;
    rewrite ?app_nil_r; reflexivity.
Qed.

End Tick.

Section EndOfTick.

Lemma end_of_tick_outcome w interval start :
  snd (end_of_tick w interval start)
  = if sleep_refused w interval start then Raise OverflowError else Ok tt.
Proof.
  rewrite end_of_tick_cases. unfold sleep_refused. cbv zeta.
  destruct (0 <? _)%float; [|reflexivity]. cbn.
  now destruct (sleep_fits w _).
Qed.

Lemma end_of_tick_calls w interval start :
  nvml_calls (fst (end_of_tick w interval start)) = [].
Proof. rewrite end_of_tick_cases. now destruct (0 <? _)%float. Qed.

(** The step at the sleep. *)
Lemma step_at_sleep w th start :
  at_pc th = AtSleep start ->
  self (step w th) = self th /\
  trace (step w th) = trace th ++ fst (end_of_tick w (_refresh_interval (self th)) start) /\
  at_pc (step w th)
  = if sleep_refused w (_refresh_interval (self th)) start
    then Crashed OverflowError else AtWhile.
Proof.
  intros Hpc. unfold step. rewrite Hpc.
  pose proof (end_of_tick_outcome w (_refresh_interval (self th)) start) as Hout.
  destruct (end_of_tick _ _ _) as [t [[]|e]]; cbn [snd fst self trace at_pc] in *;
    destruct (sleep_refused _ _ _); try discriminate; repeat split.
  now injection Hout as ->.
Qed.

(** A step of the worker inside a tick keeps the clock reading of the
    tick, and leaves the tick only by the sleep or by an exception. *)
Lemma step_in_tick_of t0 n w th :
  in_tick_of t0 (S n) th -> in_tick_of t0 n (step w th).
Proof.
  unfold in_tick_of, step. intros [[Hstart Hn]|[Hnone [Hz|Hhalted]]]; [| lia |].
  - destruct (at_pc th) as [| |start|start|start d|start d|start| |e];
      cbn [start_of_tick steps_to_end_of_tick] in Hstart, Hn; try discriminate.
    + destruct (_map_pids_to_gpus _ _) as [t [g|e]]; cbn; [left; split; [assumption|lia]|].
      right. split; [reflexivity|]. now right.
    + destruct (_collect_data _ _) as [t [[s' d]|e]]; cbn; [left; split; [assumption|lia]|].
      right. split; [reflexivity|]. now right.
    + destruct (_is_running (self th)); cbn; left; (split; [assumption|lia]).
    + cbn. left. split; [assumption|lia].
    + destruct (end_of_tick _ _ _) as [t [[]|e]]; cbn; right; (split; [reflexivity|]).
      * left. lia.
      * now right.
  - destruct (at_pc th) as [| |start|start|start d|start d|start| |e] eqn:Hpc;
      cbn [halted] in Hhalted; try contradiction; rewrite Hpc; right;
      (split; [reflexivity|now right]).
Qed.

Lemma exec_in_tick_of t0 schedule th :
  in_tick_of t0 (worker_steps schedule) th -> in_tick_of t0 0 (exec schedule th).
Proof.
  revert th. induction schedule as [|[w|] schedule IH]; intros th Hin; [exact Hin| |].
  - change (exec (Run w :: schedule) th) with (exec schedule (step w th)).
    apply IH. now apply step_in_tick_of.
  - change (exec (Stop :: schedule) th) with (exec schedule (perform th Stop)).
    apply IH. exact Hin.
Qed.

End EndOfTick.

(** C1, as stated, fails: the worker is in a tick, the refresh runs,
    [stop] is called, the collection runs to its end and produces a
    snapshot, and the two steps that follow (the test of the flag, and
    the step after it) do not emit it. *)
Lemma stop_during_collection_drops_snapshot :
  ~ (forall th start w_r w_c w_e w_g system_data,
        at_pc th = AtRefresh start ->
        at_pc (exec [Run w_r; Stop; Run w_c] th) = AtEmit start system_data ->
        system_data ∈ emitted (trace (exec [Run w_r; Stop; Run w_c; Run w_e; Run w_g] th))).
Proof.
  intros H.
  specialize (H (in_tick 1.5) 10%float
                (machine 10 one_busy_one_idle) (machine 10.1 one_busy_one_idle)
                (machine 10.2 one_busy_one_idle) (machine 10.2 one_busy_one_idle)
                _ eq_refl eq_refl).
  vm_compute in H. inversion H.
Qed.

(** C1 (amended). When [stop] is called at any point of the collection of
    a tick (before the refresh, between the refresh and the collection, or
    right after the collection), the collection still runs to its end and
    produces the snapshot it would have produced, with the same events and
    the same state of the worker apart from the flag.  That snapshot is
    not published: the flag is read again after the collection and the
    snapshot is emitted only if it is still set.  The worker then ends the
    tick.  When the sleep of the tick returns (or none is due), the worker
    leaves the loop at the next test of the [while], where it shuts the
    accessor down (a call of [nvmlShutdown] when the accessor is still
    available); when [time.sleep] refuses the duration, [run] ends on
    [OverflowError] without that call.  Left alone with the flag set, the
    same tick publishes its snapshot. *)
Theorem stop_during_collection_completes_without_emit
    (th : thread) (start : float) (w_r w_c w_e w_s w_x w_g : world) (n : nat)
    (system_data : system_data) :
  at_pc th = AtRefresh start ->
  at_pc (exec [Run w_r; Run w_c] th) = AtEmit start system_data ->
  (n <= 2)%nat ->
  let stopped := stop_inserted n [Run w_r; Run w_c] in
  let finished := exec (stopped ++ [Run w_e; Run w_s; Run w_x]) th in
  at_pc (exec stopped th) = AtEmit start system_data /\
  self (exec stopped th) = stop (self (exec [Run w_r; Run w_c] th)) /\
  trace (exec stopped th) = trace (exec [Run w_r; Run w_c] th) /\
  emitted (trace finished) = emitted (trace th) /\
  (if sleep_refused w_s (_refresh_interval (self th)) start
   then
     at_pc finished = Crashed OverflowError /\
     nvml_calls (trace finished) = nvml_calls (trace (exec [Run w_r; Run w_c] th))
   else
     at_pc finished = Stopped /\
     nvml_calls (trace finished)
     = nvml_calls (trace (exec [Run w_r; Run w_c] th))
       ++ (if is_available (gpu_monitor (self (exec [Run w_r; Run w_c] th)))
           then [nvmlShutdown_call] else [])) /\
  (_is_running (self th) = true ->
   emitted (trace (exec [Run w_r; Run w_c; Run w_e; Run w_g] th))
   = emitted (trace th) ++ [system_data]).
Proof.
  intros Hpc Hdata Hn stopped finished.
  assert (exec stopped th = perform (exec [Run w_r; Run w_c] th) Stop) as Hstopped
      by now apply (stop_inside_collection th start).
  (* what the collection alone emits: nothing *)
  assert (emitted (trace (exec [Run w_r; Run w_c] th)) = emitted (trace th)) as Hquiet.
  { change (exec [Run w_r; Run w_c] th) with (step w_c (step w_r th)).
    assert (emitted_by th = []) as E0 by (unfold emitted_by; now rewrite Hpc).
    assert (emitted_by (step w_r th) = []) as E1.
    { unfold emitted_by, step. rewrite Hpc.
      now destruct (_map_pids_to_gpus _ _) as [t [g|e]]. }
    now rewrite !step_emitted, E0, E1, !app_nil_r. }
  pose proof (exec_interval [Run w_r; Run w_c] th) as Hinterval.
  set (th2 := exec [Run w_r; Run w_c] th) in *.
  split; [now rewrite Hstopped|]. split; [now rewrite Hstopped|].
  split; [now rewrite Hstopped|].
  (* the three steps after the stop *)
  set (th3 := step w_e (perform th2 Stop)).
  assert (at_pc th3 = AtSleep start /\ trace th3 = trace th2
          /\ self th3 = stop (self th2)) as (Hpc3 & Htr3 & Hself3).
  { unfold th3, step. cbn [perform at_pc]. rewrite Hdata. cbn. repeat split. }
  set (th4 := step w_s th3).
  destruct (step_at_sleep w_s th3 start Hpc3) as (Hself4 & Htr4 & Hpc4).
  fold th4 in Hself4, Htr4, Hpc4.
  rewrite Hself3 in Hself4. rewrite Hself3 in Hpc4, Htr4.
  cbn [stop _refresh_interval] in Hpc4, Htr4. rewrite Hinterval in Hpc4, Htr4.
  assert (emitted (trace th4) = emitted (trace th2)) as Hem4.
  { now rewrite Htr4, emitted_app, end_of_tick_emitted, app_nil_r, Htr3. }
  assert (nvml_calls (trace th4) = nvml_calls (trace th2)) as Hcalls4.
  { rewrite Htr4. unfold nvml_calls at 1. rewrite omap_app.
    fold (nvml_calls (trace th3)).
    fold (nvml_calls (fst (end_of_tick w_s (_refresh_interval (self th)) start))).
    now rewrite end_of_tick_calls, app_nil_r, Htr3. }
  assert (finished = step w_x th4) as ->.
  { unfold finished. rewrite exec_app. fold stopped. now rewrite Hstopped. }
  split; [|split].
  - rewrite step_emitted. unfold emitted_by.
    destruct (sleep_refused _ _ _); rewrite Hpc4, app_nil_r, Hem4; exact Hquiet.
  - destruct (sleep_refused _ _ _).
    + unfold step. rewrite Hpc4. split; [exact Hpc4|exact Hcalls4].
    + destruct (step_while_stopped w_x th4 Hpc4) as [Hstop Hshut];
        [now rewrite Hself4|].
      split; [exact Hstop|]. now rewrite Hshut, Hcalls4, Hself4.
  - intros Hflag.
    assert (_is_running (self th2) = true) as Hflag2.
    { unfold th2. change (exec [Run w_r; Run w_c] th) with (step w_c (step w_r th)).
      now rewrite !step_flag. }
    change (exec [Run w_r; Run w_c; Run w_e; Run w_g] th) with (step w_g (step w_e th2)).
    assert (at_pc (step w_e th2) = AtSignal start system_data /\
            trace (step w_e th2) = trace th2) as [Hpc5 Htr5]
      by (unfold step; now rewrite Hdata, Hflag2).
    rewrite step_emitted. unfold emitted_by. now rewrite Hpc5, Htr5, Hquiet.
Qed.

(** [stop] lands between the refresh and the collection of a tick of the
    sample machine. *)
Lemma stop_during_collection_completes_without_emit_witness :
  exists system_data,
    let th := in_tick 1.5 in
    let w_r := machine 10 one_busy_one_idle in
    let w_c := machine 10.1 one_busy_one_idle in
    let w_e := machine 10.2 one_busy_one_idle in
    let stopped := stop_inserted 1 [Run w_r; Run w_c] in
    let finished := exec (stopped ++ [Run w_e; Run w_e; Run w_e]) th in
    at_pc (exec stopped th) = AtEmit 10 system_data /\
    self (exec stopped th) = stop (self (exec [Run w_r; Run w_c] th)) /\
    trace (exec stopped th) = trace (exec [Run w_r; Run w_c] th) /\
    emitted (trace finished) = emitted (trace th) /\
    (if sleep_refused w_e (_refresh_interval (self th)) 10
     then
       at_pc finished = Crashed OverflowError /\
       nvml_calls (trace finished) = nvml_calls (trace (exec [Run w_r; Run w_c] th))
     else
       at_pc finished = Stopped /\
       nvml_calls (trace finished)
       = nvml_calls (trace (exec [Run w_r; Run w_c] th))
         ++ (if is_available (gpu_monitor (self (exec [Run w_r; Run w_c] th)))
             then [nvmlShutdown_call] else [])) /\
    (_is_running (self th) = true ->
     emitted (trace (exec [Run w_r; Run w_c; Run w_e; Run w_e] th))
     = emitted (trace th) ++ [system_data]).
Proof.
  eexists.
  apply (stop_during_collection_completes_without_emit
           (in_tick 1.5) 10%float
           (machine 10 one_busy_one_idle) (machine 10.1 one_busy_one_idle)
           (machine 10.2 one_busy_one_idle) (machine 10.2 one_busy_one_idle)
           (machine 10.2 one_busy_one_idle) (machine 10.2 one_busy_one_idle) 1).
  - reflexivity.
  - vm_compute. reflexivity.
  - lia.
Defined.

(** That tick, evaluated: the baseline of the CPU counters was replaced
    and both accessor methods queried the library, so the collection ran
    to its end; nothing was published; the worker slept for the rest of
    the interval and stopped after releasing the library. *)
Example stopped_tick :
  let w := machine 10.5 one_busy_one_idle in
  let th := exec (stop_inserted 1 [Run w; Run w] ++ [Run w; Run w; Run w]) (in_tick 1.5) in
  at_pc th = Stopped /\
  _last_cpu_times (self th) = one_busy_one_idle /\
  emitted (trace th) = [] /\
  sleeps (trace th) = [1%float] /\
  nvml_calls (trace th)
  = [nvmlDeviceGetCount_call;
     nvmlDeviceGetHandleByIndex_call 0;
     nvmlDeviceGetComputeRunningProcesses_call 10;
     nvmlDeviceGetHandleByIndex_call 1;
     nvmlDeviceGetComputeRunningProcesses_call 11;
     nvmlDeviceGetCount_call;
     nvmlDeviceGetHandleByIndex_call 0;
     nvmlDeviceGetName_call 10;
     nvmlDeviceGetMemoryInfo_call 10;
     nvmlDeviceGetUtilizationRates_call 10;
     nvmlDeviceGetUUID_call 10;
     nvmlDeviceGetHandleByIndex_call 1;
     nvmlDeviceGetName_call 11;
     nvmlDeviceGetMemoryInfo_call 11;
     nvmlDeviceGetUtilizationRates_call 11;
     nvmlDeviceGetUUID_call 11;
     nvmlShutdown_call].
Proof. repeat split; vm_compute; reflexivity. Qed.

(** The same tick of a worker whose interval is not a duration
    [time.sleep] accepts: nothing is published, and [run] ends on
    [OverflowError] at the sleep, without releasing the library. *)
Example stopped_tick_with_endless_interval :
  let w := machine 10.5 one_busy_one_idle in
  let th := exec (stop_inserted 1 [Run w; Run w] ++ [Run w; Run w; Run w])
                 (in_tick infinity) in
  at_pc th = Crashed OverflowError /\
  emitted (trace th) = [] /\
  sleeps (trace th) = [infinity] /\
  Forall is_query (nvml_calls (trace th)).
Proof.
  cbv zeta. split; [vm_compute; reflexivity|]. split; [vm_compute; reflexivity|].
  split; [vm_compute; reflexivity|]. vm_compute. repeat constructor.
Qed.

(** C9. The elapsed time of a tick is measured from the clock reading
    taken right after the test of the [while], before the refresh and the
    collection, to the reading taken after the emission: a worker that
    passed the test in the environment [w_w] and reaches the end of that
    tick carries [time w_w] as the start of the tick, whatever calls of
    [stop] came in between.  In the environment [w_s] it then asks
    [time.sleep] for exactly the refresh interval minus the elapsed time
    when that difference is positive, and is back at the test of the
    [while] when the call returns; [run] ends on [OverflowError] when
    [time.sleep] refuses the duration.  When the elapsed time is at least
    the interval, it records no sleep and no other event and is back at
    the test of the [while].  The worker itself is unchanged either way,
    and no statement between a collection that returned and the sleep
    raises. *)
Theorem tick_sleeps_for_the_remainder
    (th : thread) (w_w w_s : world) (rest : list action) (start : float) :
  at_pc th = AtWhile ->
  (worker_steps rest <= 4)%nat ->
  at_pc (exec (Run w_w :: rest) th) = AtSleep start ->
  let at_sleep := exec (Run w_w :: rest) th in
  let elapsed_time := (time w_s - time w_w)%float in
  let remainder := (_refresh_interval (self th) - elapsed_time)%float in
  start = time w_w /\
  self (step w_s at_sleep) = self at_sleep /\
  ((0 <? remainder)%float = true ->
   trace (step w_s at_sleep) = trace at_sleep ++ [Sleep remainder] /\
   at_pc (step w_s at_sleep)
   = if sleep_fits w_s remainder then AtWhile else Crashed OverflowError) /\
  ((_refresh_interval (self th) <=? elapsed_time)%float = true ->
   trace (step w_s at_sleep) = trace at_sleep /\
   at_pc (step w_s at_sleep) = AtWhile) /\
  (forall th' w' start' system_data,
      (at_pc th' = AtEmit start' system_data ->
       at_pc (step w' th') = AtSignal start' system_data \/
       at_pc (step w' th') = AtSleep start') /\
      (at_pc th' = AtSignal start' system_data -> at_pc (step w' th') = AtSleep start')).
Proof.
  intros Hpc Hsteps Hsleep at_sleep elapsed_time remainder.
  assert (start = time w_w) as ->.
  { assert (in_tick_of (time w_w) 0 at_sleep) as [[Hstart _]|[Hnone _]].
    { unfold at_sleep.
      change (exec (Run w_w :: rest) th) with (exec rest (step w_w th)).
      apply exec_in_tick_of. unfold in_tick_of, step. rewrite Hpc.
      destruct (_is_running (self th)); cbn.
      - left. split; [reflexivity|assumption].
      - right. destruct (shutdown _ _) as [t [[]|e]]; cbn; split; try reflexivity;
          now right. }
    - unfold at_sleep in Hstart. rewrite Hsleep in Hstart. cbn in Hstart. congruence.
    - unfold at_sleep in Hnone. rewrite Hsleep in Hnone. discriminate. }
  split; [reflexivity|].
  destruct (step_at_sleep w_s at_sleep (time w_w) Hsleep) as (Hself & Htrace & Hnext).
  unfold at_sleep in Htrace, Hnext at 2. rewrite exec_interval in Htrace, Hnext.
  fold at_sleep in Htrace. rewrite end_of_tick_cases in Htrace.
  unfold sleep_refused, sleep_time in Htrace, Hnext.
  fold elapsed_time in Htrace, Hnext. fold remainder in Htrace, Hnext.
  cbv zeta in Hnext.
  split; [exact Hself|]. split; [|split].
  - intros Hpos. rewrite Hpos in Htrace, Hnext. cbn [fst andb] in Htrace, Hnext.
    split; [exact Htrace|]. rewrite Hnext. now destruct (sleep_fits w_s remainder).
  - intros Hlate. unfold remainder in Htrace, Hnext.
    rewrite (sub_not_positive _ _ Hlate) in Htrace, Hnext. cbn in Htrace, Hnext.
    rewrite app_nil_r in Htrace. now split.
  - intros th' w' start' system_data. split; intros Hpc'; unfold step; rewrite Hpc'.
    + destruct (_is_running (self th')); [now left|now right].
    + reflexivity.
Qed.

(** The scenario of the specification: the interval is 1.0s and the tick,
    begun at time 10, ends at time 11.3. *)
Lemma tick_sleeps_for_the_remainder_witness :
  let w := machine 10 one_busy_one_idle in
  let th := exec [Run w] (spawn (worker 1)) in
  let at_sleep := exec [Run w; Run w; Run w; Run w; Run w] th in
  let w_s := machine 11.3 one_busy_one_idle in
  let elapsed_time := (11.3 - 10)%float in
  let remainder := (1 - elapsed_time)%float in
  10%float = time w /\
  self (step w_s at_sleep) = self at_sleep /\
  ((0 <? remainder)%float = true ->
   trace (step w_s at_sleep) = trace at_sleep ++ [Sleep remainder] /\
   at_pc (step w_s at_sleep)
   = if sleep_fits w_s remainder then AtWhile else Crashed OverflowError) /\
  ((1 <=? elapsed_time)%float = true ->
   trace (step w_s at_sleep) = trace at_sleep /\
   at_pc (step w_s at_sleep) = AtWhile) /\
  (forall th' w' start' system_data,
      (at_pc th' = AtEmit start' system_data ->
       at_pc (step w' th') = AtSignal start' system_data \/
       at_pc (step w' th') = AtSleep start') /\
      (at_pc th' = AtSignal start' system_data -> at_pc (step w' th') = AtSleep start')).
Proof.
  cbv zeta.
  apply (tick_sleeps_for_the_remainder
           (exec [Run (machine 10 one_busy_one_idle)] (spawn (worker 1)))
           (machine 10 one_busy_one_idle) (machine 11.3 one_busy_one_idle)
           [Run (machine 10 one_busy_one_idle); Run (machine 10 one_busy_one_idle);
            Run (machine 10 one_busy_one_idle); Run (machine 10 one_busy_one_idle)]
           10%float).
  - reflexivity.
  - cbn. lia.
  - vm_compute. reflexivity.
Defined.

(** An overrun of 0.3s: no sleep.  A collection of 0.25s against an
    interval of 1.5s: a sleep of 1.25s. *)
Example overrun_does_not_sleep :
  sleeps (trace (step (machine 11.3 one_busy_one_idle) (at_end_of_tick 1))) = [].
Proof. vm_compute. reflexivity. Qed.

Example short_tick_sleeps :
  sleeps (trace (step (machine 10.25 one_busy_one_idle) (at_end_of_tick 1.5)))
  = [1.25%float].
Proof. vm_compute. reflexivity. Qed.

(** The sample worker is the one the constructor builds on the sample
    machine. *)
Example worker_is_built :
  SystemMonitor_init 1.5 true (machine 0 idle_start)
  = ([Nvml nvmlInit_call;
      Log INFO "nvidia-ml-py (pynvml) initialized successfully. GPU monitoring enabled."],
     Ok (worker 1.5)).
Proof. reflexivity. Qed.

(** [run] left alone on the sample machine never leaves the loop: after
    the log record and three whole ticks it is back at the test of the
    [while], having published three snapshots. *)
Example run_three_ticks :
  let w := machine 10 one_busy_one_idle in
  let th := run (w :: concat (replicate 3 [w; w; w; w; w; w])) (worker 1.5) in
  at_pc th = AtWhile /\ length (emitted (trace th)) = 3%nat.
Proof. split; vm_compute; reflexivity. Qed.

(** The tick of the sample machine, left alone, publishes one snapshot:
    25% of total CPU, two GPUs, and 150MB of GPU memory for the python
    process. *)
Example sample_tick_publishes :
  exists d,
    emitted (trace (at_end_of_tick 1.5)) = [d] /\
    cpu_total_percent (cpu d) = 25%float /\
    cpu_per_cpu_percent (cpu d) = [100%float; 0%float] /\
    length (gpu d) = 2%nat /\
    pd_gpu_memory_bytes <$> processes d = [150 * MB] /\
    pd_command <$> processes d = ["python train.py"].
Proof. eexists. split; [vm_compute; reflexivity|]. repeat split; vm_compute; reflexivity. Qed.

(** * A run whose accessor was built disabled *)

Section RunsWithoutGpu.

Lemma nvml_calls_app t1 t2 : nvml_calls (t1 ++ t2) = nvml_calls t1 ++ nvml_calls t2.
Proof. apply omap_app. Qed.

Lemma collect_processes_no_gpu ram_total g procs acc l :
  (forall pid0, get_process_gpu_memory g pid0 = 0) ->
  collect_processes ram_total g procs acc = Ok l ->
  Forall (fun p => pd_gpu_memory_bytes p = 0) acc ->
  Forall (fun p => pd_gpu_memory_bytes p = 0) l.
Proof.
  intros Hg. revert acc. induction procs as [|[pinfo|e] procs IH]; intros acc Hl Hacc.
  - cbn in Hl. now injection Hl as <-.
  - cbn [collect_processes] in Hl.
    destruct (process_record ram_total g pinfo) as [d|e] eqn:Hd; [|discriminate].
    cbn [res_bind] in Hl. apply (IH _ Hl). apply Forall_app. split; [assumption|].
    constructor; [|constructor].
    unfold process_record in Hd.
    destruct (info_memory_info pinfo); [|discriminate]. cbn [res_bind] in Hd.
    destruct (memory_percent _ _); [|discriminate]. cbn in Hd.
    injection Hd as <-. apply Hg.
  - cbn [collect_processes] in Hl. now apply (IH _ Hl).
Qed.

(** The collection on a disabled accessor queries nothing and reports no
    GPU data. *)
Lemma collect_data_disabled w s :
  gpu_monitor s = disabled_gpu ->
  match _collect_data w s with
  | (t, Ok (s', d)) => t = [] /\ gpu_monitor s' = disabled_gpu /\ no_gpu_data d
  | (t, Raise _) => t = []
  end.
Proof.
  intros Hg. unfold _collect_data. rewrite Hg.
  destruct (_calculate_cpu_percent _ _) as [last' [[total per]|e]]; [|reflexivity].
  cbn -[get_gpu_info collect_processes].
  destruct (collect_processes _ _ _ _) as [processes_data|e] eqn:Hprocs; [|reflexivity].
  cbn. split; [reflexivity|]. split; [reflexivity|]. split; [reflexivity|]. cbn.
  apply (collect_processes_no_gpu _ disabled_gpu _ _ _ (fun _ => eq_refl) Hprocs).
  constructor.
Qed.

Lemma step_runs_without_gpu w th :
  runs_without_gpu th -> runs_without_gpu (step w th).
Proof.
  intros (Hg & Hcalls & Hemitted & Hpending). unfold runs_without_gpu.
  rewrite step_emitted. unfold emitted_by, step.
  destruct (at_pc th) as [| |start|start|start d|start d|start| |e] eqn:Hpc;
    cbn [self at_pc trace].
  - rewrite nvml_calls_app, Hcalls, !app_nil_r. repeat split; assumption.
  - destruct (_is_running (self th)); cbn [self at_pc trace].
    + rewrite app_nil_r. repeat split; assumption.
    + rewrite shutdown_cases, Hg. cbn [disabled_gpu is_available self at_pc trace].
      rewrite nvml_calls_app, Hcalls, !app_nil_r. repeat split; assumption.
  - rewrite (map_pids_to_gpus_disabled _ _ (f_equal is_available Hg)).
    cbn [self at_pc trace with_gpu_monitor gpu_monitor].
    rewrite !app_nil_r. repeat split; assumption.
  - pose proof (collect_data_disabled w (self th) Hg) as Hc.
    destruct (_collect_data w (self th)) as [t [[s' d]|e]]; cbn [self at_pc trace].
    + destruct Hc as (-> & Hg' & Hd). rewrite !app_nil_r. repeat split; try assumption; apply Hd.
    + subst t. rewrite !app_nil_r. repeat split; assumption.
  - rewrite app_nil_r.
    destruct (_is_running (self th)); cbn [self at_pc trace];
      (split; [assumption|]); (split; [assumption|]); (split; [assumption|]);
      [exact Hpending|exact I].
  - split; [assumption|]. split; [now rewrite nvml_calls_app, Hcalls|].
    split; [|exact I]. apply Forall_app. split; [assumption|].
    repeat constructor; apply Hpending.
  - pose proof (end_of_tick_calls w (_refresh_interval (self th)) start) as Hq.
    destruct (end_of_tick _ _ _) as [t [[]|e]]; cbn [self at_pc trace fst] in *;
      rewrite nvml_calls_app, Hcalls, Hq, !app_nil_r; repeat split; assumption.
  - rewrite app_nil_r, Hpc. repeat split; assumption.
  - rewrite app_nil_r, Hpc. repeat split; assumption.
Qed.

Lemma exec_runs_without_gpu schedule th :
  runs_without_gpu th -> runs_without_gpu (exec schedule th).
Proof.
  revert th. induction schedule as [|[w|] schedule IH]; intros th Hth; cbn.
  - assumption.
  - apply IH. now apply step_runs_without_gpu.
  - apply IH. exact Hth.
Qed.

End RunsWithoutGpu.

(** C7. When the library is absent or [nvmlInit] fails, the accessor is
    built disabled with an empty map, and whatever operations follow, with
    whatever answers the library would give: every listing returns the
    empty list and every lookup 0, the accessor does not change, and the
    whole life of the accessor makes no NVML call besides the one failed
    [nvmlInit] (none at all when the library is absent).  The same holds
    of the worker built on that accessor, under every schedule of its
    steps and of calls of [stop]: its run makes no NVML call, and no
    snapshot it publishes lists a device or attributes GPU memory to a
    process. *)
Theorem init_failure_disables_for_good
    (PYNXML_AVAILABLE : bool) (w0 : world) (ops : list gpu_op)
    (refresh_interval : float) (schedule : list action) :
  PYNXML_AVAILABLE = false \/ (exists msg, nvmlInit (lib w0) = NVML_ERROR msg) ->
  exists t g rs s,
    GPUMonitor_init PYNXML_AVAILABLE (lib w0) = (t, Ok g) /\
    is_available g = false /\
    (forall lib', get_gpu_info lib' g = ([], Ok (g, []))) /\
    (forall x, get_process_gpu_memory g x = 0) /\
    run_ops ops g = ([], Ok (g, rs)) /\
    Forall empty_result rs /\
    gpu_session PYNXML_AVAILABLE (lib w0) ops = (t, Ok (g, rs)) /\
    nvml_calls t = (if PYNXML_AVAILABLE then [nvmlInit_call] else []) /\
    SystemMonitor_init refresh_interval PYNXML_AVAILABLE w0 = (t, Ok s) /\
    gpu_monitor s = g /\
    runs_without_gpu (exec schedule (spawn s)).
Proof.
  intros Hfail.
  assert (exists t,
             GPUMonitor_init PYNXML_AVAILABLE (lib w0) = (t, Ok disabled_gpu) /\
             nvml_calls t = (if PYNXML_AVAILABLE then [nvmlInit_call] else []))
    as (t & Hinit & Hcalls).
  { unfold GPUMonitor_init, call. destruct PYNXML_AVAILABLE.
    - destruct Hfail as [?|[msg ->]]; [discriminate|]. cbn. eauto.
    - cbn. eauto. }
  assert (run_ops ops disabled_gpu = ([], Ok (disabled_gpu, disabled_result disabled_gpu <$> ops)))
    as Hrun by now apply run_ops_disabled.
  eexists t, disabled_gpu, _, _.
  split; [exact Hinit|]. split; [reflexivity|].
  split; [intros lib'; now apply get_gpu_info_disabled|].
  split; [intros x; reflexivity|]. split; [exact Hrun|].
  split; [|split; [|split; [exact Hcalls|split; [|split]]]].
  - apply Forall_fmap, Forall_forall. intros [lib'|lib'|pid0|lib'] _; cbn; reflexivity.
  - unfold gpu_session. rewrite Hinit, eff_bind_ok, Hrun. cbn. now rewrite app_nil_r.
  - unfold SystemMonitor_init. rewrite Hinit, eff_bind_ok. cbn. now rewrite app_nil_r.
  - reflexivity.
  - apply exec_runs_without_gpu. repeat split; constructor.
Qed.

(** The driver is not loaded: [nvmlInit] fails.  A refresh, a listing, a
    lookup and a shutdown follow against a library that would answer; and
    the worker runs one whole tick on the sample machine and is stopped. *)
Lemma init_failure_disables_for_good_witness :
  exists t g rs s,
    let w0 := {| time := 0; sleep_fits := fits_nanoseconds; lib := failing_lib;
                 virtual_memory := virtual_memory (machine 0 idle_start);
                 cpu_times := idle_start;
                 process_iter := process_iter (machine 0 idle_start);
                 cpu_count_physical := Some 2; cpu_count_logical := Some 2 |} in
    let ops := [Refresh two_gpus; ListDevices two_gpus; ProcessMemory 7; Shutdown two_gpus] in
    let w := machine 10 one_busy_one_idle in
    let schedule := [Run w; Run w; Run w; Run w; Run w; Run w; Run w; Stop; Run w] in
    GPUMonitor_init true (lib w0) = (t, Ok g) /\
    is_available g = false /\
    (forall lib', get_gpu_info lib' g = ([], Ok (g, []))) /\
    (forall x, get_process_gpu_memory g x = 0) /\
    run_ops ops g = ([], Ok (g, rs)) /\
    Forall empty_result rs /\
    gpu_session true (lib w0) ops = (t, Ok (g, rs)) /\
    nvml_calls t = [nvmlInit_call] /\
    SystemMonitor_init 1.5 true w0 = (t, Ok s) /\
    gpu_monitor s = g /\
    runs_without_gpu (exec schedule (spawn s)).
Proof.
  apply (init_failure_disables_for_good true
           {| time := 0; sleep_fits := fits_nanoseconds; lib := failing_lib;
              virtual_memory := virtual_memory (machine 0 idle_start);
              cpu_times := idle_start;
              process_iter := process_iter (machine 0 idle_start);
              cpu_count_physical := Some 2; cpu_count_logical := Some 2 |}).
  right. exists "Driver Not Loaded". reflexivity.
Defined.

(** That run, evaluated: one snapshot is published, without GPU data, and
    the worker stops without having called NVML after the failed
    [nvmlInit]. *)
Example run_without_driver :
  let w0 := {| time := 0; sleep_fits := fits_nanoseconds; lib := failing_lib;
               virtual_memory := virtual_memory (machine 0 idle_start);
               cpu_times := idle_start;
               process_iter := process_iter (machine 0 idle_start);
               cpu_count_physical := Some 2; cpu_count_logical := Some 2 |} in
  let w := machine 10 one_busy_one_idle in
  exists t s,
    SystemMonitor_init 1.5 true w0 = (t, Ok s) /\
    let th := exec [Run w; Run w; Run w; Run w; Run w; Run w; Run w; Stop; Run w] (spawn s) in
    at_pc th = Stopped /\
    nvml_calls (t ++ trace th) = [nvmlInit_call] /\
    (gpu <$> emitted (trace th)) = [[]] /\
    ((fun d => pd_gpu_memory_bytes <$> processes d) <$> emitted (trace th)) = [[0]].
Proof. eexists _, _. split; [reflexivity|]. repeat split; vm_compute; reflexivity. Qed.

(** * The memory percent of a process *)

Section MemoryPercent.

Lemma int_truediv_zero_dividend b : 0 < b -> Py.int_truediv 0 b = Ok 0%float.
Proof.
  intros Hb. unfold Py.int_truediv.
  destruct (Z.eqb_spec b 0) as [->|_]; [lia|].
  destruct b as [|p|p]; try lia. reflexivity.
Qed.

Lemma int_truediv_no_zero_division a b :
  b <> 0 -> Py.int_truediv a b <> Raise ZeroDivisionError.
Proof.
  intros Hb. unfold Py.int_truediv.
  destruct (Z.eqb_spec b 0) as [->|_]; [contradiction|].
  destruct (SFdiv _ _ _ _); discriminate.
Qed.

Lemma memory_percent_no_zero_division ram_total rss0 :
  memory_percent ram_total rss0 <> Raise ZeroDivisionError.
Proof.
  unfold memory_percent.
  destruct (Z.eqb_spec ram_total 0) as [->|Hne]; [discriminate|].
  pose proof (int_truediv_no_zero_division rss0 ram_total Hne) as Hdiv.
  destruct (Py.int_truediv rss0 ram_total) as [q|e]; cbn; [discriminate|congruence].
Qed.

(** No exception at all for a resident size below [2 ^ 1023] bytes. *)
Lemma memory_percent_ok ram_total rss0 :
  Z.abs rss0 < 2 ^ 1023 -> exists x, memory_percent ram_total rss0 = Ok x.
Proof.
  intros Hrss. unfold memory_percent.
  destruct (Z.eqb_spec ram_total 0) as [->|Hne]; [eauto|].
  destruct (int_truediv_ok rss0 ram_total Hne Hrss) as [q ->]. cbn. eauto.
Qed.

End MemoryPercent.

(** C10. For a process whose resident memory could be read: when the total
    RAM is 0, or when it is positive and the resident memory is 0, the
    memory percent is the integer 0 and building the record of the process
    raises nothing.  Whatever the two numbers are, the computation of the
    memory percent never raises a division error, and it raises nothing
    at all when the resident memory is below [2 ^ 1023] bytes. *)
Theorem memory_percent_zero_cases
    (ram_total : Z) (g : GPUMonitor) (pinfo : pinfo) (m : pmem) :
  info_memory_info pinfo = Some m ->
  ram_total = 0 \/ (0 < ram_total /\ rss m = 0) ->
  memory_percent ram_total (rss m) = Ok (PyInt 0) /\
  (exists d, process_record ram_total g pinfo = Ok d /\
             pd_memory_bytes d = rss m /\
             pd_memory_percent d = PyInt 0) /\
  (forall total' rss', memory_percent total' rss' <> Raise ZeroDivisionError) /\
  (forall total' rss',
      Z.abs rss' < 2 ^ 1023 -> exists x, memory_percent total' rss' = Ok x).
Proof.
  intros Hmem Hcase.
  assert (memory_percent ram_total (rss m) = Ok (PyInt 0)) as Hzero.
  { unfold memory_percent. destruct Hcase as [->|[Hpos ->]]; [reflexivity|].
    destruct (Z.eqb_spec ram_total 0) as [->|_]; [lia|].
    now rewrite (int_truediv_zero_dividend _ Hpos). }
  split; [exact Hzero|]. split.
  - unfold process_record. rewrite Hmem. cbn [res_bind]. rewrite Hzero. cbn. eauto.
  - split; [exact memory_percent_no_zero_division|exact memory_percent_ok].
Qed.

(** A process with no resident memory on the machine with 16GB of RAM. *)
Lemma memory_percent_zero_cases_witness :
  memory_percent (16384 * MB) 0 = Ok (PyInt 0) /\
  (exists d, process_record (16384 * MB) enabled_gpu swapped_out_process = Ok d /\
             pd_memory_bytes d = 0 /\
             pd_memory_percent d = PyInt 0) /\
  (forall total' rss', memory_percent total' rss' <> Raise ZeroDivisionError) /\
  (forall total' rss',
      Z.abs rss' < 2 ^ 1023 -> exists x, memory_percent total' rss' = Ok x).
Proof.
  apply (memory_percent_zero_cases (16384 * MB) enabled_gpu swapped_out_process
                                   {| rss := 0 |}).
  - reflexivity.
  - right. split; [reflexivity|reflexivity].
Defined.

(** No RAM reported at all, and an ordinary process. *)
Example memory_percent_without_ram :
  process_record 0 enabled_gpu python_process
  = Ok {| pd_pid := 7; pd_name := "python"; pd_cpu_percent := 12.5;
          pd_memory_bytes := 512 * MB; pd_memory_percent := PyInt 0;
          pd_gpu_memory_bytes := 0; pd_command := "python train.py" |}.
Proof. reflexivity. Qed.

Example memory_percent_ordinary :
  memory_percent (16384 * MB) (512 * MB) = Ok (PyFloat 3.125).
Proof. reflexivity. Qed.

(** * Whole runs of the worker *)

Section Runs.

Lemma exec_cons a schedule th : exec (a :: schedule) th = exec schedule (perform th a).
Proof. reflexivity. Qed.

Lemma perform_flag_false a th :
  _is_running (self th) = false -> _is_running (self (perform th a)) = false.
Proof. destruct a as [w|]; cbn [perform]; [now rewrite step_flag|reflexivity]. Qed.

Lemma exec_flag_false schedule th :
  _is_running (self th) = false -> _is_running (self (exec schedule th)) = false.
Proof.
  revert th. induction schedule as [|a schedule IH]; intros th Hflag; [assumption|].
  rewrite exec_cons. apply IH. now apply perform_flag_false.
Qed.

(** Once the flag is cleared, the test that guards [emit] lets nothing
    through: only a worker that already stands at the [emit] publishes. *)
Lemma step_emitted_by_stopped w th :
  _is_running (self th) = false -> emitted_by (step w th) = [].
Proof.
  intros Hflag. unfold emitted_by, step.
  destruct (at_pc th) as [| |start|start|start d|start d|start| |e] eqn:Hpc;
    cbn [at_pc]; try reflexivity.
  - rewrite Hflag. now destruct (shutdown _ _) as [t [[]|e]].
  - now destruct (_map_pids_to_gpus _ _) as [t [g|e]].
  - now destruct (_collect_data _ _) as [t [[s' d]|e]].
  - now rewrite Hflag.
  - now destruct (end_of_tick _ _ _) as [t [[]|e]].
  - now rewrite Hpc.
  - now rewrite Hpc.
Qed.

Lemma exec_emitted_stopped schedule th :
  _is_running (self th) = false ->
  emitted (trace (exec schedule th))
  = emitted (trace th)
    ++ match worker_steps schedule with O => [] | S _ => emitted_by th end.
Proof.
  revert th. induction schedule as [|[w|] schedule IH]; intros th Hflag.
  - cbn. now rewrite app_nil_r.
  - rewrite exec_cons. cbn [perform worker_steps].
    rewrite IH by now rewrite step_flag.
    rewrite (step_emitted_by_stopped w th Hflag), step_emitted.
    destruct (worker_steps schedule); now rewrite app_nil_r.
  - rewrite exec_cons. cbn [worker_steps]. now rewrite (IH (perform th Stop)).
Qed.

End Runs.

(** X1. A call of [stop] lets at most one more snapshot through: the one
    of a worker that had already passed the test [if self._is_running:]
    and stood at the [emit] when [stop] was called; it is published by the
    next step of the worker.  In every other case no snapshot is
    published after the call, whatever the worker and other callers of
    [stop] do afterwards; and the flag stays cleared. *)
Theorem stop_lets_at_most_one_snapshot_through (th : thread) (schedule : list action) :
  emitted (trace (exec (Stop :: schedule) th))
  = emitted (trace th)
    ++ match worker_steps schedule with O => [] | S _ => emitted_by th end /\
  ((forall start system_data, at_pc th <> AtSignal start system_data) ->
   emitted (trace (exec (Stop :: schedule) th)) = emitted (trace th)) /\
  _is_running (self (exec (Stop :: schedule) th)) = false.
Proof.
  rewrite exec_cons.
  assert (emitted (trace (exec schedule (perform th Stop)))
          = emitted (trace th)
            ++ match worker_steps schedule with O => [] | S _ => emitted_by th end) as Hem
    by now rewrite exec_emitted_stopped.
  split; [exact Hem|]. split.
  - intros Hpc. rewrite Hem. unfold emitted_by.
    destruct (at_pc th) as [| |start|start|start d|start d|start| |e];
      try (destruct (worker_steps schedule); now rewrite app_nil_r).
    now destruct (Hpc start d).
  - now apply exec_flag_false.
Qed.

(** [stop] is called right after the worker of the sample machine passed
    the test of the flag: the snapshot of the tick is still published. *)
Example snapshot_published_after_stop :
  let w := machine 10 one_busy_one_idle in
  let th := exec [Run w; Run w; Run w] (in_tick 1.5) in
  (exists d, at_pc th = AtSignal 10 d /\
             emitted (trace th) = [] /\
             emitted (trace (exec [Stop; Run w] th)) = [d]) /\
  at_pc (exec [Stop; Run w; Run w; Run w] th) = Stopped.
Proof. split; [eexists; repeat split|]; vm_compute; reflexivity. Qed.

Section Leaving.

Lemma step_progress w th :
  _is_running (self th) = false ->
  (steps_to_exit (at_pc (step w th)) <= pred (steps_to_exit (at_pc th)))%nat.
Proof.
  intros Hflag. unfold step.
  destruct (at_pc th) as [| |start|start|start d|start d|start| |e] eqn:Hpc;
    cbn [at_pc steps_to_exit pred]; try lia.
  - rewrite Hflag, shutdown_cases.
    destruct (is_available _); [destruct (nvmlShutdown _)|]; cbn; lia.
  - destruct (_map_pids_to_gpus _ _) as [t [g|e]]; cbn; lia.
  - destruct (_collect_data _ _) as [t [[s' d]|e]]; cbn; lia.
  - rewrite Hflag. cbn. lia.
  - destruct (end_of_tick _ _ _) as [t [[]|e]]; cbn; lia.
  - rewrite Hpc. cbn. lia.
  - rewrite Hpc. cbn. lia.
Qed.

Lemma exec_progress schedule th :
  _is_running (self th) = false ->
  (steps_to_exit (at_pc (exec schedule th))
   <= steps_to_exit (at_pc th) - worker_steps schedule)%nat.
Proof.
  revert th. induction schedule as [|[w|] schedule IH]; intros th Hflag.
  - cbn. lia.
  - rewrite exec_cons. cbn [perform worker_steps].
    pose proof (step_progress w th Hflag).
    pose proof (IH (step w th) ltac:(now rewrite step_flag)). lia.
  - rewrite exec_cons. cbn [worker_steps]. apply (IH (perform th Stop)). reflexivity.
Qed.

Lemma steps_to_exit_halted p : steps_to_exit p = 0%nat -> halted p.
Proof. destruct p; cbn; try discriminate; intros _; exact I. Qed.

(** Outside a collection, the only statement that can still raise on a
    stopped worker is the sleep. *)
Lemma step_outside_collection w th :
  _is_running (self th) = false ->
  outside_collection (at_pc th) \/ at_pc th = Crashed OverflowError ->
  outside_collection (at_pc (step w th)) \/ at_pc (step w th) = Crashed OverflowError.
Proof.
  intros Hflag [Hout|Hpc].
  - unfold step.
    destruct (at_pc th) as [| |start|start|start d|start d|start| |e] eqn:Hpc;
      cbn [at_pc outside_collection] in *; try contradiction; try (left; exact I).
    + rewrite Hflag, shutdown_cases.
      destruct (is_available _); [destruct (nvmlShutdown _)|]; left; exact I.
    + rewrite Hflag. left. exact I.
    + pose proof (end_of_tick_outcome w (_refresh_interval (self th)) start) as Hend.
      destruct (end_of_tick _ _ _) as [t [[]|e]]; cbn [at_pc snd] in *; [left; exact I|].
      right. destruct (sleep_refused _ _ _); congruence.
    + rewrite Hpc. left. exact I.
  - right. unfold step. now rewrite Hpc.
Qed.

Lemma exec_outside_collection schedule th :
  _is_running (self th) = false ->
  outside_collection (at_pc th) \/ at_pc th = Crashed OverflowError ->
  outside_collection (at_pc (exec schedule th)) \/
  at_pc (exec schedule th) = Crashed OverflowError.
Proof.
  revert th. induction schedule as [|[w|] schedule IH]; intros th Hflag Hout.
  - assumption.
  - rewrite exec_cons. cbn [perform]. apply IH; [now rewrite step_flag|].
    now apply step_outside_collection.
  - rewrite exec_cons. now apply IH.
Qed.

(** Before the first statement of a tick nothing raises. *)
Lemma step_before_tick w th :
  _is_running (self th) = false ->
  before_tick (at_pc th) -> before_tick (at_pc (step w th)).
Proof.
  intros Hflag. unfold step.
  destruct (at_pc th) as [| |start|start|start d|start d|start| |e] eqn:Hpc;
    cbn [at_pc before_tick]; try contradiction; intros _; try exact I.
  - rewrite Hflag, shutdown_cases.
    destruct (is_available _); [destruct (nvmlShutdown _)|]; exact I.
  - rewrite Hpc. exact I.
Qed.

Lemma exec_before_tick schedule th :
  _is_running (self th) = false ->
  before_tick (at_pc th) -> before_tick (at_pc (exec schedule th)).
Proof.
  revert th. induction schedule as [|[w|] schedule IH]; intros th Hflag Hout.
  - assumption.
  - rewrite exec_cons. cbn [perform]. apply IH; [now rewrite step_flag|].
    now apply step_before_tick.
  - rewrite exec_cons. now apply IH.
Qed.

End Leaving.

(** X2. Stopping takes effect within five steps of the worker: after a
    call of [stop] and any schedule in which the worker takes at least
    five steps, [run] has returned or raised.  When the call of [stop]
    did not land inside a collection, [run] has returned, or it has
    raised the [OverflowError] of a sleep that [time.sleep] refused; when
    the call landed before the first statement of a tick, [run] has
    returned. *)
Theorem stop_takes_effect_within_five_steps (th : thread) (schedule : list action) :
  (5 <= worker_steps schedule)%nat ->
  halted (at_pc (exec (Stop :: schedule) th)) /\
  (outside_collection (at_pc th) ->
   at_pc (exec (Stop :: schedule) th) = Stopped \/
   at_pc (exec (Stop :: schedule) th) = Crashed OverflowError) /\
  (before_tick (at_pc th) -> at_pc (exec (Stop :: schedule) th) = Stopped).
Proof.
  intros Hsteps. rewrite exec_cons.
  pose proof (exec_progress schedule (perform th Stop) eq_refl) as Hprogress.
  assert (steps_to_exit (at_pc (exec schedule (perform th Stop))) = 0%nat) as Hzero.
  { assert (steps_to_exit (at_pc (perform th Stop)) <= 5)%nat
      by (cbn [perform at_pc]; destruct (at_pc th); cbn; lia).
    lia. }
  split; [now apply steps_to_exit_halted|]. split.
  - intros Hout.
    destruct (exec_outside_collection schedule (perform th Stop) eq_refl (or_introl Hout))
      as [Hout'|Hcrashed]; [|now right].
    left. destruct (at_pc (exec schedule (perform th Stop))); cbn in *;
      try discriminate; try contradiction; reflexivity.
  - intros Hbefore.
    pose proof (exec_before_tick schedule (perform th Stop) eq_refl Hbefore) as Hbefore'.
    destruct (at_pc (exec schedule (perform th Stop))); cbn in *;
      try discriminate; try contradiction; reflexivity.
Qed.

(** [stop] lands between the refresh and the collection of a tick of the
    sample machine; five steps later [run] has returned. *)
Lemma stop_takes_effect_within_five_steps_witness :
  let w := machine 10.5 one_busy_one_idle in
  let th := exec [Run w] (in_tick 1.5) in
  halted (at_pc (exec (Stop :: [Run w; Run w; Run w; Run w; Run w]) th)) /\
  (outside_collection (at_pc th) ->
   at_pc (exec (Stop :: [Run w; Run w; Run w; Run w; Run w]) th) = Stopped \/
   at_pc (exec (Stop :: [Run w; Run w; Run w; Run w; Run w]) th) = Crashed OverflowError) /\
  (before_tick (at_pc th) ->
   at_pc (exec (Stop :: [Run w; Run w; Run w; Run w; Run w]) th) = Stopped).
Proof.
  cbv zeta.
  apply (stop_takes_effect_within_five_steps
           (exec [Run (machine 10.5 one_busy_one_idle)] (in_tick 1.5))).
  cbn. lia.
Defined.

(** [stop] lands at the sleep of a worker whose interval [time.sleep]
    refuses: [run] raises instead of returning. *)
Example stop_at_refused_sleep :
  let w := machine 10 one_busy_one_idle in
  let th := at_end_of_tick infinity in
  at_pc th = AtSleep 10 /\
  at_pc (exec [Stop; Run w; Run w; Run w; Run w; Run w] th) = Crashed OverflowError.
Proof. split; vm_compute; reflexivity. Qed.

Section Discipline.

Ltac queries :=
  repeat first
    [ apply eff_ret_all | apply log_all; intros; exact I | apply lift_res_all
    | apply call_all; exact I
    | apply try_except_all; [|intros ?]
    | apply eff_fold_all; intros ? ?
    | apply eff_bind_all; [|intros ?] ].

(** A refresh and a listing only query devices and log. *)
Lemma map_pids_to_gpus_queries lib g : Forall query_or_log (fst (_map_pids_to_gpus lib g)).
Proof.
  unfold _map_pids_to_gpus, map_pids_body. destruct (negb (is_available g)); queries.
Qed.

Lemma get_gpu_info_queries lib g : Forall query_or_log (fst (get_gpu_info lib g)).
Proof.
  unfold get_gpu_info, gpu_info_body. destruct (negb (is_available g)); queries.
Qed.

Lemma collect_data_queries w s : Forall query_or_log (fst (_collect_data w s)).
Proof.
  unfold _collect_data.
  destruct (_calculate_cpu_percent _ _) as [last' cpu_result].
  apply eff_bind_all; [apply lift_res_all|]. intros [total per].
  apply eff_bind_all; [apply lift_res_all|]. intros processes_data.
  apply eff_bind_all; [apply get_gpu_info_queries|].
  intros [g' gpu_list]. apply eff_ret_all.
Qed.

Lemma queries_calls t : Forall query_or_log t -> Forall is_query (nvml_calls t).
Proof.
  induction 1 as [|e t He _ IH]; [constructor|].
  destruct e; cbn in *; try contradiction; try assumption. now constructor.
Qed.

Lemma step_calls w th :
  exists queries,
    Forall is_query queries /\
    (nvml_calls (trace (step w th)) = nvml_calls (trace th) ++ queries \/
     (at_pc th = AtWhile /\ _is_running (self th) = false /\
      at_pc (step w th) = Stopped /\
      nvml_calls (trace (step w th)) = nvml_calls (trace th) ++ [nvmlShutdown_call])).
Proof.
  unfold step.
  destruct (at_pc th) as [| |start|start|start d|start d|start| |e] eqn:Hpc;
    cbn [trace at_pc].
  - exists []. split; [constructor|]. left. rewrite nvml_calls_app. reflexivity.
  - destruct (_is_running (self th)) eqn:Hflag; cbn [trace at_pc].
    + exists []. split; [constructor|]. left. now rewrite app_nil_r.
    + rewrite shutdown_cases.
      destruct (is_available _); [destruct (nvmlShutdown _)|]; cbn [trace at_pc];
        exists []; (split; [constructor|]); rewrite !nvml_calls_app; cbn;
        rewrite ?app_nil_r; auto.
  - pose proof (map_pids_to_gpus_queries (lib w) (gpu_monitor (self th))) as Hq.
    destruct (_map_pids_to_gpus _ _) as [t [g|e]]; cbn [trace fst] in *;
      exists (nvml_calls t); (split; [now apply queries_calls|]);
      left; apply nvml_calls_app.
  - pose proof (collect_data_queries w (self th)) as Hq.
    destruct (_collect_data _ _) as [t [[s' d]|e]]; cbn [trace fst] in *;
      exists (nvml_calls t); (split; [now apply queries_calls|]);
      left; apply nvml_calls_app.
  - exists []. split; [constructor|]. left. rewrite app_nil_r.
    now destruct (_is_running (self th)).
  - exists []. split; [constructor|]. left. now rewrite nvml_calls_app.
  - exists []. split; [constructor|]. left.
    pose proof (end_of_tick_calls w (_refresh_interval (self th)) start) as Hq.
    destruct (end_of_tick _ _ _) as [t [[]|e]]; cbn [trace fst] in *;
      now rewrite nvml_calls_app, Hq.
  - exists []. split; [constructor|]. left. now rewrite app_nil_r.
  - exists []. split; [constructor|]. left. now rewrite app_nil_r.
Qed.

(** The invariant behind [queries_then_release]: until [run] returns, no
    release has been made. *)
Lemma perform_queries_then_release a th :
  (exists queries,
      Forall is_query queries /\
      ((at_pc th <> Stopped /\ nvml_calls (trace th) = queries) \/
       (at_pc th = Stopped /\
        (nvml_calls (trace th) = queries \/
         nvml_calls (trace th) = queries ++ [nvmlShutdown_call])))) ->
  exists queries,
    Forall is_query queries /\
    ((at_pc (perform th a) <> Stopped /\ nvml_calls (trace (perform th a)) = queries) \/
     (at_pc (perform th a) = Stopped /\
      (nvml_calls (trace (perform th a)) = queries \/
       nvml_calls (trace (perform th a)) = queries ++ [nvmlShutdown_call]))).
Proof.
  intros (queries & Hq & Hinv). destruct a as [w|]; cbn [perform at_pc trace];
    [|exists queries; auto].
  destruct Hinv as [[Hpc Hcalls]|[Hpc Hcalls]].
  - destruct (step_calls w th) as (more & Hmore & [Hstep|(_ & _ & Hstopped & Hstep)]).
    + exists (queries ++ more). split; [now apply Forall_app|].
      rewrite Hstep, Hcalls.
      destruct (at_pc (step w th)); try (left; split; [discriminate|reflexivity]).
      right. auto.
    + exists queries. split; [assumption|]. right. split; [assumption|].
      right. now rewrite Hstep, Hcalls.
  - exists queries. split; [assumption|]. right.
    unfold step. rewrite Hpc. rewrite Hpc. auto.
Qed.

End Discipline.

Lemma exec_queries_then_release schedule th :
  (exists queries,
      Forall is_query queries /\
      ((at_pc th <> Stopped /\ nvml_calls (trace th) = queries) \/
       (at_pc th = Stopped /\
        (nvml_calls (trace th) = queries \/
         nvml_calls (trace th) = queries ++ [nvmlShutdown_call])))) ->
  queries_then_release (exec schedule th).
Proof.
  revert th. induction schedule as [|a schedule IH]; intros th Hth.
  - destruct Hth as (queries & Hq & [[_ Hcalls]|[Hpc [Hcalls|Hcalls]]]);
      exists queries; auto.
  - rewrite exec_cons. apply IH. now apply perform_queries_then_release.
Qed.

(** X3. Whatever the schedule, the NVML calls of [run] are device queries,
    followed by at most one call of [nvmlShutdown]; that call is the last
    one and is made only when [run] returns.  In particular [run] never
    calls [nvmlInit] and never queries a library it has released. *)
Theorem run_queries_then_releases (s : SystemMonitor) (schedule : list action) :
  queries_then_release (exec schedule (spawn s)).
Proof.
  apply exec_queries_then_release.
  exists []. split; [constructor|]. left. split; [discriminate|reflexivity].
Qed.

Section Looping.

Lemma step_keeps_looping w th :
  _is_running (self th) = true -> at_pc th <> Stopped -> at_pc (step w th) <> Stopped.
Proof.
  intros Hflag Hpc. unfold step.
  destruct (at_pc th) as [| |start|start|start d|start d|start| |e] eqn:Heq; cbn [at_pc];
    try discriminate; try contradiction.
  - now rewrite Hflag.
  - destruct (_map_pids_to_gpus _ _) as [t [g|e]]; discriminate.
  - destruct (_collect_data _ _) as [t [[s' d]|e]]; discriminate.
  - now rewrite Hflag.
  - destruct (end_of_tick _ _ _) as [t [[]|e]]; discriminate.
  - rewrite Heq. discriminate.
Qed.

Lemma run_keeps_looping worlds th :
  _is_running (self th) = true -> at_pc th <> Stopped ->
  at_pc (exec (Run <$> worlds) th) <> Stopped /\
  _is_running (self (exec (Run <$> worlds) th)) = true.
Proof.
  revert th. induction worlds as [|w worlds IH]; intros th Hflag Hpc; [now split|].
  cbn [fmap list_fmap]. rewrite exec_cons. cbn [perform].
  apply IH; [now rewrite step_flag|now apply step_keeps_looping].
Qed.

End Looping.

(** X4. As long as nobody calls [stop], [run] does not return: however
    many steps the worker takes, it is still in the loop or has raised,
    the flag is still set, and the library has not been released. *)
Theorem run_does_not_return_unless_stopped (worlds : list world) (s : SystemMonitor) :
  _is_running s = true ->
  at_pc (run worlds s) <> Stopped /\
  _is_running (self (run worlds s)) = true /\
  Forall is_query (nvml_calls (trace (run worlds s))).
Proof.
  intros Hflag. unfold run.
  destruct (run_keeps_looping worlds (spawn s) Hflag ltac:(discriminate)) as [Hpc Hflag'].
  split; [assumption|]. split; [assumption|].
  destruct (exec_queries_then_release (Run <$> worlds) (spawn s))
    as (queries & Hq & [Hcalls|[Hstopped _]]).
  - exists []. split; [constructor|]. left. split; [discriminate|reflexivity].
  - now rewrite Hcalls.
  - contradiction.
Qed.

(** Three ticks of the sample worker, left alone. *)
Lemma run_does_not_return_unless_stopped_witness :
  let w := machine 10 one_busy_one_idle in
  let worlds := w :: concat (replicate 3 [w; w; w; w; w; w]) in
  at_pc (run worlds (worker 1.5)) <> Stopped /\
  _is_running (self (run worlds (worker 1.5))) = true /\
  Forall is_query (nvml_calls (trace (run worlds (worker 1.5)))).
Proof.
  cbv zeta. apply run_does_not_return_unless_stopped. reflexivity.
Defined.

Section Sleeping.

Lemma end_of_tick_positive w interval start :
  Forall positive (sleeps (fst (end_of_tick w interval start))).
Proof.
  rewrite end_of_tick_cases. destruct (0 <? _)%float eqn:Hpos; cbn; repeat constructor.
  exact Hpos.
Qed.

(** Only the end of a tick sleeps. *)
Lemma step_sleeps w th :
  sleeps (trace (step w th))
  = sleeps (trace th)
    ++ match at_pc th with
       | AtSleep start =>
           sleeps (fst (end_of_tick w (_refresh_interval (self th)) start))
       | _ => []
       end.
Proof.
  unfold step.
  destruct (at_pc th) as [| |start|start|start d|start d|start| |e]; cbn [trace];
    rewrite ?sleeps_app; try reflexivity; try (now rewrite app_nil_r).
  - destruct (_is_running (self th)); cbn [trace]; [now rewrite app_nil_r|].
    pose proof (shutdown_quiet (lib w) (gpu_monitor (self th))) as Hq.
    destruct (shutdown _ _) as [t [[]|e]]; cbn [trace fst] in *;
      rewrite ?sleeps_app, (quiet_sleeps _ Hq); reflexivity.
  - pose proof (map_pids_to_gpus_quiet (lib w) (gpu_monitor (self th))) as Hq.
    destruct (_map_pids_to_gpus _ _) as [t [g|e]]; cbn [trace fst] in *;
      now rewrite sleeps_app, (quiet_sleeps _ Hq).
  - pose proof (collect_data_quiet w (self th)) as Hq.
    destruct (_collect_data _ _) as [t [[s' d]|e]]; cbn [trace fst] in *;
      now rewrite sleeps_app, (quiet_sleeps _ Hq).
  - destruct (_is_running (self th)); cbn [trace]; now rewrite app_nil_r.
  - destruct (end_of_tick _ _ _) as [t [[]|e]]; cbn [trace fst]; now rewrite sleeps_app.
Qed.

Lemma exec_sleeps_positive schedule th :
  Forall positive (sleeps (trace th)) ->
  Forall positive (sleeps (trace (exec schedule th))).
Proof.
  revert th. induction schedule as [|[w|] schedule IH]; intros th Hth; [assumption| |].
  - rewrite exec_cons. apply IH. cbn [perform]. rewrite step_sleeps.
    apply Forall_app. split; [assumption|].
    destruct (at_pc th); try constructor. apply end_of_tick_positive.
  - rewrite exec_cons. now apply IH.
Qed.

End Sleeping.

(** X5. Whatever the clock and the interval are (the clock may go
    backwards, the values may be infinite or NaN), [run] never asks
    [time.sleep] for a negative, zero or NaN duration. *)
Theorem run_sleeps_only_for_positive_durations (s : SystemMonitor) (schedule : list action) :
  Forall positive (sleeps (trace (exec schedule (spawn s)))) /\
  Forall (fun seconds => is_nan seconds = false) (sleeps (trace (exec schedule (spawn s)))).
Proof.
  assert (Forall positive (sleeps (trace (exec schedule (spawn s))))) as Hpos
      by (apply exec_sleeps_positive; constructor).
  split; [exact Hpos|].
  eapply Forall_impl; [exact Hpos|].
  intros seconds Hsec. apply (leb_not_nan 0). now apply ltb_leb.
Qed.

(** ** What every snapshot of a run satisfies *)

Section Snapshots.

(** [I] holds of the worker all along and makes every collection produce
    a snapshot that satisfies [Q]. *)
Variable I : SystemMonitor -> Prop.
Variable Q : system_data -> Prop.
Hypothesis I_stop : forall s, I s -> I (stop s).
Hypothesis I_refresh :
  forall lib s t g,
    I s -> _map_pids_to_gpus lib (gpu_monitor s) = (t, Ok g) -> I (with_gpu_monitor s g).
Hypothesis I_collect :
  forall w s t s' d, I s -> _collect_data w s = (t, Ok (s', d)) -> I s' /\ Q d.

Lemma step_since_then old w th : since_then I Q old th -> since_then I Q old (step w th).
Proof.
  intros (HI & (new & Hnew & HQ) & Hpending). unfold since_then.
  rewrite step_emitted. unfold emitted_by, pending, step in *.
  assert (exists new0, emitted (trace th) = old ++ new0 /\ Forall Q new0) as Hsame
      by (exists new; auto).
  destruct (at_pc th) as [| |start|start|start d|start d|start| |e] eqn:Hpc;
    cbn [self at_pc trace].
  - rewrite app_nil_r. repeat split; auto.
  - destruct (_is_running (self th)); cbn [self at_pc].
    + rewrite app_nil_r. repeat split; auto.
    + destruct (shutdown _ _) as [t [[]|e]]; cbn [self at_pc]; rewrite app_nil_r;
        repeat split; auto.
  - destruct (_map_pids_to_gpus _ _) as [t [g|e]] eqn:Hr; cbn [self at_pc];
      rewrite app_nil_r; repeat split; eauto.
  - destruct (_collect_data _ _) as [t [[s' d]|e]] eqn:Hc; cbn [self at_pc];
      rewrite app_nil_r.
    + destruct (I_collect _ _ _ _ _ HI Hc) as [HI' HQd]. repeat split; auto.
    + repeat split; auto.
  - rewrite app_nil_r.
    destruct (_is_running (self th)); cbn [self at_pc]; repeat split; auto.
  - split; [assumption|]. split; [|constructor].
    exists (new ++ [d]). rewrite Hnew, app_assoc. split; [reflexivity|].
    apply Forall_app. auto.
  - destruct (end_of_tick _ _ _) as [t [[]|e]]; cbn [self at_pc]; rewrite app_nil_r;
      repeat split; auto.
  - rewrite app_nil_r, Hpc. repeat split; auto.
  - rewrite app_nil_r, Hpc. repeat split; auto.
Qed.

Lemma exec_since_then old schedule th :
  since_then I Q old th -> since_then I Q old (exec schedule th).
Proof.
  revert th. induction schedule as [|[w|] schedule IH]; intros th Hth; [assumption| |].
  - rewrite exec_cons. apply IH. now apply step_since_then.
  - rewrite exec_cons. apply IH.
    destruct Hth as (HI & Hnew & Hpending). split; [|split].
    + apply I_stop, HI.
    + exact Hnew.
    + exact Hpending.
Qed.

End Snapshots.

(** * Process records *)

Section Records.

Lemma process_record_of ram_total g info d :
  process_record ram_total g info = Ok d -> record_of g info d.
Proof.
  unfold process_record, record_of.
  destruct (info_memory_info info) as [m|]; [|discriminate]. cbn [res_bind].
  destruct (memory_percent _ _); [|discriminate]. cbn.
  intros [= <-]. cbn. repeat split; reflexivity.
Qed.

Lemma collect_processes_records ram_total g procs acc l :
  collect_processes ram_total g procs acc = Ok l ->
  exists records,
    l = acc ++ records /\ Forall2 (record_of g) (inspected procs) records.
Proof.
  revert acc. induction procs as [|[info|e] procs IH]; intros acc Hl.
  - cbn in Hl. injection Hl as <-. exists []. split; [now rewrite app_nil_r|constructor].
  - cbn [collect_processes] in Hl.
    destruct (process_record ram_total g info) as [d|e] eqn:Hd; [|discriminate].
    cbn [res_bind] in Hl. destruct (IH _ Hl) as (records & -> & Hrecords).
    exists (d :: records). split; [now rewrite <- app_assoc|].
    cbn. constructor; [now apply (process_record_of ram_total)|assumption].
  - cbn [collect_processes] in Hl. exact (IH _ Hl).
Qed.

(** What a collection that returns puts in the snapshot. *)
Lemma collect_data_Ok w s t s' d :
  _collect_data w s = (t, Ok (s', d)) ->
  (length (cpu_times w) <= length (_last_cpu_times s))%nat /\
  cpu_total_percent (cpu d) = aggregated_percent (cpu_times w) (_last_cpu_times s) /\
  cpu_per_cpu_percent (cpu d) = zip_with core_value (cpu_times w) (_last_cpu_times s) /\
  Forall2 (record_of (gpu_monitor s)) (inspected (process_iter w)) (processes d) /\
  get_gpu_info (lib w) (gpu_monitor s) = (t, Ok (gpu_monitor s', gpu d)) /\
  _last_cpu_times s' = cpu_times w /\
  _is_running s' = _is_running s /\
  _refresh_interval s' = _refresh_interval s.
Proof.
  unfold _collect_data.
  destruct (Nat.le_gt_cases (length (cpu_times w)) (length (_last_cpu_times s)))
    as [Hle|Hgt].
  - rewrite calculate_cpu_percent_ok by assumption.
    cbn -[get_gpu_info collect_processes].
    destruct (collect_processes _ _ _ _) as [processes_data|e] eqn:Hprocs; [|discriminate].
    cbn -[get_gpu_info].
    destruct (collect_processes_records _ _ _ _ _ Hprocs) as (records & -> & Hrecords).
    destruct (get_gpu_info _ _) as [t' [[g' gpu_list]|e]]; [|discriminate].
    cbn. intros [= <- <- <-]. cbn. rewrite app_nil_r. repeat split; assumption.
  - rewrite calculate_cpu_percent_raise by assumption. discriminate.
Qed.

End Records.

(** X6. Every snapshot that any run of the worker publishes or holds
    ready to publish carries a total CPU percent and per-core CPU percents
    that are numbers between 0 and 100, whatever psutil's counters were
    (decreasing, infinite or NaN included). *)
Theorem every_snapshot_has_cpu_percentages (s : SystemMonitor) (schedule : list action) :
  Forall cpu_in_range (snapshots (exec schedule (spawn s))).
Proof.
  assert (since_then (fun _ => True) cpu_in_range [] (exec schedule (spawn s)))
    as (_ & (new & Hnew & Hpublished) & Hpending).
  { apply exec_since_then; try (intros; exact I).
    - intros w s0 t s' d _ Hc. split; [exact I|].
      destruct (collect_data_Ok _ _ _ _ _ Hc) as (_ & Htotal & Hper & _).
      unfold cpu_in_range. rewrite Htotal, Hper. split.
      + apply clamp_percent_in_range.
      + apply core_values_in_range.
    - split; [exact I|]. split; [|constructor]. exists []. split; [reflexivity|constructor]. }
  unfold snapshots. rewrite Hnew. cbn [app]. now apply Forall_app.
Qed.

(** X7. When a collection returns, the snapshot holds exactly one record
    for each process that could be inspected, in the order of the
    enumeration; a process that vanished leaves no record.  Each record
    carries the pid, name, CPU percent and resident size psutil reported,
    the command line joined by single spaces (empty when there is none),
    and the GPU memory the accessor holds for the pid at that moment. *)
Theorem snapshot_lists_inspected_processes
    (w : world) (s s' : SystemMonitor) (t : list event) (d : system_data) :
  _collect_data w s = (t, Ok (s', d)) ->
  Forall2 (record_of (gpu_monitor s)) (inspected (process_iter w)) (processes d) /\
  pd_pid <$> processes d = info_pid <$> inspected (process_iter w) /\
  length (processes d) = length (inspected (process_iter w)).
Proof.
  intros Hc. destruct (collect_data_Ok _ _ _ _ _ Hc) as (_ & _ & _ & Hrecords & _).
  split; [exact Hrecords|]. split.
  - induction Hrecords as [|info r infos rs Hr _ IH]; [reflexivity|].
    cbn. destruct Hr as [-> _]. now rewrite IH.
  - symmetry. exact (Forall2_length _ _ _ Hrecords).
Qed.

(** The collection of the sample machine: the python process is listed,
    the process that vanished is not. *)
Lemma snapshot_lists_inspected_processes_witness :
  exists t s' d,
    let w := machine 10 one_busy_one_idle in
    _collect_data w (worker 1.5) = (t, Ok (s', d)) /\
    Forall2 (record_of (gpu_monitor (worker 1.5))) (inspected (process_iter w)) (processes d) /\
    pd_pid <$> processes d = info_pid <$> inspected (process_iter w) /\
    length (processes d) = length (inspected (process_iter w)).
Proof.
  eexists _, _, _. cbv zeta. split; [reflexivity|].
  eapply (snapshot_lists_inspected_processes _ (worker 1.5)). reflexivity.
Defined.

(** X8. Refresh and collection compose inside a tick: when every query of
    the refresh succeeds and the collection returns, each process record
    of the snapshot attributes to its pid the sum of the GPU memory that
    the devices reported for that pid during the refresh of the same
    tick, whatever the map held before the tick. *)
Theorem tick_attributes_gpu_memory
    (th : thread) (start : float) (w_r w_c : world) (device_count : Z)
    (handle_of : Z -> Z) (procs_of : Z -> list nvml_process) (d : system_data) :
  at_pc th = AtRefresh start ->
  is_available (gpu_monitor (self th)) = true ->
  nvmlDeviceGetCount (lib w_r) = NVML_SUCCESS device_count ->
  (forall i, 0 <= i < device_count ->
             nvmlDeviceGetHandleByIndex (lib w_r) i = NVML_SUCCESS (handle_of i)) ->
  (forall i, 0 <= i < device_count ->
             nvmlDeviceGetComputeRunningProcesses (lib w_r) (handle_of i)
             = NVML_SUCCESS (procs_of i)) ->
  at_pc (exec [Run w_r; Run w_c] th) = AtEmit start d ->
  Forall2 (fun info p =>
             pd_pid p = info_pid info /\
             pd_gpu_memory_bytes p
             = memory_on_all_devices (info_pid info) device_count procs_of)
          (inspected (process_iter w_c)) (processes d).
Proof.
  intros Hpc Havail Hcount Hhandle Hprocs.
  change (exec [Run w_r; Run w_c] th) with (step w_c (step w_r th)).
  destruct (map_pids_body_answered (lib w_r) device_count handle_of procs_of
              Hcount Hhandle Hprocs) as [t Ht].
  destruct (res_fold (fun m i => res_fold add_process (procs_of i) m)
                     (range device_count) ∅) as [m|e] eqn:Hm.
  - assert (at_pc (step w_r th) = AtCollect start /\
            forall pid0, get_process_gpu_memory (gpu_monitor (self (step w_r th))) pid0
                         = memory_on_all_devices pid0 device_count procs_of) as [Hpc1 Hmap].
    { unfold step. rewrite Hpc, (map_pids_to_gpus_enabled _ _ Havail), Ht.
      cbn [at_pc self with_gpu_monitor gpu_monitor]. split; [reflexivity|].
      intros pid0. unfold get_process_gpu_memory, memory_on_all_devices.
      cbn [pid_gpu_memory_map].
      rewrite (res_fold_devices_lookup _ _ _ _ _ Hm), lookup_empty. cbn. lia. }
    unfold step at 1. rewrite Hpc1.
    destruct (_collect_data w_c (self (step w_r th))) as [t' [[s' d']|e]] eqn:Hc;
      cbn [at_pc]; [|discriminate].
    intros [= <-].
    destruct (collect_data_Ok _ _ _ _ _ Hc) as (_ & _ & _ & Hrecords & _).
    eapply Forall2_impl; [exact Hrecords|].
    intros info p (Hpid & _ & _ & _ & Hgpu & _). split; [assumption|].
    now rewrite Hgpu, Hmap.
  - (* an entry without a figure: the refresh raises and the tick ends there *)
    destruct (res_fold_devices_raise _ _ _ _ Hm) as [-> _].
    assert (at_pc (step w_r th) = Crashed TypeError) as Hpc1
      by (unfold step; now rewrite Hpc, (map_pids_to_gpus_enabled _ _ Havail), Ht).
    unfold step at 1. rewrite Hpc1, Hpc1. discriminate.
Qed.

(** A tick of the sample machine, whose two devices report 100MB and 50MB
    for pid 7. *)
Lemma tick_attributes_gpu_memory_witness :
  exists d,
    let w := machine 10.5 one_busy_one_idle in
    at_pc (exec [Run w; Run w] (in_tick 1.5)) = AtEmit 10 d /\
    Forall2 (fun info p =>
               pd_pid p = info_pid info /\
               pd_gpu_memory_bytes p
               = memory_on_all_devices (info_pid info) 2
                   (fun i => if i =? 0
                             then [{| pid := 7; usedGpuMemory := Some (100 * MB) |}]
                             else [{| pid := 7; usedGpuMemory := Some (50 * MB) |};
                                   {| pid := 8; usedGpuMemory := Some (1 * MB) |}]))
            (inspected (process_iter w)) (processes d).
Proof.
  eexists. cbv zeta. split; [vm_compute; reflexivity|].
  apply (tick_attributes_gpu_memory (in_tick 1.5) 10%float
           (machine 10.5 one_busy_one_idle) (machine 10.5 one_busy_one_idle)
           2 (fun i => 10 + i)).
  - reflexivity.
  - reflexivity.
  - reflexivity.
  - intros i Hi. reflexivity.
  - intros i Hi. cbn. assert (i = 0 \/ i = 1) as [-> | ->] by lia; reflexivity.
  - vm_compute. reflexivity.
Defined.

Section Frozen.

Lemma records_frozen g infos records :
  Forall2 (record_of g) infos records ->
  Forall (fun p => pd_gpu_memory_bytes p = get_process_gpu_memory g (pd_pid p)) records.
Proof.
  induction 1 as [|info p infos records (Hpid & _ & _ & _ & Hgpu & _) _ IH]; constructor.
  - now rewrite Hgpu, Hpid.
  - exact IH.
Qed.

(** A collection on a disabled accessor queries nothing, leaves the
    accessor alone and reports what its map holds. *)
Lemma collect_data_on_disabled w s :
  is_available (gpu_monitor s) = false ->
  fst (_collect_data w s) = [] /\
  forall t s' d,
    _collect_data w s = (t, Ok (s', d)) ->
    gpu_monitor s' = gpu_monitor s /\ frozen_gpu_data (gpu_monitor s) d.
Proof.
  intros Hg. split.
  - unfold _collect_data. rewrite (get_gpu_info_disabled _ _ Hg).
    destruct (_calculate_cpu_percent _ _) as [last' [[total per]|e]]; [|reflexivity].
    cbn -[collect_processes].
    destruct (collect_processes _ _ _ _); reflexivity.
  - intros t s' d Hc.
    destruct (collect_data_Ok _ _ _ _ _ Hc) as (_ & _ & _ & Hrecords & Hlist & _).
    rewrite (get_gpu_info_disabled _ _ Hg) in Hlist. injection Hlist as _ Hsame Hgpu.
    split; [now symmetry|]. split; [now symmetry|].
    exact (records_frozen _ _ _ Hrecords).
Qed.

Lemma step_on_disabled w th :
  is_available (gpu_monitor (self th)) = false ->
  gpu_monitor (self (step w th)) = gpu_monitor (self th) /\
  nvml_calls (trace (step w th)) = nvml_calls (trace th).
Proof.
  intros Hg. unfold step.
  destruct (at_pc th) as [| |start|start|start d|start d|start| |e]; cbn [self trace];
    rewrite ?nvml_calls_app.
  - split; [reflexivity|]. now rewrite app_nil_r.
  - destruct (_is_running (self th)); cbn [self trace]; [now split|].
    rewrite shutdown_cases, Hg. cbn [self trace]. split; [reflexivity|].
    rewrite nvml_calls_app. now rewrite app_nil_r.
  - rewrite (map_pids_to_gpus_disabled _ _ Hg). cbn [self trace with_gpu_monitor gpu_monitor].
    split; [reflexivity|]. now rewrite !app_nil_r.
  - destruct (collect_data_on_disabled w (self th) Hg) as [Ht Hok].
    destruct (_collect_data w (self th)) as [t [[s' d]|e]]; cbn [self trace fst] in *;
      subst t; rewrite nvml_calls_app, app_nil_r; split; try reflexivity.
    now destruct (Hok _ _ _ eq_refl).
  - destruct (_is_running (self th)); cbn [self trace]; now split.
  - split; [reflexivity|]. now rewrite app_nil_r.
  - pose proof (end_of_tick_calls w (_refresh_interval (self th)) start) as Hq.
    destruct (end_of_tick _ _ _) as [t [[]|e]]; cbn [self trace fst] in *;
      (split; [reflexivity|]); now rewrite nvml_calls_app, Hq, app_nil_r.
  - now split.
  - now split.
Qed.

Lemma exec_on_disabled schedule th :
  is_available (gpu_monitor (self th)) = false ->
  gpu_monitor (self (exec schedule th)) = gpu_monitor (self th) /\
  nvml_calls (trace (exec schedule th)) = nvml_calls (trace th).
Proof.
  revert th. induction schedule as [|[w|] schedule IH]; intros th Hg; [now split| |].
  - rewrite exec_cons. cbn [perform].
    destruct (step_on_disabled w th Hg) as [Hsame Hcalls].
    destruct (IH (step w th)) as [IH1 IH2]; [now rewrite Hsame|].
    now rewrite IH1, IH2, Hsame, Hcalls.
  - rewrite exec_cons. exact (IH (perform th Stop) Hg).
Qed.

End Frozen.

(** X9. A failed device listing freezes the GPU part of every snapshot to
    come.  When the listing of a tick raises an NVML error on an enabled
    accessor, the snapshot of that tick and every snapshot collected
    later in the run list no device and attribute to each process what
    the map held at that moment, however the devices and their processes
    change afterwards; the accessor stays as the failure left it; and the
    run makes no further NVML call, not even [nvmlShutdown] when it
    stops. *)
Theorem listing_failure_freezes_gpu_data
    (th : thread) (start : float) (w_c : world) (t : list event) (msg : string)
    (d : system_data) (schedule : list action) :
  at_pc th = AtCollect start ->
  is_available (gpu_monitor (self th)) = true ->
  gpu_info_body (lib w_c) = (t, Raise (NVMLError msg)) ->
  at_pc (step w_c th) = AtEmit start d ->
  let g := {| is_available := false;
              pid_gpu_memory_map := pid_gpu_memory_map (gpu_monitor (self th)) |} in
  let th' := exec schedule (step w_c th) in
  frozen_gpu_data g d /\
  gpu_monitor (self th') = g /\
  nvml_calls (trace th') = nvml_calls (trace th) ++ nvml_calls t /\
  (exists new,
      emitted (trace th') = emitted (trace th) ++ new /\ Forall (frozen_gpu_data g) new) /\
  Forall (frozen_gpu_data g) (pending th').
Proof.
  intros Hpc Havail Hbody Hdata g th'.
  (* the failing collection itself *)
  assert (exists s' t',
             _collect_data w_c (self th) = (t', Ok (s', d)) /\
             step w_c th = {| self := s'; at_pc := AtEmit start d; trace := trace th ++ t' |})
    as (s' & t' & Hc & Hstep).
  { unfold step in Hdata |- *. rewrite Hpc in Hdata |- *.
    destruct (_collect_data w_c (self th)) as [t' [[s' d']|e]]; cbn [at_pc] in Hdata;
      [|discriminate].
    injection Hdata as <-. eauto. }
  destruct (collect_data_Ok _ _ _ _ _ Hc) as (_ & _ & _ & Hrecords & Hlist & _).
  rewrite (get_gpu_info_enabled _ _ Havail), Hbody in Hlist.
  injection Hlist as Ht' Hg' Hgpu.
  assert (frozen_gpu_data g d) as Hd.
  { split; [now symmetry|]. exact (records_frozen _ _ _ Hrecords). }
  assert (gpu_monitor (self (step w_c th)) = g) as Hg1 by (rewrite Hstep; now symmetry).
  destruct (exec_on_disabled schedule (step w_c th)) as [Hsame Hcalls];
    [now rewrite Hg1|].
  split; [exact Hd|]. split; [unfold th'; now rewrite Hsame|]. split.
  - unfold th'. rewrite Hcalls, Hstep. cbn [trace]. rewrite nvml_calls_app, <- Ht'.
    rewrite nvml_calls_app. cbn. now rewrite app_nil_r.
  - assert (since_then (fun s => gpu_monitor s = g) (frozen_gpu_data g)
                       (emitted (trace th)) th') as (_ & Hnew & Hpending).
    { apply exec_since_then.
      - intros s0 Hs0. exact Hs0.
      - intros lib0 s0 t0 g0 Hs0. rewrite Hs0, map_pids_to_gpus_disabled by reflexivity.
        now intros [= <- <-].
      - intros w s0 t0 s1 d1 Hs0 Hc1.
        destruct (collect_data_on_disabled w s0) as [_ Hok]; [now rewrite Hs0|].
        destruct (Hok _ _ _ Hc1) as [Hg_same Hfrozen]. rewrite Hs0 in *. now split.
      - split; [exact Hg1|]. split.
        + exists []. rewrite app_nil_r, Hstep. cbn [trace]. rewrite emitted_app.
          pose proof (collect_data_quiet w_c (self th)) as Hquiet.
          rewrite Hc in Hquiet. cbn [fst] in Hquiet.
          rewrite (quiet_emitted _ Hquiet). split; [now rewrite app_nil_r|constructor].
        + unfold pending. rewrite Hdata. now constructor. }
    split; assumption.
Qed.

(** On the sample machine the refresh of a tick finds 150MB for pid 7,
    then the listing of that tick fails; the worker goes on for a whole
    tick against healthy devices and is stopped. *)
Lemma listing_failure_freezes_gpu_data_witness :
  exists t d,
    let w := machine 10.5 one_busy_one_idle in
    let th := exec [Run w] (in_tick 1.5) in
    let w_c := machine_losing_gpu 10.5 one_busy_one_idle in
    let schedule := [Run w; Run w; Run w; Run w; Run w; Run w; Run w; Run w; Stop; Run w; Run w] in
    let g := {| is_available := false;
                pid_gpu_memory_map := pid_gpu_memory_map (gpu_monitor (self th)) |} in
    let th' := exec schedule (step w_c th) in
    gpu_info_body (lib w_c) = (t, Raise (NVMLError "GPU is lost")) /\
    get_process_gpu_memory g 7 = 150 * MB /\
    frozen_gpu_data g d /\
    gpu_monitor (self th') = g /\
    nvml_calls (trace th') = nvml_calls (trace th) ++ nvml_calls t /\
    (exists new,
        emitted (trace th') = emitted (trace th) ++ new /\ Forall (frozen_gpu_data g) new) /\
    Forall (frozen_gpu_data g) (pending th').
Proof.
  eexists _, _. cbv zeta. split; [reflexivity|]. split; [vm_compute; reflexivity|].
  eapply (listing_failure_freezes_gpu_data
            (exec [Run (machine 10.5 one_busy_one_idle)] (in_tick 1.5)) 10%float
            (machine_losing_gpu 10.5 one_busy_one_idle)).
  - reflexivity.
  - reflexivity.
  - reflexivity.
  - vm_compute. reflexivity.
Defined.

(** That run, evaluated: two snapshots are published, both without
    devices and both with 150MB for pid 7, and the worker stops without
    releasing the library. *)
Example run_after_listing_failure :
  let w := machine 10.5 one_busy_one_idle in
  let th := exec [Run w] (in_tick 1.5) in
  let w_c := machine_losing_gpu 10.5 one_busy_one_idle in
  let th' := exec [Run w; Run w; Run w; Run w; Run w; Run w; Run w; Run w; Stop; Run w; Run w]
                  (step w_c th) in
  at_pc th' = Stopped /\
  (gpu <$> emitted (trace th')) = [[]; []] /\
  ((fun d => pd_gpu_memory_bytes <$> processes d) <$> emitted (trace th'))
  = [[150 * MB]; [150 * MB]] /\
  nvmlShutdown_call ∉ nvml_calls (trace th').
Proof.
  cbv zeta. split; [vm_compute; reflexivity|]. split; [vm_compute; reflexivity|].
  split; [vm_compute; reflexivity|].
  vm_compute. intros H.
  repeat (inversion H as [|? ? ? H']; subst; clear H; rename H' into H).
Qed.

(** * Exceptions that nothing catches *)

Section Crashes.

Lemma perform_crashed a th e :
  at_pc th = Crashed e ->
  at_pc (perform th a) = Crashed e /\ trace (perform th a) = trace th.
Proof.
  intros Hpc. destruct a as [w|]; cbn [perform at_pc trace]; [|now split].
  unfold step. rewrite Hpc. now split.
Qed.

Lemma exec_crashed schedule th e :
  at_pc th = Crashed e ->
  at_pc (exec schedule th) = Crashed e /\ trace (exec schedule th) = trace th.
Proof.
  revert th. induction schedule as [|a schedule IH]; intros th Hpc; [now split|].
  rewrite exec_cons. destruct (perform_crashed a th e Hpc) as [Hpc' Htrace].
  destruct (IH _ Hpc') as [IH1 IH2]. split; [assumption|]. now rewrite IH2.
Qed.

(** A collection that raises before the device listing leaves no event. *)
Lemma collect_data_raise_before_listing w s e :
  (snd (_calculate_cpu_percent (cpu_times w) (_last_cpu_times s)) = Raise e \/
   (exists r, snd (_calculate_cpu_percent (cpu_times w) (_last_cpu_times s)) = Ok r /\
              collect_processes (vm_total (virtual_memory w)) (gpu_monitor s)
                                (process_iter w) [] = Raise e)) ->
  _collect_data w s = ([], Raise e).
Proof.
  unfold _collect_data.
  destruct (_calculate_cpu_percent _ _) as [last' cpu_result]. cbn [snd].
  intros [->|([total per] & -> & Hprocs)]; [reflexivity|].
  cbn -[get_gpu_info collect_processes]. now rewrite Hprocs.
Qed.

(** An enumeration with a process whose memory figures are missing
    cannot be collected. *)
Lemma collect_processes_needs_memory_info ram_total g procs acc info :
  info ∈ inspected procs -> info_memory_info info = None ->
  exists e, collect_processes ram_total g procs acc = Raise e.
Proof.
  intros Hin Hnone. revert acc.
  induction procs as [|[info'|e'] procs IH]; intros acc; cbn [inspected omap] in Hin.
  - inversion Hin.
  - cbn [collect_processes].
    destruct (process_record ram_total g info') as [d|e] eqn:Hd; [|cbn; eauto].
    cbn [res_bind]. apply elem_of_cons in Hin as [->|Hin]; [|now apply IH].
    unfold process_record in Hd. rewrite Hnone in Hd. discriminate.
  - cbn [collect_processes]. now apply IH.
Qed.

End Crashes.

(** X10. [run] has no handler around the collection.  When psutil reports
    more cores than the stored baseline has entries, the collection stops
    on [IndexError] before any query; [run] ends there: the tick
    publishes nothing, and whatever is scheduled afterwards, calls of
    [stop] included, the worker publishes nothing, queries nothing and
    never calls [nvmlShutdown]. *)
Theorem new_core_ends_run_without_release
    (th : thread) (start : float) (w : world) (schedule : list action) :
  at_pc th = AtCollect start ->
  (length (_last_cpu_times (self th)) < length (cpu_times w))%nat ->
  at_pc (step w th) = Crashed IndexError /\
  at_pc (exec schedule (step w th)) = Crashed IndexError /\
  trace (exec schedule (step w th)) = trace th.
Proof.
  intros Hpc Hlen.
  assert (step w th = {| self := self th; at_pc := Crashed IndexError;
                         trace := trace th ++ [] |}) as Hstep.
  { unfold step. rewrite Hpc.
    rewrite (collect_data_raise_before_listing w (self th) IndexError); [reflexivity|].
    left. now rewrite calculate_cpu_percent_raise. }
  destruct (exec_crashed schedule (step w th) IndexError) as [Hpc' Htrace];
    [now rewrite Hstep|].
  split; [now rewrite Hstep|]. split; [assumption|].
  now rewrite Htrace, Hstep, app_nil_r.
Qed.

(** A third core comes online during a tick of the sample machine; the
    worker is then scheduled for a whole tick and stopped. *)
Lemma new_core_ends_run_without_release_witness :
  let w := machine 10.5 one_busy_one_idle in
  let th := exec [Run w] (in_tick 1.5) in
  let w_c := machine_with_new_core 10.5 in
  let schedule := [Run w; Run w; Run w; Stop; Run w; Run w] in
  at_pc (step w_c th) = Crashed IndexError /\
  at_pc (exec schedule (step w_c th)) = Crashed IndexError /\
  trace (exec schedule (step w_c th)) = trace th.
Proof.
  cbv zeta.
  apply (new_core_ends_run_without_release
           (exec [Run (machine 10.5 one_busy_one_idle)] (in_tick 1.5)) 10%float).
  - reflexivity.
  - vm_compute. lia.
Defined.

(** X11. A process whose ['memory_info'] is [None] (psutil was denied
    access to it) is not skipped: building its record raises, the
    exception is none of the three the loop catches, and no collection
    whose enumeration holds such a process returns.  [run] ends on that
    tick without publishing it, and whatever is scheduled afterwards the
    worker publishes nothing, queries nothing and never calls
    [nvmlShutdown]. *)
Theorem process_without_memory_info_ends_run
    (th : thread) (start : float) (w : world) (info : pinfo) (schedule : list action) :
  at_pc th = AtCollect start ->
  info ∈ inspected (process_iter w) ->
  info_memory_info info = None ->
  process_record (vm_total (virtual_memory w)) (gpu_monitor (self th)) info
  = Raise AttributeError /\
  exists e,
    at_pc (step w th) = Crashed e /\
    at_pc (exec schedule (step w th)) = Crashed e /\
    trace (exec schedule (step w th)) = trace th.
Proof.
  intros Hpc Hin Hnone. split.
  { unfold process_record. now rewrite Hnone. }
  assert (exists e, _collect_data w (self th) = ([], Raise e)) as [e Hc].
  { destruct (snd (_calculate_cpu_percent (cpu_times w) (_last_cpu_times (self th))))
      as [r|e] eqn:Hcpu.
    - destruct (collect_processes_needs_memory_info
                  (vm_total (virtual_memory w)) (gpu_monitor (self th))
                  (process_iter w) [] info Hin Hnone) as [e He].
      exists e. apply collect_data_raise_before_listing. right. eauto.
    - exists e. apply collect_data_raise_before_listing. now left. }
  exists e.
  assert (step w th = {| self := self th; at_pc := Crashed e; trace := trace th ++ [] |})
    as Hstep by (unfold step; now rewrite Hpc, Hc).
  destruct (exec_crashed schedule (step w th) e) as [Hpc' Htrace]; [now rewrite Hstep|].
  split; [now rewrite Hstep|]. split; [assumption|].
  now rewrite Htrace, Hstep, app_nil_r.
Qed.

(** The enumeration of the sample machine holds a protected process. *)
Lemma process_without_memory_info_ends_run_witness :
  let w := machine 10.5 one_busy_one_idle in
  let th := exec [Run w] (in_tick 1.5) in
  let w_c := machine_with_protected_process 10.5 in
  let schedule := [Run w; Run w; Run w; Stop; Run w; Run w] in
  process_record (vm_total (virtual_memory w_c)) (gpu_monitor (self th)) protected_process
  = Raise AttributeError /\
  exists e,
    at_pc (step w_c th) = Crashed e /\
    at_pc (exec schedule (step w_c th)) = Crashed e /\
    trace (exec schedule (step w_c th)) = trace th.
Proof.
  cbv zeta.
  apply (process_without_memory_info_ends_run
           (exec [Run (machine 10.5 one_busy_one_idle)] (in_tick 1.5)) 10%float
           (machine_with_protected_process 10.5) protected_process).
  - reflexivity.
  - cbn. apply elem_of_cons. right. apply elem_of_cons. now left.
  - reflexivity.
Defined.

Example protected_process_raises_AttributeError :
  let w := machine 10.5 one_busy_one_idle in
  at_pc (step (machine_with_protected_process 10.5) (exec [Run w] (in_tick 1.5)))
  = Crashed AttributeError.
Proof. vm_compute. reflexivity. Qed.

(** * Which exceptions escape *)

Section RaisesOnly.

Lemma raises_only_ret {A} P (a : A) : raises_only P (eff_ret a).
Proof. exact I. Qed.

Lemma raises_only_log P level msg : raises_only P (log level msg).
Proof. exact I. Qed.

Lemma raises_only_call {A} c (answer : nvml_return A) :
  raises_only is_NVMLError (call c answer).
Proof. destruct answer; cbn; [exact I|]. now eexists. Qed.

Lemma raises_only_impl {A} (P Q : exn -> Prop) (c : eff A) :
  (forall e, P e -> Q e) -> raises_only P c -> raises_only Q c.
Proof. unfold raises_only. destruct (snd c); auto. Qed.

Lemma raises_only_bind {A B} P (c : eff A) (k : A -> eff B) :
  raises_only P c -> (forall a, raises_only P (k a)) -> raises_only P (eff_bind c k).
Proof.
  unfold raises_only. destruct c as [t [a|e]]; cbn; intros Hc Hk; [|assumption].
  specialize (Hk a). destruct (k a) as [t' r]. exact Hk.
Qed.

Lemma raises_only_fold {A B} P (f : A -> B -> eff A) l acc :
  (forall a x, raises_only P (f a x)) -> raises_only P (eff_fold f l acc).
Proof.
  intros Hf. revert acc. induction l as [|x l IH]; intros acc; cbn [eff_fold].
  - exact I.
  - apply raises_only_bind; [apply Hf|apply IH].
Qed.

Lemma raises_only_try {A} P Q (body : eff A) handler :
  raises_only Q body ->
  (forall e, Q e -> is_NVMLError e \/ P e) ->
  (forall msg, raises_only P (handler msg)) ->
  raises_only P (try_except_NVMLError body handler).
Proof.
  unfold raises_only, try_except_NVMLError.
  destruct body as [t [a|e]]; cbn; intros Hbody HQ Hhandler; [exact I|].
  destruct e as [msg| | | | |];
    try (destruct (HQ _ Hbody) as [[msg' [=]]|HP]; exact HP).
  specialize (Hhandler msg). destruct (handler msg) as [t' r]. exact Hhandler.
Qed.

Lemma raises_only_never {A} (c : eff A) :
  raises_only (fun _ => False) c -> exists t a, c = (t, Ok a).
Proof. unfold raises_only. destruct c as [t [a|e]]; cbn; [eauto|contradiction]. Qed.

Lemma raises_only_bind_ok {A B} P (c : eff A) (k : A -> eff B) :
  raises_only P c -> (forall t a, c = (t, Ok a) -> raises_only P (k a)) ->
  raises_only P (eff_bind c k).
Proof.
  unfold raises_only. destruct c as [t [a|e]]; cbn; intros Hc Hk; [|assumption].
  specialize (Hk t a eq_refl). destruct (k a) as [t' r]. exact Hk.
Qed.

Lemma call_answered {A} c (answer : nvml_return A) t a :
  call c answer = (t, Ok a) -> answer = NVML_SUCCESS a.
Proof. unfold call. destruct answer; [now intros [= _ ->]|discriminate]. Qed.

Lemma raises_only_add_processes procs m :
  raises_only (fun e => e = TypeError) (lift_res (res_fold add_process procs m)).
Proof.
  unfold raises_only, lift_res. cbn [snd].
  destruct (res_fold add_process procs m) as [m'|e] eqn:Hfold; [exact I|].
  now apply res_fold_add_process_raise in Hfold.
Qed.

Lemma map_pids_body_raises lib :
  raises_only (fun e => is_NVMLError e \/ e = TypeError) (map_pids_body lib).
Proof.
  assert (forall A c (answer : nvml_return A),
             raises_only (fun e => is_NVMLError e \/ e = TypeError) (call c answer))
    as Hcall.
  { intros A c answer. eapply raises_only_impl; [|apply raises_only_call]. now left. }
  unfold map_pids_body.
  apply raises_only_bind; [apply Hcall|]. intros device_count.
  apply raises_only_fold. intros m i.
  apply raises_only_bind; [apply Hcall|]. intros handle.
  apply raises_only_bind; [apply Hcall|]. intros procs.
  eapply raises_only_impl; [|apply raises_only_add_processes]. now right.
Qed.

(** When every entry carries its figure only the queries can fail. *)
Lemma map_pids_body_raises_nvml lib :
  reports_all_figures lib -> raises_only is_NVMLError (map_pids_body lib).
Proof.
  intros Hfigures. unfold map_pids_body.
  apply raises_only_bind; [apply raises_only_call|]. intros device_count.
  apply raises_only_fold. intros m i.
  apply raises_only_bind; [apply raises_only_call|]. intros handle.
  apply raises_only_bind_ok; [apply raises_only_call|]. intros t procs Hprocs%call_answered.
  unfold raises_only, lift_res. cbn [snd].
  destruct (res_fold_add_process_ok procs m (Hfigures _ _ Hprocs)) as [m' ->]. exact I.
Qed.

Lemma map_pids_to_gpus_raises lib g :
  raises_only (fun e => e = TypeError) (_map_pids_to_gpus lib g).
Proof.
  unfold _map_pids_to_gpus. destruct (negb (is_available g)); [exact I|].
  apply (raises_only_try _ (fun e => is_NVMLError e \/ e = TypeError)).
  - apply raises_only_bind; [apply map_pids_body_raises|]. intros m. exact I.
  - auto.
  - intros msg. exact I.
Qed.

Lemma map_pids_to_gpus_returns lib g :
  reports_all_figures lib -> exists t g', _map_pids_to_gpus lib g = (t, Ok g').
Proof.
  intros Hfigures. apply raises_only_never.
  unfold _map_pids_to_gpus. destruct (negb (is_available g)); [exact I|].
  apply (raises_only_try _ is_NVMLError).
  - apply raises_only_bind; [now apply map_pids_body_raises_nvml|]. intros m. exact I.
  - now left.
  - intros msg. exact I.
Qed.

Lemma map_pids_to_gpus_flag lib g t g' :
  _map_pids_to_gpus lib g = (t, Ok g') -> is_available g' = is_available g.
Proof.
  intros Hg. destruct (is_available g) eqn:Havail.
  - rewrite map_pids_to_gpus_enabled in Hg by assumption.
    destruct (map_pids_body lib) as [t' [m|[]]]; now inversion Hg.
  - rewrite map_pids_to_gpus_disabled in Hg by assumption. inversion Hg. now subst.
Qed.

Lemma shutdown_raises lib g : raises_only (fun _ => False) (shutdown lib g).
Proof.
  unfold shutdown. destruct (is_available g); [|exact I].
  apply (raises_only_try _ is_NVMLError).
  - apply raises_only_bind; [apply raises_only_call|]. intros []. exact I.
  - now left.
  - intros msg. exact I.
Qed.

Lemma GPUMonitor_init_raises PYNXML_AVAILABLE lib :
  raises_only (fun _ => False) (GPUMonitor_init PYNXML_AVAILABLE lib).
Proof.
  unfold GPUMonitor_init. destruct PYNXML_AVAILABLE; [|exact I].
  apply (raises_only_try _ is_NVMLError).
  - apply raises_only_bind; [apply raises_only_call|]. intros []. exact I.
  - now left.
  - intros msg. exact I.
Qed.

Lemma int_truediv_raises a b e :
  b <> 0 -> Py.int_truediv a b = Raise e -> e = OverflowError.
Proof.
  unfold Py.int_truediv. intros Hb.
  destruct (Z.eqb_spec b 0) as [->|_]; [contradiction|].
  destruct (SFdiv _ _ _ _) as [s|s| |s m e']; congruence.
Qed.

Lemma gpu_memory_percent_of_raises mem_info e :
  gpu_memory_percent_of mem_info = Raise e -> e = OverflowError.
Proof.
  unfold gpu_memory_percent_of. destruct (Z.ltb_spec 0 (total mem_info)) as [Hpos|_];
    [|discriminate].
  destruct (Py.int_truediv _ _) as [q|e'] eqn:Hdiv; cbn; [discriminate|].
  intros [= <-]. eapply int_truediv_raises; [|exact Hdiv]. lia.
Qed.

Lemma memory_percent_raises ram_total rss0 e :
  memory_percent ram_total rss0 = Raise e -> e = OverflowError.
Proof.
  unfold memory_percent. destruct (Z.eqb_spec ram_total 0) as [_|Hnz]; [discriminate|].
  destruct (Py.int_truediv _ _) as [q|e'] eqn:Hdiv; cbn; [discriminate|].
  intros [= <-]. eapply int_truediv_raises; [|exact Hdiv]. exact Hnz.
Qed.

Lemma gpu_info_body_raises lib :
  raises_only (fun e => is_NVMLError e \/ e = OverflowError) (gpu_info_body lib).
Proof.
  assert (forall A c (answer : nvml_return A),
             raises_only (fun e => is_NVMLError e \/ e = OverflowError) (call c answer))
    as Hcall.
  { intros A c answer. eapply raises_only_impl; [|apply raises_only_call]. now left. }
  unfold gpu_info_body.
  apply raises_only_bind; [apply Hcall|]. intros device_count.
  apply raises_only_fold. intros l i.
  do 5 (apply raises_only_bind; [apply Hcall|]; intros ?).
  apply raises_only_bind; [|intros ?; exact I].
  unfold raises_only, lift_res. cbn.
  destruct (gpu_memory_percent_of _) as [p|e] eqn:Hp; [exact I|].
  right. now apply gpu_memory_percent_of_raises in Hp.
Qed.

Lemma get_gpu_info_raises lib g :
  raises_only (fun e => e = OverflowError) (get_gpu_info lib g).
Proof.
  unfold get_gpu_info. destruct (negb (is_available g)); [exact I|].
  apply (raises_only_try _ (fun e => is_NVMLError e \/ e = OverflowError)).
  - apply raises_only_bind; [apply gpu_info_body_raises|]. intros l. exact I.
  - auto.
  - intros msg. exact I.
Qed.

Lemma process_record_raises ram_total g info e :
  process_record ram_total g info = Raise e -> e = AttributeError \/ e = OverflowError.
Proof.
  unfold process_record. destruct (info_memory_info info) as [m|]; cbn.
  - destruct (memory_percent _ _) as [p|e'] eqn:Hp; cbn; [discriminate|].
    intros [= <-]. right. now apply memory_percent_raises in Hp.
  - intros [= <-]. now left.
Qed.

Lemma collect_processes_raises ram_total g procs acc e :
  collect_processes ram_total g procs acc = Raise e ->
  e = AttributeError \/ e = OverflowError.
Proof.
  revert acc. induction procs as [|[info|err] procs IH]; intros acc; cbn [collect_processes].
  - discriminate.
  - destruct (process_record _ _ _) as [d|e'] eqn:Hd; cbn [res_bind].
    + apply IH.
    + intros [= <-]. now apply process_record_raises in Hd.
  - apply IH.
Qed.

Lemma collect_data_raises w s : raises_only uncaught (_collect_data w s).
Proof.
  unfold _collect_data.
  destruct (Nat.le_gt_cases (length (cpu_times w)) (length (_last_cpu_times s)))
    as [Hle|Hgt].
  - rewrite calculate_cpu_percent_ok by assumption.
    apply raises_only_bind; [exact I|]. intros [total per].
    apply raises_only_bind.
    { unfold raises_only, lift_res. cbn [snd].
      destruct (collect_processes _ _ _ _) as [l|e] eqn:Hl; [exact I|].
      apply collect_processes_raises in Hl. unfold uncaught. tauto. }
    intros processes_data.
    apply raises_only_bind.
    { eapply raises_only_impl; [|apply get_gpu_info_raises].
      intros e ->. unfold uncaught. tauto. }
    intros [g' gpu_list]. exact I.
  - rewrite calculate_cpu_percent_raise by assumption. cbn. now left.
Qed.

(** The exception a step ends [run] on, by the statement that raises. *)
Lemma step_raised_at w th e :
  (forall e0, at_pc th <> Crashed e0) ->
  at_pc (step w th) = Crashed e -> raised_at (at_pc th) e.
Proof.
  intros Hth. unfold step.
  destruct (at_pc th) as [| |start|start|start d|start d|start| |e0] eqn:Hpc;
    cbn [at_pc raised_at]; try discriminate.
  - destruct (_is_running (self th)); [discriminate|].
    destruct (raises_only_never _ (shutdown_raises (lib w) (gpu_monitor (self th))))
      as (t & [] & ->). discriminate.
  - pose proof (map_pids_to_gpus_raises (lib w) (gpu_monitor (self th))) as Hr.
    unfold raises_only in Hr.
    destruct (_map_pids_to_gpus _ _) as [t [g|e']]; cbn in *; [discriminate|].
    now intros [= <-].
  - pose proof (collect_data_raises w (self th)) as Hc. unfold raises_only in Hc.
    destruct (_collect_data w (self th)) as [t [[s' d]|e']]; cbn in *; [discriminate|].
    now intros [= <-].
  - now destruct (_is_running (self th)).
  - pose proof (end_of_tick_outcome w (_refresh_interval (self th)) start) as Hend.
    destruct (end_of_tick _ _ _) as [t [[]|e']]; cbn [at_pc snd] in *; [discriminate|].
    intros [= <-]. destruct (sleep_refused _ _ _); congruence.
  - rewrite Hpc. discriminate.
  - now destruct (Hth e0).
Qed.

Lemma raised_at_ends_run p e : raised_at p e -> ends_run e.
Proof.
  unfold ends_run. destruct p; cbn; try contradiction.
  - now left.
  - now right.
  - intros ->. right. unfold uncaught. tauto.
Qed.

Lemma step_crashed w th :
  (forall e, at_pc th = Crashed e -> ends_run e) ->
  forall e, at_pc (step w th) = Crashed e -> ends_run e.
Proof.
  intros Hth e Hstep.
  destruct (at_pc th) as [| |start|start|start d|start d|start| |e0] eqn:Hpc;
    try (apply (raised_at_ends_run (at_pc th)), (step_raised_at w); [|exact Hstep];
         intros e0; rewrite Hpc; discriminate).
  unfold step in Hstep. rewrite Hpc, Hpc in Hstep. now apply Hth.
Qed.

Lemma exec_crashed_ends_run schedule th :
  (forall e, at_pc th = Crashed e -> ends_run e) ->
  forall e, at_pc (exec schedule th) = Crashed e -> ends_run e.
Proof.
  revert th. induction schedule as [|a schedule IH]; intros th Hth; [exact Hth|].
  rewrite exec_cons. apply IH. destruct a as [w|]; cbn [perform at_pc]; [|exact Hth].
  now apply step_crashed.
Qed.

End RaisesOnly.

(** X12. No [NVMLError] escapes a method of the accessor, whatever the
    library answers to each call: the constructor and [shutdown] always
    return; the listing can raise nothing but the [OverflowError] of its
    memory quotient; and the refresh can raise nothing but the
    [TypeError] of adding a memory figure that is [None].  The refresh
    returns whenever every entry the library lists carries its figure,
    and a refresh that returns leaves the availability flag as it was. *)
Theorem accessor_contains_nvml_errors (PYNXML_AVAILABLE : bool) (lib : pynvml) (g : GPUMonitor) :
  (exists t g0, GPUMonitor_init PYNXML_AVAILABLE lib = (t, Ok g0)) /\
  (exists t, shutdown lib g = (t, Ok tt)) /\
  raises_only (fun e => e = OverflowError) (get_gpu_info lib g) /\
  raises_only (fun e => e = TypeError) (_map_pids_to_gpus lib g) /\
  (reports_all_figures lib -> exists t g', _map_pids_to_gpus lib g = (t, Ok g')) /\
  (forall t g', _map_pids_to_gpus lib g = (t, Ok g') -> is_available g' = is_available g).
Proof.
  split; [apply raises_only_never, GPUMonitor_init_raises|]. split; [|split; [|split; [|split]]].
  - destruct (raises_only_never _ (shutdown_raises lib g)) as (t & [] & Hs). eauto.
  - apply get_gpu_info_raises.
  - apply map_pids_to_gpus_raises.
  - apply map_pids_to_gpus_returns.
  - apply map_pids_to_gpus_flag.
Qed.

(** The driver does not report the memory of one process: the refresh
    raises [TypeError], which its [except pynvml.NVMLError] does not
    catch, and [run] ends there. *)
Example refresh_raises_on_missing_figure :
  snd (_map_pids_to_gpus figure_missing enabled_gpu) = Raise TypeError /\
  at_pc (step (machine_without_figure 10 one_busy_one_idle) (in_tick 1.5))
  = Crashed TypeError.
Proof. split; vm_compute; reflexivity. Qed.

(** X13. [run] ends in two ways only: it returns after [stop], or one of
    three statements raises: the refresh ([TypeError], a memory figure
    that is [None]), the collection ([IndexError], a core the baseline
    does not have; [AttributeError], a process without memory figures;
    [OverflowError], a quotient of integers too large for a float) and
    [time.sleep] ([OverflowError], a duration it refuses).  The start,
    the tests of the flag, the emission and the release never raise; an
    [NVMLError] never ends [run], and nothing divides by zero. *)
Theorem run_ends_on_uncaught_errors_only
    (s : SystemMonitor) (schedule : list action) (e : exn) :
  at_pc (exec schedule (spawn s)) = Crashed e ->
  ends_run e /\
  (forall msg, e <> NVMLError msg) /\
  e <> ZeroDivisionError /\
  (forall w th e',
      (forall e0, at_pc th <> Crashed e0) ->
      at_pc (step w th) = Crashed e' -> raised_at (at_pc th) e').
Proof.
  intros Hcrashed.
  assert (ends_run e) as Hends
    by (apply (exec_crashed_ends_run schedule (spawn s)); [cbn; discriminate|assumption]).
  split; [exact Hends|]. split; [|split].
  - intros msg ->. destruct Hends as [?|[?|[?|?]]]; discriminate.
  - intros ->. destruct Hends as [?|[?|[?|?]]]; discriminate.
  - intros w th e'. apply step_raised_at.
Qed.

(** A third core comes online in the first tick of the sample worker. *)
Lemma run_ends_on_uncaught_errors_only_witness :
  at_pc (exec [Run (machine 10 idle_start); Run (machine 10 idle_start);
               Run (machine 10 idle_start); Run (machine_with_new_core 10.5)]
              (spawn (worker 1.5)))
  = Crashed IndexError /\
  ends_run IndexError /\
  (forall msg, IndexError <> NVMLError msg) /\
  IndexError <> ZeroDivisionError /\
  (forall w th e',
      (forall e0, at_pc th <> Crashed e0) ->
      at_pc (step w th) = Crashed e' -> raised_at (at_pc th) e').
Proof.
  split; [reflexivity|].
  apply (run_ends_on_uncaught_errors_only
           (worker 1.5)
           [Run (machine 10 idle_start); Run (machine 10 idle_start);
            Run (machine 10 idle_start); Run (machine_with_new_core 10.5)]).
  reflexivity.
Defined.

(** The other two statements that can end [run], on the sample machine:
    a refresh that meets an entry without a figure, and the sleep of a
    worker whose interval is infinite. *)
Example run_ends_at_refresh_and_at_sleep :
  let w := machine 10 one_busy_one_idle in
  at_pc (exec [Run w; Run w; Run (machine_without_figure 10 one_busy_one_idle)]
              (spawn (worker 1.5)))
  = Crashed TypeError /\
  at_pc (exec [Run w; Run w; Run w; Run w; Run w; Run w; Run w] (spawn (worker infinity)))
  = Crashed OverflowError.
Proof. split; vm_compute; reflexivity. Qed.

(** * The listing of the devices *)

Section Listing.

Lemma foldl_snoc {A B} (f : B -> A) (l : list B) (acc : list A) :
  foldl (fun acc x => acc ++ [f x]) acc l = acc ++ (f <$> l).
Proof.
  revert acc. induction l as [|x l IH]; intros acc; cbn.
  - now rewrite app_nil_r.
  - rewrite IH. now rewrite <- app_assoc.
Qed.

Lemma range_lookup n i : 0 <= i < n -> range n !! Z.to_nat i = Some i.
Proof.
  intros Hi. unfold range. rewrite list_lookup_fmap, lookup_seq_lt by lia.
  cbn. f_equal. lia.
Qed.

Lemma range_length n : length (range n) = Z.to_nat n.
Proof. unfold range. now rewrite length_fmap, length_seq. Qed.

Lemma gpu_memory_percent_of_ok mem_info :
  Z.abs (used mem_info) < 2 ^ 1023 ->
  exists p, gpu_memory_percent_of mem_info = Ok p /\
            (total mem_info <= 0 -> p = PyInt 0).
Proof.
  intros Hused. unfold gpu_memory_percent_of.
  destruct (Z.ltb_spec 0 (total mem_info)) as [Hpos|Hle].
  - destruct (int_truediv_ok (used mem_info) (total mem_info)) as [q ->]; [lia|assumption|].
    cbn. eexists. split; [reflexivity|]. lia.
  - eexists. split; [reflexivity|]. reflexivity.
Qed.

End Listing.

(** X14. When the accessor is enabled and every query of the listing
    succeeds, [get_gpu_info] returns one entry per device, in the order
    of the device indices, and leaves the accessor as it was.  The entry
    of a device holds the name, UUID, total and used memory and
    utilization the library reported for it, and as memory percent the
    quotient [used / total * 100], or the integer 0 for a device that
    reports no memory. *)
Theorem listing_has_one_entry_per_device
    (lib : pynvml) (self : GPUMonitor) (device_count : Z) (device : Z -> device_answers) :
  is_available self = true ->
  answers_listing lib device_count device ->
  (forall i, 0 <= i < device_count -> Z.abs (used (da_memory (device i))) < 2 ^ 1023) ->
  exists t l,
    get_gpu_info lib self = (t, Ok (self, l)) /\
    length l = Z.to_nat device_count /\
    forall i, 0 <= i < device_count ->
      exists entry, l !! Z.to_nat i = Some entry /\ describes (device i) entry.
Proof.
  intros Havail [Hcount Hdevice] Hused.
  set (entry_of := fun i =>
         {| gpu_name := da_name (device i);
            gpu_uuid := da_uuid (device i);
            gpu_total_memory := total (da_memory (device i));
            gpu_used_memory := used (da_memory (device i));
            gpu_memory_percent :=
              match gpu_memory_percent_of (da_memory (device i)) with
              | Ok p => p
              | Raise _ => PyInt 0
              end;
            gpu_utilization := utilization_gpu (da_utilization (device i)) |}).
  assert (exists t, gpu_info_body lib = (t, Ok (entry_of <$> range device_count))) as [t Ht].
  { unfold gpu_info_body, call. rewrite Hcount, eff_bind_ok.
    match goal with |- context [eff_fold ?f ?l ?a] =>
      destruct (eff_fold_ok f (fun acc i => acc ++ [entry_of i]) l) with (acc := a)
        as [t Ht]
    end.
    - intros acc i Hi%range_elem_of.
      destruct (Hdevice i Hi) as (-> & Hname & Hmem & Hutil & Huuid). cbn.
      rewrite Hname. cbn. rewrite Hmem. cbn. rewrite Hutil. cbn. rewrite Huuid. cbn.
      unfold entry_of.
      destruct (gpu_memory_percent_of_ok (da_memory (device i)) (Hused i Hi))
        as (p & -> & _).
      cbn. eauto.
    - rewrite Ht, foldl_snoc. cbn. eauto. }
  rewrite get_gpu_info_enabled by assumption. rewrite Ht.
  eexists _, _. split; [reflexivity|]. split.
  - now rewrite length_fmap, range_length.
  - intros i Hi. exists (entry_of i). split.
    + now rewrite list_lookup_fmap, range_lookup.
    + unfold describes, entry_of. cbn.
      destruct (gpu_memory_percent_of_ok (da_memory (device i)) (Hused i Hi))
        as (p & -> & Hzero).
      repeat split; assumption.
Qed.

(** The listing of the two devices of the sample library. *)
Lemma listing_has_one_entry_per_device_witness :
  exists t l,
    get_gpu_info two_gpus enabled_gpu = (t, Ok (enabled_gpu, l)) /\
    length l = 2%nat /\
    forall i, 0 <= i < 2 ->
      exists entry, l !! Z.to_nat i = Some entry /\ describes (two_gpus_device i) entry.
Proof.
  apply (listing_has_one_entry_per_device two_gpus enabled_gpu 2 two_gpus_device).
  - reflexivity.
  - split; [reflexivity|]. intros i Hi. repeat split; reflexivity.
  - intros i Hi. reflexivity.
Defined.

Example two_gpus_listing :
  snd (get_gpu_info two_gpus enabled_gpu)
  = Ok (enabled_gpu,
        [ {| gpu_name := "GPU"; gpu_uuid := "GPU-0000";
             gpu_total_memory := 1024 * MB; gpu_used_memory := 256 * MB;
             gpu_memory_percent := PyFloat 25; gpu_utilization := 30 |};
          {| gpu_name := "GPU"; gpu_uuid := "GPU-0000";
             gpu_total_memory := 1024 * MB; gpu_used_memory := 256 * MB;
             gpu_memory_percent := PyFloat 25; gpu_utilization := 30 |} ]).
Proof. vm_compute. reflexivity. Qed.

(** * The CPU baseline from tick to tick *)

Section SubDiag.

Lemma SFsub_diag x :
  match x with S754_zero _ | S754_finite _ _ _ => True | _ => False end ->
  SFsub prec emax x x = S754_zero false.
Proof.
  destruct x as [s|s| |s m e]; intros H; try contradiction.
  - now destruct s.
  - cbn [SFsub]. now rewrite Z.sub_diag.
Qed.

Lemma is_finite_SF x :
  is_finite x = true ->
  match Prim2SF x with S754_zero _ | S754_finite _ _ _ => True | _ => False end.
Proof.
  unfold is_finite, is_nan, is_infinity.
  rewrite !FloatAxioms.eqb_spec, FloatAxioms.abs_spec.
  destruct (Prim2SF x) as [s|s| |s m e]; cbn; try easy.
  now destruct s.
Qed.

(** A finite number minus itself is [+0.0]. *)
Lemma sub_diag (x : float) : is_finite x = true -> (x - x)%float = 0%float.
Proof.
  intros H%is_finite_SF. apply Prim2SF_inj.
  now rewrite FloatAxioms.sub_spec, SFsub_diag.
Qed.

End SubDiag.

Section Unchanged.

Lemma deltas_unchanged (delta : scputimes -> scputimes -> float) sample :
  (forall c, finite_times c -> delta c c = 0%float) ->
  Forall finite_times sample ->
  deltas delta sample sample = replicate (length sample) 0%float.
Proof.
  intros Hdelta Hfin. unfold deltas.
  induction Hfin as [|c sample Hc _ IH]; [reflexivity|].
  cbn. now rewrite Hdelta, IH.
Qed.

Lemma float_sum_zeros n : float_sum (replicate n 0%float) = 0%float.
Proof. unfold float_sum. induction n as [|n IH]; [reflexivity|exact IH]. Qed.

Lemma delta_user_unchanged c : finite_times c -> delta_user c c = 0%float.
Proof. intros (H & _ & _). now apply sub_diag. Qed.

Lemma delta_system_unchanged c : finite_times c -> delta_system c c = 0%float.
Proof. intros (_ & H & _). now apply sub_diag. Qed.

Lemma delta_idle_unchanged c : finite_times c -> delta_idle c c = 0%float.
Proof. intros (_ & _ & H). now apply sub_diag. Qed.

Lemma delta_all_unchanged c : finite_times c -> delta_all c c = 0%float.
Proof.
  intros H. unfold delta_all.
  now rewrite delta_user_unchanged, delta_system_unchanged, delta_idle_unchanged.
Qed.

Lemma core_values_unchanged sample :
  Forall finite_times sample ->
  zip_with core_value sample sample = replicate (length sample) 0%float.
Proof.
  intros Hfin. induction Hfin as [|c sample Hc _ IH]; [reflexivity|].
  cbn [zip_with length replicate]. rewrite IH. f_equal.
  unfold core_value.
  now rewrite delta_all_unchanged, delta_user_unchanged, delta_system_unchanged.
Qed.

Lemma aggregated_percent_unchanged sample :
  Forall finite_times sample -> aggregated_percent sample sample = 0%float.
Proof.
  intros Hfin. unfold aggregated_percent.
  rewrite !deltas_unchanged by
    (assumption || apply delta_user_unchanged || apply delta_system_unchanged
     || apply delta_all_unchanged).
  now rewrite !float_sum_zeros.
Qed.

End Unchanged.

(** X15. When psutil reports the very counters of the baseline again
    (nothing was accounted between the two samples) and they are finite,
    the computation returns 0.0 for the total and 0.0 for every core: no
    division takes place, and the result is neither NaN nor an error. *)
Theorem unchanged_counters_read_zero (sample : list scputimes) :
  Forall finite_times sample ->
  _calculate_cpu_percent sample sample
  = (sample, Ok (0%float, replicate (length sample) 0%float)).
Proof.
  intros Hfin. rewrite calculate_cpu_percent_ok by reflexivity.
  now rewrite aggregated_percent_unchanged, core_values_unchanged.
Qed.

Lemma unchanged_counters_read_zero_witness :
  Forall finite_times one_busy_one_idle /\
  _calculate_cpu_percent one_busy_one_idle one_busy_one_idle
  = (one_busy_one_idle, Ok (0%float, [0%float; 0%float])).
Proof.
  assert (Forall finite_times one_busy_one_idle) as Hfin
    by (repeat constructor).
  split; [exact Hfin|]. exact (unchanged_counters_read_zero one_busy_one_idle Hfin).
Defined.

Section Baseline.

Lemma to_next_collection_steps th start d w_e w_g w_s w_w w_r :
  at_pc th = AtEmit start d -> _is_running (self th) = true ->
  sleep_refused w_s (_refresh_interval (self th)) start = false ->
  reports_all_figures (lib w_r) ->
  let th' := exec (to_next_collection w_e w_g w_s w_w w_r) th in
  at_pc th' = AtCollect (time w_w) /\
  _last_cpu_times (self th') = _last_cpu_times (self th) /\
  _is_running (self th') = true /\
  emitted (trace th') = emitted (trace th) ++ [d].
Proof.
  intros Hpc Hflag Hsleep Hfigures. cbv zeta. unfold to_next_collection, exec.
  cbn [foldl perform].
  set (th0 := step w_e th).
  assert (at_pc th0 = AtSignal start d /\ self th0 = self th /\
          trace th0 = trace th) as (Hpc0 & Hs0 & Ht0)
    by (unfold th0, step; now rewrite Hpc, Hflag).
  clearbody th0.
  set (th1 := step w_g th0).
  assert (at_pc th1 = AtSleep start /\ self th1 = self th /\
          emitted (trace th1) = emitted (trace th) ++ [d]) as (Hpc1 & Hs1 & He1).
  { unfold th1, step. rewrite Hpc0. cbn [at_pc self trace].
    now rewrite emitted_app, Ht0, Hs0. }
  clearbody th1.
  set (th2 := step w_s th1).
  assert (at_pc th2 = AtWhile /\ self th2 = self th /\
          emitted (trace th2) = emitted (trace th) ++ [d]) as (Hpc2 & Hs2 & He2).
  { destruct (step_at_sleep w_s th1 start Hpc1) as (Hself & Htrace & Hnext).
    fold th2 in Hself, Htrace, Hnext. rewrite Hs1 in Hself, Htrace, Hnext.
    rewrite Hsleep in Hnext. split; [exact Hnext|]. split; [exact Hself|].
    now rewrite Htrace, emitted_app, end_of_tick_emitted, app_nil_r. }
  clearbody th2.
  set (th3 := step w_w th2).
  assert (at_pc th3 = AtRefresh (time w_w) /\ self th3 = self th /\
          emitted (trace th3) = emitted (trace th) ++ [d]) as (Hpc3 & Hs3 & He3).
  { unfold th3, step. rewrite Hpc2, Hs2, Hflag. cbn [at_pc self trace]. now rewrite He2. }
  clearbody th3.
  destruct (map_pids_to_gpus_returns (lib w_r) (gpu_monitor (self th)) Hfigures)
    as (t & g & Hg).
  assert (step w_r th3 = {| self := with_gpu_monitor (self th) g;
                            at_pc := AtCollect (time w_w);
                            trace := trace th3 ++ t |}) as ->
    by (unfold step; now rewrite Hpc3, Hs3, Hg).
  cbn [at_pc self trace with_gpu_monitor _last_cpu_times _is_running].
  rewrite emitted_app, He3, (quiet_emitted t), app_nil_r; [now repeat split|].
  pose proof (map_pids_to_gpus_quiet (lib w_r) (gpu_monitor (self th))) as Hq.
  now rewrite Hg in Hq.
Qed.

End Baseline.

(** X16. The baseline of the CPU computation is carried from one tick to
    the next by the worker and by nothing else.  After a collection that
    returned, when the sleep of the tick is not refused and every process
    entry of the next refresh carries its memory figure, the test of the
    flag, the emission, the sleep, the test of the loop and the refresh
    leave the baseline alone, so the next collection measures its sample
    against the sample of the tick before, both for the total and core by
    core; the snapshot of the first tick has been published by then. *)
Theorem tick_measures_against_previous_sample
    (th : thread) (start : float) (w1 w_e w_g w_s w_w w_r w2 : world)
    (t1 t2 : list event) (s1 s2 : SystemMonitor) (d1 d2 : system_data) :
  at_pc th = AtCollect start ->
  _is_running (self th) = true ->
  _collect_data w1 (self th) = (t1, Ok (s1, d1)) ->
  sleep_refused w_s (_refresh_interval (self th)) start = false ->
  reports_all_figures (lib w_r) ->
  _collect_data w2 (self (exec (Run w1 :: to_next_collection w_e w_g w_s w_w w_r) th))
  = (t2, Ok (s2, d2)) ->
  at_pc (exec (Run w1 :: to_next_collection w_e w_g w_s w_w w_r) th)
  = AtCollect (time w_w) /\
  emitted (trace (exec (Run w1 :: to_next_collection w_e w_g w_s w_w w_r) th))
  = emitted (trace th) ++ [d1] /\
  at_pc (step w2 (exec (Run w1 :: to_next_collection w_e w_g w_s w_w w_r) th))
  = AtEmit (time w_w) d2 /\
  measured_against (cpu_times w2) (cpu_times w1) d2 /\
  _last_cpu_times s2 = cpu_times w2.
Proof.
  intros Hpc Hflag Hc1 Hsleep Hfigures. rewrite exec_cons. cbn [perform].
  destruct (collect_data_Ok _ _ _ _ _ Hc1)
    as (_ & _ & _ & _ & Hgpu1 & Hlast1 & Hflag1 & Hinterval1).
  assert (step w1 th = {| self := s1; at_pc := AtEmit start d1; trace := trace th ++ t1 |})
    as Hstep by (unfold step; now rewrite Hpc, Hc1).
  destruct (to_next_collection_steps (step w1 th) start d1 w_e w_g w_s w_w w_r)
    as (Hpc' & Hlast' & Hflag' & Hemitted');
    [now rewrite Hstep|rewrite Hstep; cbn; congruence
    |rewrite Hstep; cbn [self]; now rewrite Hinterval1|assumption|].
  set (th' := exec (to_next_collection w_e w_g w_s w_w w_r) (step w1 th)) in *.
  clearbody th'. intros Hc2.
  destruct (collect_data_Ok _ _ _ _ _ Hc2) as (_ & Htotal & Hper & _ & _ & Hlast2 & _).
  rewrite Hlast', Hstep in Htotal, Hper. cbn [self] in Htotal, Hper.
  rewrite Hlast1 in Htotal, Hper.
  split; [assumption|]. split.
  { rewrite Hemitted', Hstep. cbn [trace]. rewrite emitted_app, (quiet_emitted t1); [|].
    - now rewrite app_nil_r.
    - pose proof (collect_data_quiet w1 (self th)) as Hq. now rewrite Hc1 in Hq. }
  split; [unfold step; now rewrite Hpc', Hc2|].
  split; [now split|assumption].
Qed.

(** Two ticks of the sample worker: the first samples
    [one_busy_one_idle], the second [next_sample], in which one core was
    busy for 1 of 2 seconds and the other idle for 2: 25% in total, 50%
    and 0% per core. *)
Lemma tick_measures_against_previous_sample_witness :
  exists d1 d2,
    let w := machine 10 idle_start in
    let w1 := machine 10.5 one_busy_one_idle in
    let w2 := machine 12 next_sample in
    let th := exec [Run w] (in_tick 1.5) in
    let th' := exec (Run w1 :: to_next_collection w1 w1 w1 w2 w2) th in
    (at_pc th' = AtCollect (time w2) /\
     emitted (trace th') = emitted (trace th) ++ [d1] /\
     at_pc (step w2 th') = AtEmit (time w2) d2 /\
     measured_against next_sample one_busy_one_idle d2 /\
     _last_cpu_times (self (step w2 th')) = next_sample) /\
    cpu_total_percent (cpu d2) = 25%float /\
    cpu_per_cpu_percent (cpu d2) = [50%float; 0%float].
Proof.
  eexists _, _. cbv zeta. split.
  - eapply (tick_measures_against_previous_sample
              (exec [Run (machine 10 idle_start)] (in_tick 1.5)) 10%float
              (machine 10.5 one_busy_one_idle)
              (machine 10.5 one_busy_one_idle) (machine 10.5 one_busy_one_idle)
              (machine 10.5 one_busy_one_idle)
              (machine 12 next_sample) (machine 12 next_sample) (machine 12 next_sample));
      try reflexivity.
    intros handle procs [= <-]. cbn. destruct (handle =? 10); repeat constructor; now eexists.
  - split; reflexivity.
Defined.

(** * The two ends of the scale *)

Section Endpoints.

Lemma div_eucl_multiple m k : 0 < m -> Z.div_eucl (m * k) m = (k, 0).
Proof.
  intros Hm. pose proof (Z_div_mod (m * k) m ltac:(lia)) as H.
  destruct (Z.div_eucl (m * k) m) as [q r]. destruct H as [Heq Hr].
  assert (q = k) as -> by nia. f_equal. lia.
Qed.

Lemma new_location_exact n : new_location n 0 = loc_Exact.
Proof. unfold new_location. now destruct (Z.even n). Qed.

(** A finite number that is not zero, divided by itself, is 1. *)
Lemma SFdiv_diag s m e :
  SFdiv prec emax (S754_finite s m e) (S754_finite s m e) = Prim2SF 1.
Proof.
  cbn [SFdiv]. unfold SFdiv_core_binary. rewrite !Z.sub_diag.
  change (Z.min (fexp prec emax 0) 0) with (-53).
  change (0 - -53) with 53.
  cbv beta iota zeta.
  rewrite Z.shiftl_mul_pow2 by lia.
  rewrite div_eucl_multiple by lia. rewrite new_location_exact.
  destruct s; reflexivity.
Qed.

Lemma is_zero_SF x :
  Py.is_zero x = true -> exists s, Prim2SF x = S754_zero s.
Proof.
  unfold Py.is_zero. rewrite FloatAxioms.eqb_spec.
  destruct (Prim2SF x) as [s|s| |s m e]; try (now destruct s); eauto; discriminate.
Qed.

Lemma not_zero_SF x s : Py.is_zero x = false -> Prim2SF x <> S754_zero s.
Proof.
  unfold Py.is_zero. rewrite FloatAxioms.eqb_spec. intros H Hx. rewrite Hx in H.
  now destruct s.
Qed.

Lemma div_diag (x : float) :
  is_finite x = true -> Py.is_zero x = false -> (x / x)%float = 1%float.
Proof.
  intros Hfin%is_finite_SF Hnz. apply Prim2SF_inj. rewrite FloatAxioms.div_spec.
  destruct (Prim2SF x) as [s|s| |s m e] eqn:Hx; try contradiction.
  - now apply not_zero_SF with (s := s) in Hnz.
  - apply SFdiv_diag.
Qed.

(** Adding a zero to a finite number that is not zero changes nothing. *)
Lemma add_zero_r (x z : float) :
  is_finite x = true -> Py.is_zero x = false -> Py.is_zero z = true -> (x + z)%float = x.
Proof.
  intros Hfin%is_finite_SF Hnz [sz Hz]%is_zero_SF. apply Prim2SF_inj.
  rewrite FloatAxioms.add_spec, Hz.
  destruct (Prim2SF x) as [s|s| |s m e] eqn:Hx; try contradiction.
  - now apply not_zero_SF with (s := s) in Hnz.
  - reflexivity.
Qed.

Lemma zero_cases (q : float) s :
  Prim2SF q = S754_zero s -> q = 0%float \/ q = (-0)%float.
Proof.
  intros Hq. destruct s; [right|left]; apply Prim2SF_inj; now rewrite Hq.
Qed.

(** Zero divided by a number that is not zero is a zero. *)
Lemma zero_div (z y : float) :
  Py.is_zero z = true -> Py.is_zero y = false -> is_nan y = false ->
  (z / y = 0)%float \/ (z / y = -0)%float.
Proof.
  intros [sz Hz]%is_zero_SF Hnz Hnan.
  assert (exists s, Prim2SF (z / y) = S754_zero s) as [s Hs].
  { rewrite FloatAxioms.div_spec, Hz.
    unfold is_nan in Hnan. rewrite FloatAxioms.eqb_spec in Hnan.
    destruct (Prim2SF y) as [s|s| |s m e] eqn:Hy; cbn; eauto.
    - now apply not_zero_SF with (s := s) in Hnz.
    - discriminate. }
  now apply zero_cases in Hs.
Qed.

Lemma core_value_saturated cur lst :
  Py.is_zero (delta_idle cur lst) = true ->
  is_finite (delta_user cur lst + delta_system cur lst) = true ->
  Py.is_zero (delta_user cur lst + delta_system cur lst) = false ->
  core_value cur lst = 100%float.
Proof.
  intros Hidle Hfin Hnz. unfold core_value, percent_value, delta_all.
  rewrite (add_zero_r _ _ Hfin Hnz Hidle), Hnz, (div_diag _ Hfin Hnz). reflexivity.
Qed.

Lemma core_value_idle cur lst :
  Py.is_zero (delta_user cur lst + delta_system cur lst) = true ->
  is_nan (delta_all cur lst) = false ->
  core_value cur lst = 0%float.
Proof.
  intros Hbusy Hnan. unfold core_value, percent_value.
  destruct (Py.is_zero (delta_all cur lst)) eqn:Hall; [reflexivity|].
  destruct (zero_div _ _ Hbusy Hall Hnan) as [-> | ->]; reflexivity.
Qed.

Lemma calculate_cpu_percent_lookup current_times last_times total per_cpu i cur lst :
  snd (_calculate_cpu_percent current_times last_times) = Ok (total, per_cpu) ->
  current_times !! i = Some cur -> last_times !! i = Some lst ->
  per_cpu !! i = Some (core_value cur lst).
Proof.
  intros Hcalc Hcur Hlst.
  destruct (Nat.le_gt_cases (length current_times) (length last_times)) as [Hle|Hgt].
  - rewrite calculate_cpu_percent_ok in Hcalc by assumption. cbn in Hcalc.
    injection Hcalc as _ <-. now apply core_values_lookup.
  - rewrite calculate_cpu_percent_raise in Hcalc by assumption. discriminate.
Qed.

End Endpoints.

(** X17. A core that accumulated busy time (user plus system, finite and
    not zero) and no idle time between the two samples reads exactly
    100.0. *)
Theorem saturated_core_reads_hundred
    (current_times last_times : list scputimes) (total : float) (per_cpu : list float)
    (i : nat) (cur lst : scputimes) :
  snd (_calculate_cpu_percent current_times last_times) = Ok (total, per_cpu) ->
  current_times !! i = Some cur -> last_times !! i = Some lst ->
  Py.is_zero (delta_idle cur lst) = true ->
  is_finite (delta_user cur lst + delta_system cur lst) = true ->
  Py.is_zero (delta_user cur lst + delta_system cur lst) = false ->
  per_cpu !! i = Some 100%float.
Proof.
  intros Hcalc Hcur Hlst Hidle Hfin Hnz.
  rewrite (calculate_cpu_percent_lookup _ _ _ _ _ _ _ Hcalc Hcur Hlst).
  f_equal. now apply core_value_saturated.
Qed.

(** The first core of [one_busy_one_idle]: busy for 1 second, never idle. *)
Lemma saturated_core_reads_hundred_witness :
  [100%float; 0%float] !! 0%nat = Some 100%float.
Proof.
  apply (saturated_core_reads_hundred one_busy_one_idle idle_start 25%float
           [100%float; 0%float] 0 (cputimes 1 0 0) (cputimes 0 0 0));
    reflexivity.
Defined.

(** X18. A core that accumulated no busy time (user plus system) between
    the two samples reads exactly 0.0, whatever its idle counter did, as
    long as the sum of its deltas is a number; when that sum is NaN the
    clamping turns the NaN into 100.0. *)
Theorem idle_core_reads_zero
    (current_times last_times : list scputimes) (total : float) (per_cpu : list float)
    (i : nat) (cur lst : scputimes) :
  snd (_calculate_cpu_percent current_times last_times) = Ok (total, per_cpu) ->
  current_times !! i = Some cur -> last_times !! i = Some lst ->
  (Py.is_zero (delta_user cur lst + delta_system cur lst) = true ->
   is_nan (delta_all cur lst) = false ->
   per_cpu !! i = Some 0%float) /\
  (is_nan (delta_all cur lst) = true -> per_cpu !! i = Some 100%float).
Proof.
  intros Hcalc Hcur Hlst.
  rewrite (calculate_cpu_percent_lookup _ _ _ _ _ _ _ Hcalc Hcur Hlst). split.
  - intros Hbusy Hnan. f_equal. now apply core_value_idle.
  - intros Hnan. f_equal. unfold core_value, percent_value.
    assert (Prim2SF (delta_all cur lst) = S754_nan) as Hall.
    { unfold is_nan in Hnan. rewrite FloatAxioms.eqb_spec in Hnan.
      destruct (Prim2SF (delta_all cur lst)) as [s|s| |s m e] eqn:Hd; [..|reflexivity| ];
        unfold SFeqb in Hnan; rewrite SFcompare_refl in Hnan; discriminate. }
    assert (Py.is_zero (delta_all cur lst) = false) as ->.
    { unfold Py.is_zero. now rewrite FloatAxioms.eqb_spec, Hall. }
    assert ((delta_user cur lst + delta_system cur lst) / delta_all cur lst * 100 = nan)%float
      as ->.
    { apply Prim2SF_inj.
      rewrite FloatAxioms.mul_spec, FloatAxioms.div_spec, Hall.
      now destruct (Prim2SF (delta_user cur lst + delta_system cur lst)). }
    reflexivity.
Qed.

(** The second core of [one_busy_one_idle]: idle for 3 seconds. *)
Lemma idle_core_reads_zero_witness :
  [100%float; 0%float] !! 1%nat = Some 0%float.
Proof.
  apply (idle_core_reads_zero one_busy_one_idle idle_start 25%float
           [100%float; 0%float] 1 (cputimes 0 0 3) (cputimes 0 0 0));
    reflexivity.
Defined.

(** A core whose idle counter is NaN. *)
Example nan_counter_reads_hundred :
  snd (_calculate_cpu_percent [cputimes 0 0 nan] [cputimes 0 0 0])
  = Ok (100%float, [100%float]).
Proof. reflexivity. Qed.
